(** * Nigeria-Data-Scraper: a shallow embedding of the fetch-and-merge core

    The repository is a family of Streamlit applications (super.py,
    jim.py, yap.py, my.py, ...) that scrape statistical pages, extract
    records and merge them into one pandas DataFrame.  This development
    embeds the functions the specification talks about:

    - [test_website_accessibility]              (super.py 489-496, yap.py 779-786)
    - [scrape_pdf] and its parsing back ends    (super.py 498-728)
    - [scrape_website], [scrape_with_requests]  (super.py 730-869)
    - [extract_html_data]                       (super.py 871-968)
    - [parse_json_data], [flatten_dict]         (super.py 970-1058, jim.py 952-967)
    - [smart_scrape_multiple_websites]          (super.py 1181-1244, jim.py 1032-1089)
    - [extract_all_tables]                      (yap.py 439-486, my.py 453-482)

    and, around them, the code they call and the code that calls them:

    - [get_nigerian_statistical_websites],
      [get_working_websites]                    (super.py 1060-1179, yap.py 918-1000)
    - [RobustRequestSession.get]                (super.py 403-442)
    - the test for sample data in [main]        (super.py 1523)
    - [ThreadSafeLogger]                        (super.py 161-181)
    - [scrape_website], [smart_scrape_tables]   (yap.py 788-916, 1002-1061)
    - [scrape_topic], [extract_text_data],
      [get_context], [get_topic_sources]        (my.py 624-762)

    Library calls (requests, BeautifulSoup, re, pandas.read_html, the PDF
    readers, the builtin [str]) are not part of the repository: they are
    the fields of the class [Runtime] below.  The theorems hold for every
    runtime; the examples run the code on [demo_runtime].  Python values
    are the type [pyval]; a Python [dict] is an insertion-ordered
    association list, because [str] of a dict and the columns of a
    DataFrame follow that order; a raised exception is the [Raised] case
    of [result]. *)

From Stdlib Require Import ZArith Lia Ascii String.
From stdpp Require Import base tactics option list strings pretty sorting.

Open Scope string_scope.
Open Scope list_scope.
Open Scope Z_scope.

(* ===================================================================== *)
(** * 1. Python data *)
(* ===================================================================== *)

(** Python values that occur in records.  Floating point numbers are left
    out: JSON numbers and table cells are integers or strings here. *)
#[warnings="-register-all"]
Inductive pyval : Type :=
| PNone
| PBool (b : bool)
| PInt (z : Z)
| PStr (s : string)
| PList (xs : list pyval)
| PDict (kvs : list (string * pyval)).

(** A [dict] with string keys, in insertion order. *)
Abbreviation pydict := (list (string * pyval)).

(** Exceptions.  The code only ever distinguishes them by being caught. *)
Inductive exn : Type :=
| ConnectionError
| TimeoutError
| ValueError
| KeyError
| TypeError
| ImportError
| OtherError (msg : string).

(** The outcome of evaluating an expression that may raise. *)
Inductive result (A : Type) : Type :=
| Ok (a : A)
| Raised (e : exn).
Arguments Ok {A} a.
Arguments Raised {A} e.


(** ** Strings *)

Definition is_upper (c : ascii) : bool :=
  let n := nat_of_ascii c in (65 <=? n)%nat && (n <=? 90)%nat.

(** [c.lower()] on ASCII letters; every other byte is unchanged. *)
Definition lower_char (c : ascii) : ascii :=
  if is_upper c then ascii_of_nat (nat_of_ascii c + 32) else c.

(** [s.lower()] *)
Fixpoint lower (s : string) : string :=
  match s with
  | EmptyString => EmptyString
  | String c s' => String (lower_char c) (lower s')
  end.

(** The characters [str.split()] and [str.strip()] treat as white space
    (ASCII range): TAB, LF, VT, FF, CR, FS, GS, RS, US and space. *)
Definition is_space (c : ascii) : bool :=
  let n := nat_of_ascii c in
  ((9 <=? n)%nat && (n <=? 13)%nat) || ((28 <=? n)%nat && (n <=? 32)%nat).

Definition is_digit (c : ascii) : bool :=
  let n := nat_of_ascii c in (48 <=? n)%nat && (n <=? 57)%nat.

Definition is_empty (s : string) : bool :=
  match s with EmptyString => true | String _ _ => false end.

(** [s.split()]: the maximal runs of non-space characters, in order.
    [cur] is the token being read. *)
Fixpoint split_go (s cur : string) : list string :=
  match s with
  | EmptyString => if is_empty cur then [] else [cur]
  | String c s' =>
      if is_space c
      then (if is_empty cur then split_go s' EmptyString
            else cur :: split_go s' EmptyString)
      else split_go s' (cur +:+ String c EmptyString)
  end.

Definition split (s : string) : list string := split_go s EmptyString.

(** [t in s] for two strings: [t] occurs in [s] as a substring. *)
Fixpoint contains (s t : string) : bool :=
  String.prefix t s ||
  match s with
  | EmptyString => false
  | String _ s' => contains s' t
  end.

(** [s[:n]] for a constant [n >= 0]. *)
Fixpoint str_take (n : nat) (s : string) : string :=
  match n, s with
  | S n', String c s' => String c (str_take n' s')
  | _, _ => EmptyString
  end.

Fixpoint lstrip (s : string) : string :=
  match s with
  | String c s' => if is_space c then lstrip s' else s
  | EmptyString => EmptyString
  end.

(** [s.strip()] *)
Definition strip (s : string) : string :=
  String.rev (lstrip (String.rev (lstrip s))).

(** [sep.join(xs)] *)
Fixpoint join (sep : string) (xs : list string) : string :=
  match xs with
  | [] => EmptyString
  | [x] => x
  | x :: xs' => x +:+ sep +:+ join sep xs'
  end.

(** [s.split('\n')] *)
Fixpoint lines_go (s cur : string) : list string :=
  match s with
  | EmptyString => [cur]
  | String c s' =>
      if Ascii.eqb c "010"%char then cur :: lines_go s' EmptyString
      else lines_go s' (cur +:+ String c EmptyString)
  end.

Definition split_lines (s : string) : list string := lines_go s EmptyString.

(** [s.find(t)]: the index of the first occurrence of [t] in [s], or -1.
    [i] is the index of the head of [s]. *)
Fixpoint find_from (i : Z) (s t : string) : Z :=
  if String.prefix t s then i
  else match s with
       | EmptyString => -1
       | String _ s' => find_from (i + 1) s' t
       end.

Definition find (s t : string) : Z := find_from 0 s t.

(** [s[n:]] for [n >= 0] *)
Fixpoint str_drop (n : nat) (s : string) : string :=
  match n, s with
  | S n', String _ s' => str_drop n' s'
  | _, _ => s
  end.

(** A bound of a slice of a sequence of length [len], as Python reads
    it: a negative bound counts from the end, and both are clamped. *)
Definition slice_index (len i : Z) : Z :=
  if i <? 0 then Z.max 0 (len + i) else Z.min i len.

(** [s[start:stop]] *)
Definition str_slice (s : string) (start stop : Z) : string :=
  let len := Z.of_nat (String.length s) in
  let a := slice_index len start in
  let b := slice_index len stop in
  str_take (Z.to_nat (b - a)) (str_drop (Z.to_nat a) s).

(** [l[:n]] for an arbitrary integer [n]: a negative bound counts from
    the end of the list. *)
Definition slice_to {A} (n : Z) (l : list A) : list A :=
  if 0 <=? n then take (Z.to_nat n) l
  else take (length l - Z.to_nat (- n))%nat l.

(** ** Dictionaries *)

(** [d.get(k)] *)
Fixpoint dict_get (k : string) (d : pydict) : option pyval :=
  match d with
  | [] => None
  | (k', v) :: d' => if String.eqb k k' then Some v else dict_get k d'
  end.

(** [d[k] = v]: replaces the value in place, or appends a new key. *)
Fixpoint dict_set (k : string) (v : pyval) (d : pydict) : pydict :=
  match d with
  | [] => [(k, v)]
  | (k', v') :: d' =>
      if String.eqb k k' then (k, v) :: d' else (k', v') :: dict_set k v d'
  end.

(** [dict(items)]: later pairs win, keys keep their first position. *)
Definition dict_of_items (items : list (string * pyval)) : pydict :=
  foldl (λ d kv, dict_set kv.1 kv.2 d) [] items.

(** [k in d] *)
Definition has_key (k : string) (d : pydict) : bool :=
  match dict_get k d with Some _ => true | None => false end.

(** Values pandas can hash; a [list] or [dict] cannot be hashed. *)
Definition hashable (v : pyval) : bool :=
  match v with PList _ | PDict _ => false | _ => true end.

(** Structural equality of values. *)
Fixpoint pyval_eqb (a b : pyval) {struct a} : bool :=
  match a, b with
  | PNone, PNone => true
  | PBool x, PBool y => Bool.eqb x y
  | PInt x, PInt y => Z.eqb x y
  | PStr x, PStr y => String.eqb x y
  | PList xs, PList ys =>
      (fix go (xs ys : list pyval) : bool :=
         match xs, ys with
         | [], [] => true
         | x :: xs', y :: ys' => pyval_eqb x y && go xs' ys'
         | _, _ => false
         end) xs ys
  | PDict xs, PDict ys =>
      (fix go (xs ys : list (string * pyval)) : bool :=
         match xs, ys with
         | [], [] => true
         | (k, x) :: xs', (k', y) :: ys' =>
             String.eqb k k' && pyval_eqb x y && go xs' ys'
         | _, _ => false
         end) xs ys
  | _, _ => false
  end.

(* ===================================================================== *)
(** * 2. pandas *)
(* ===================================================================== *)

(** A cell holds a value, or is missing ([None] here; NaN or None in
    pandas, which treats the two alike when it compares rows). *)
Abbreviation cell := (option pyval).

Record DataFrame : Type := {
  columns : list string;
  rows : list (list cell)
}.

(** [len(df)] and [df.empty] *)
Definition df_len (df : DataFrame) : nat := length (rows df).

Definition df_empty (df : DataFrame) : bool :=
  match rows df, columns df with
  | [], _ | _, [] => true
  | _, _ => false
  end.

Definition mem (k : string) (ks : list string) : bool :=
  existsb (String.eqb k) ks.

(** Column labels: the keys of the records, in order of first appearance. *)
Definition add_columns (cols : list string) (r : pydict) : list string :=
  foldl (λ cs kv, if mem kv.1 cs then cs else cs ++ [kv.1]) cols r.

Definition all_columns (data : list pydict) : list string :=
  foldl add_columns [] data.

Definition cell_of (r : pydict) (c : string) : cell :=
  match dict_get c r with
  | Some PNone => None
  | o => o
  end.

Definition row_of (cols : list string) (r : pydict) : list cell :=
  map (cell_of r) cols.

(** [pd.DataFrame(data)] for a list of dicts: one row per dict, a key a
    dict lacks is a missing cell. *)
Definition pd_DataFrame (data : list pydict) : DataFrame :=
  {| columns := all_columns data;
     rows := map (row_of (all_columns data)) data |}.

Definition cell_eqb (a b : cell) : bool :=
  match a, b with
  | None, None => true
  | Some x, Some y => pyval_eqb x y
  | _, _ => false
  end.

Fixpoint row_eqb (r1 r2 : list cell) : bool :=
  match r1, r2 with
  | [], [] => true
  | a :: r1', b :: r2' => cell_eqb a b && row_eqb r1' r2'
  | _, _ => false
  end.

(** Keep every row that equals none of the rows [seen] before it. *)
Fixpoint keep_first (seen rs : list (list cell)) : list (list cell) :=
  match rs with
  | [] => []
  | r :: rs' =>
      if existsb (row_eqb r) seen then keep_first seen rs'
      else r :: keep_first (r :: seen) rs'
  end.

Definition cell_hashable (c : cell) : bool :=
  match c with Some v => hashable v | None => true end.

(** [df.drop_duplicates()], after the pandas documentation: rows are
    compared on all columns and the first of equal rows is kept.  pandas
    hashes the cells to do so, and raises TypeError on a cell that holds
    a list or a dict.  Cells are equal when they hold the same value or
    are both missing. *)
Definition drop_duplicates (df : DataFrame) : result DataFrame :=
  if forallb (forallb cell_hashable) (rows df)
  then Ok {| columns := columns df; rows := keep_first [] (rows df) |}
  else Raised TypeError.

(** [row.to_dict()] for a row of [df.iterrows()] *)
Definition row_to_dict (cols : list string) (r : list cell) : pydict :=
  dict_of_items (zip_with (λ c x, (c, default PNone x)) cols r).

(** [df.head(n)] followed by [row.to_dict()] on each row *)
Definition head_dicts (n : nat) (df : DataFrame) : list pydict :=
  map (row_to_dict (columns df)) (take n (rows df)).

(** [df[c]] at one row: the cell of the row in the column labelled [c];
    a missing cell if the frame has no such column. *)
Fixpoint cell_at (cols : list string) (row : list cell) (c : string) : cell :=
  match cols, row with
  | c' :: cols', x :: row' =>
      if String.eqb c c' then x else cell_at cols' row' c
  | _, _ => None
  end.

Definition is_missing (c : cell) : bool :=
  match c with None => true | Some _ => false end.

(** [df.dropna(how='all')]: drop the rows whose cells are all missing. *)
Definition dropna_all (df : DataFrame) : DataFrame :=
  {| columns := columns df;
     rows := List.filter (λ r, negb (forallb is_missing r)) (rows df) |}.

(* ===================================================================== *)
(** * 3. The libraries and the network *)
(* ===================================================================== *)

(** An element of [xml.etree.ElementTree]: tag, text, children. *)
#[warnings="-register-all"]
Inductive Element : Type :=
| Elem (tag : string) (text : option string) (children : list Element).

(** A [<table>] tag of a parsed page. *)
Record HtmlTable : Type := {
  (** [pd.read_html(str(table))] *)
  table_read_html : result (list DataFrame);
  (** [table.find_all('tr')]; for each row, [get_text(strip=True)] of the
      cells [row.find_all(['td', 'th'])] *)
  table_tr : list (list string);
  (** [str(table)] *)
  table_html : string
}.

(** A row and a [<div>] of a table laid out with divs (yap.py). *)
Record DivRow : Type := {
  (** texts of [row.find_all(['div', 'td', 'th'])] *)
  header_cells : list string;
  (** texts of [row.find_all(['div', 'td'])] *)
  data_cells : list string
}.

Record Div : Type := {
  (** [div.find_all(['div', 'tr'], class_=re.compile(r'row|tr'))] *)
  div_rows : list DivRow;
  (** [str(div)] *)
  div_html : string
}.

(** What BeautifulSoup answers about a parsed page. *)
Record Page : Type := {
  (** [soup.get_text()] *)
  get_text : string;
  (** [soup.find_all('table')] *)
  find_tables : list HtmlTable;
  (** [get_text(strip=True)] of [soup.find_all(['p', 'div', 'span'])] *)
  find_text_elements : list string;
  (** the [href] of the links [soup.find_all('a', href=...)] that end in
      [.pdf] *)
  find_pdf_hrefs : list string;
  (** [pd.read_html(str(soup), flavor='html5lib')] *)
  soup_read_html : result (list DataFrame);
  (** [soup.find_all('div', pattern)] for the six patterns of
      [_extract_div_tables], in the order of that list *)
  find_divs : list (list Div)
}.

Record Response : Type := {
  status_code : Z;
  (** [response.headers.get('content-type', '')] *)
  content_type : string;
  (** [response.content] *)
  content : string;
  (** [response.text] *)
  text : string
}.

Inductive Request : Type :=
| Head (url : string) (timeout : Z)
| Get (url : string) (timeout : Z).

(** Everything the code obtains from outside the repository. *)
Class Runtime : Type := {
  (** the builtin [str] *)
  py_str : pyval → string;
  (** [re.findall(pattern, text, flags)] and [re.search(pattern, text,
      flags)]; the boolean is [re.IGNORECASE] *)
  re_findall : bool → string → string → list string;
  re_search : bool → string → string → bool;
  (** [list(set(xs))]: the distinct elements in the order the set yields *)
  list_of_set : list string → list string;
  (** [datetime.now().strftime('%Y-%m-%d')] *)
  today : string;
  (** [df.to_string()] *)
  df_to_string : DataFrame → string;
  (** the answer to the [n]-th request the process sends *)
  net : nat → Request → result Response;
  urljoin : string → string → string;
  (** [response.json()] and [ET.fromstring], of the response body *)
  json_loads : string → result pyval;
  ET_fromstring : string → result Element;
  (** [BeautifulSoup(content, 'html.parser')] *)
  BeautifulSoup : string → Page;
  (** [driver.get(url)] then [BeautifulSoup(driver.page_source)], as the
      [n]-th request *)
  driver_get : nat → string → result Page;
  (** The PDF readers: opening the document may raise; if it does not, it
      gives the pages, and [extract_text()] of a page may raise. *)
  pdfplumber_open : string → result (list (result string));
  PyPDF2_PdfReader : string → result (list (result string));
  pdfminer_extract : string → result string;
  fitz_open : string → result (list (result string));
  textract_process : string → result string;
  (** which of the optional imports succeeded *)
  pdfplumber_in_globals : bool;
  PyPDF2_in_globals : bool;
  pdfminer_extract_in_globals : bool;
  FITZ_AVAILABLE : bool;
  TEXTTRACT_AVAILABLE : bool;
  PDF_LIBRARIES_AVAILABLE : bool
}.

(** ** Code that talks to the network

    A computation takes the number of requests sent so far and returns
    the new count with its outcome.  A request sent before an exception
    stays sent. *)
Definition IO (A : Type) : Type := nat → nat * result A.

Definition io_ret {A} (a : A) : IO A := λ t, (t, Ok a).

Definition io_lift {A} (r : result A) : IO A := λ t, (t, r).

Definition io_bind {A B} (m : IO A) (k : A → IO B) : IO B :=
  λ t, match m t with
       | (t', Ok a) => k a t'
       | (t', Raised e) => (t', Raised e)
       end.

(** [try: m  except Exception: handler] *)
Definition io_try {A} (m : IO A) (handler : exn → IO A) : IO A :=
  λ t, match m t with
       | (t', Raised e) => handler e t'
       | r => r
       end.

Notation "'let*' x ':=' m 'in' k" := (io_bind m (λ x, k))
  (at level 10, x name, m at level 100, k at level 200).

Definition send `{Runtime} (rq : Request) : IO Response :=
  λ t, (S t, net t rq).

(** A non-empty list is true. *)
Definition truthy {A} (l : list A) : bool :=
  match l with [] => false | _ => true end.

(* ===================================================================== *)
(** * 4. Extractors (super.py) *)
(* ===================================================================== *)

(** [for i, x in enumerate(l[:limit])]: the results of the body, in order.
    [i] is the index of the head of [l]. *)
Definition for_enumerate {A B} (f : nat → A → list B)
  : nat → nat → list A → list B :=
  fix go (limit i : nat) (l : list A) {struct l} : list B :=
    match limit, l with
    | S limit', x :: l' => f i x ++ go limit' (S i) l'
    | _, _ => []
    end.

(** [new_key = f"{parent_key}{sep}{k}" if parent_key else k] *)
Definition new_key_of (parent_key sep k : string) : string :=
  if is_empty parent_key then k else parent_key +:+ sep +:+ k.

(** [f"{new_key}_{i}"] *)
Definition index_key (new_key : string) (i : nat) : string :=
  new_key +:+ "_" +:+ pretty i.

Section Extractors.
Context `{Runtime}.

(** [flatten_dict(d, parent_key, sep)] with the bound [limit] on the
    elements of a list (super.py 1043-1058 with 2, jim.py 952-967 with
    3).  [d] is a dict at every call; the recursion is on the value. *)
Fixpoint flatten_value (limit : nat) (d : pyval) (parent_key sep : string)
  {struct d} : pydict :=
  match d with
  | PDict kvs =>
      dict_of_items
        (flat_map
           (λ kv, let '(k, v) := kv in
              let new_key := new_key_of parent_key sep k in
              match v with
              | PDict _ => flatten_value limit v new_key sep
              | PList xs =>
                  for_enumerate
                    (λ i item,
                       match item with
                       | PDict _ =>
                           flatten_value limit item (index_key new_key i) sep
                       | _ => [(index_key new_key i, PStr (py_str item))]
                       end) limit 0%nat xs
              | _ => [(new_key, PStr (py_str v))]
              end) kvs)
  | _ => []
  end.

Definition flatten_dict_limit (limit : nat) (d : pydict)
  (parent_key sep : string) : pydict :=
  flatten_value limit (PDict d) parent_key sep.

(** super.py 879-901 *)
Definition nigeria_patterns : list (string * string) :=
  [ ("GDP.*?(?:growth|rate|size).*?\d+\.?\d*", "Economic");
    ("inflation.*?(?:rate|%).*?\d+\.?\d*", "Economic");
    ("unemployment.*?(?:rate|%).*?\d+\.?\d*", "Labor");
    ("population.*?(?:of|in).*?\d+[\d,]*(?:\s*million|\s*billion)?",
     "Demographic");
    ("census.*?\d{4}.*?\d+[\d,]*", "Demographic");
    ("mortality.*?(?:rate|ratio).*?\d+\.?\d*", "Health");
    ("life.*?expectancy.*?\d+\.?\d*", "Health");
    ("literacy.*?(?:rate|%).*?\d+\.?\d*", "Education");
    ("enrollment.*?(?:rate|%).*?\d+\.?\d*", "Education");
    ("\d+\.?\d*\s*%", "General");
    ("\d{1,3}(?:,\d{3})+", "General");
    ("\d+\s*(?:million|billion|thousand)", "General") ].

(** super.py 903-912: at most 3 matches of each pattern *)
Definition pattern_records (all_text url : string) : list pydict :=
  flat_map
    (λ pc, let '(pattern, category) := pc in
       map (λ m, [ ("Statistical_Match", PStr m);
                   ("Category", PStr category);
                   ("Source_URL", PStr url);
                   ("Pattern_Type", PStr pattern);
                   ("Scrape_Date", PStr today) ])
           (take 3 (re_findall true pattern all_text)))
    nigeria_patterns.

(** super.py 916-942, the body of the loop for table [i]: pandas first,
    the rows of the tag if pandas raises *)
Definition table_records (i : nat) (table : HtmlTable) (url : string)
  : list pydict :=
  match table_read_html table with
  | Ok df_list =>
      match df_list with
      | df :: _ =>
          map (λ row_dict,
                 dict_set "Content_Type" (PStr "HTML_Table")
                   (dict_set "Source_URL" (PStr url)
                      (dict_set "Table_Index" (PInt (Z.of_nat i)) row_dict)))
              (head_dicts 2 df)
      | [] => []
      end
  | Raised _ =>
      flat_map
        (λ row_data,
           if (2 <=? length row_data)%nat
              && existsb (re_search false "\d") row_data
           then [ [ ("Table_Data", PStr (join " | " row_data));
                    ("Source_URL", PStr url);
                    ("Content_Type", PStr "HTML_Table_Raw");
                    ("Scrape_Date", PStr today) ] ]
           else [])
        (take 3 (table_tr table))
  end.

(** super.py 945-956 *)
Definition text_records (soup : Page) (url : string) : list pydict :=
  flat_map
    (λ text,
       if (20 <? String.length text)%nat && (String.length text <? 500)%nat
          && re_search false "\d+\.?\d*\s*%|\d+[\d,]*\.?\d*" text
       then [ [ ("Text_Content", PStr (str_take 300 text));
                ("Source_URL", PStr url);
                ("Content_Type", PStr "HTML_Text");
                ("Word_Count", PInt (Z.of_nat (length (split text))));
                ("Scrape_Date", PStr today) ] ]
       else [])
    (take 10 (find_text_elements soup)).

(** super.py 871-956: [data] before the query filter *)
Definition html_data (soup : Page) (url : string) : list pydict :=
  pattern_records (get_text soup) url
  ++ for_enumerate (λ i table, table_records i table url) 2 0%nat
       (find_tables soup)
  ++ text_records soup url.

(** super.py 960-966 *)
Definition filter_by_query (search_query : string) (data : list pydict)
  : list pydict :=
  let search_terms := split (lower search_query) in
  List.filter
    (λ item,
       let item_str := lower (py_str (PDict item)) in
       existsb (λ term, contains item_str term) search_terms)
    data.

(** super.py 871-968 *)
Definition extract_html_data (soup : Page) (url : string)
  (search_query : option string) : list pydict :=
  let data := html_data soup url in
  match search_query with
  | Some q =>
      if negb (is_empty q) && truthy data then filter_by_query q data
      else data
  | None => data
  end.

(** super.py 970-990 *)
Definition json_record (d : pydict) (url : string) : pydict :=
  dict_set "Data_Type" (PStr "JSON")
    (dict_set "Source_URL" (PStr url) (flatten_dict_limit 2 d "" "_")).

Definition parse_json_data (json_data : pyval) (url : string)
  : list pydict :=
  match json_data with
  | PList items =>
      flat_map (λ item, match item with
                        | PDict d => [json_record d url]
                        | _ => []
                        end)
               (take 5 items)
  | PDict d => [json_record d url]
  | _ => []
  end.

(** super.py 1014-1022 *)
Fixpoint xml_to_dict (element : Element) : pydict :=
  match element with
  | Elem _ _ children =>
      dict_of_items
        (map (λ child,
                match child with
                | Elem tag text [] =>
                    (tag, match text with Some s => PStr s | None => PNone end)
                | Elem tag _ (_ :: _) => (tag, PDict (xml_to_dict child))
                end)
             children)
  end.

(** super.py 992-1012; the loop over the children of the root is the
    loop of [xml_to_dict] *)
Definition parse_xml_data (xml_data : Element) (url : string)
  : list pydict :=
  let xml_dict := xml_to_dict xml_data in
  if truthy xml_dict
  then [ dict_set "Data_Type" (PStr "XML")
           (dict_set "Source_URL" (PStr url) xml_dict) ]
  else [].

(** super.py 1024-1041 *)
Definition parse_text_data (text_data url : string) : list pydict :=
  flat_map
    (λ line,
       if re_search true
            "\d+\.?\d*\s*%|\d+\s*(?:million|billion|thousand)" line
       then [ [ ("Text_Line", PStr (str_take 200 (strip line)));
                ("Source_URL", PStr url);
                ("Data_Type", PStr "Text");
                ("Scrape_Date", PStr today) ] ]
       else [])
    (take 30 (split_lines text_data)).

End Extractors.

(* ===================================================================== *)
(** * 5. The prefilter, PDF extraction and one website (super.py) *)
(* ===================================================================== *)

(** The five parsing methods of [scrape_pdf], in the order of the list
    [methods]. *)
Inductive method : Type :=
| pdfplumber_method
| pypdf2_method
| pdfminer_method
| pymupdf_method
| textract_method.


(** [for i, page in enumerate(pages)] inside a [try]: the records of the
    pages before the first page whose text extraction raises. *)
Fixpoint for_pages (f : nat → string → list pydict) (i : nat)
  (pages : list (result string)) : list pydict :=
  match pages with
  | [] => []
  | Ok page_text :: pages' => f i page_text ++ for_pages f (S i) pages'
  | Raised _ :: _ => []
  end.

(** [re.findall(r'\((.*?)\)', s)]: the text between an opening parenthesis
    and the next closing one on the same line ([.] does not match a line
    feed).  [inside] is the text read since the pending opening
    parenthesis.  An attempt fails only on a line feed or at the end of
    [s], and then every later opening parenthesis before that point fails
    for the same reason, so scanning resumes after the line feed. *)
Fixpoint paren_findall (s : string) (inside : option string) : list string :=
  match s with
  | EmptyString => []
  | String c s' =>
      match inside with
      | None =>
          if Ascii.eqb c "("%char then paren_findall s' (Some EmptyString)
          else paren_findall s' None
      | Some acc =>
          if Ascii.eqb c ")"%char then acc :: paren_findall s' None
          else if Ascii.eqb c "010"%char then paren_findall s' None
          else paren_findall s' (Some (acc +:+ String c EmptyString))
      end
  end.

Section Website.
Context `{Runtime}.

(** super.py 489-496 (the same text in yap.py 779-786) *)
Definition test_website_accessibility (url : string) : IO bool :=
  io_try
    (let* response := send (Head url 5) in
     io_ret (status_code response <? 400))
    (λ _, io_ret false).

(** [self.request_session.get(url)], super.py 411-425: a GET with the
    session's timeout of 30 seconds.  The DNS check before it and the
    re-labelling of the exceptions after it change which exception is
    raised, not whether one is. *)
Definition request_session_get (url : string) : IO Response :=
  send (Get url 30).

(** super.py 680-700 *)
Definition statistics_patterns : list string :=
  [ "\b\d+\.?\d*\s*%\b";
    "\b\d{1,3}(?:,\d{3})+\b";
    "\bGDP.*?\d[,\d]*\.?\d*\b";
    "\bpopulation.*?\d[,\d]*\.?\d*\b";
    "\bunemployment.*?\d[,\d]*\.?\d*\b";
    "\binflation.*?\d[,\d]*\.?\d*\b";
    "\b\d+\.?\d*\s*(million|billion|thousand)\b";
    "\b(?:rate|ratio|percentage|proportion).*?\d+\.?\d*\b" ].

Definition _extract_statistics_from_text (text : string) : list string :=
  let stats := flat_map (λ pattern, re_findall true pattern text)
                        statistics_patterns in
  take 20 (list_of_set stats).

(** super.py 564-585 *)
Definition _parse_pdf_with_pdfplumber (pdf_content url : string)
  : list pydict :=
  match pdfplumber_open pdf_content with
  | Ok pages =>
      for_pages
        (λ i text,
           if negb (is_empty text) && (10 <? String.length (strip text))%nat
           then map (λ stat, [ ("PDF_URL", PStr url);
                               ("Page", PInt (Z.of_nat i + 1));
                               ("Content_Type", PStr "PDF_statistic");
                               ("Extracted_Data", PStr stat);
                               ("Parser", PStr "pdfplumber");
                               ("Scrape_Date", PStr today) ])
                    (_extract_statistics_from_text text)
           else [])
        0%nat (take 3 pages)
  | Raised _ => []
  end.

(** super.py 587-607 *)
Definition _parse_pdf_with_pypdf2 (pdf_content url : string) : list pydict :=
  match PyPDF2_PdfReader pdf_content with
  | Ok pages =>
      for_pages
        (λ i text,
           if negb (is_empty text)
           then map (λ stat, [ ("PDF_URL", PStr url);
                               ("Page", PInt (Z.of_nat i + 1));
                               ("Content_Type", PStr "PDF_text");
                               ("Extracted_Data", PStr (str_take 200 stat));
                               ("Parser", PStr "PyPDF2");
                               ("Scrape_Date", PStr today) ])
                    (_extract_statistics_from_text text)
           else [])
        0%nat (take 3 pages)
  | Raised _ => []
  end.

(** super.py 609-626 *)
Definition _parse_pdf_with_pdfminer (pdf_content url : string)
  : list pydict :=
  match pdfminer_extract pdf_content with
  | Ok text =>
      if negb (is_empty text)
      then map (λ stat, [ ("PDF_URL", PStr url);
                          ("Content_Type", PStr "PDF_statistic");
                          ("Extracted_Data", PStr (str_take 300 stat));
                          ("Parser", PStr "pdfminer");
                          ("Scrape_Date", PStr today) ])
               (take 10 (_extract_statistics_from_text text))
      else []
  | Raised _ => []
  end.

(** super.py 628-650 *)
Definition _parse_pdf_with_pymupdf (pdf_content url : string)
  : list pydict :=
  if FITZ_AVAILABLE then
    match fitz_open pdf_content with
    | Ok doc =>
        for_pages
          (λ i text,
             if negb (is_empty text)
             then flat_map
                    (λ line,
                       if re_search false "\d" line
                          && (5 <? String.length (strip line))%nat
                       then [ [ ("PDF_URL", PStr url);
                                ("Page", PInt (Z.of_nat i + 1));
                                ("Content_Type", PStr "PDF_text");
                                ("Extracted_Line",
                                 PStr (str_take 200 (strip line)));
                                ("Parser", PStr "PyMuPDF");
                                ("Scrape_Date", PStr today) ] ]
                       else [])
                    (take 30 (split_lines text))
             else [])
          0%nat (take 3 doc)
    | Raised _ => []
    end
  else [].

(** super.py 652-678 *)
Definition _parse_pdf_with_textract (pdf_content url : string)
  : list pydict :=
  if TEXTTRACT_AVAILABLE then
    match textract_process pdf_content with
    | Ok text =>
        if negb (is_empty text)
        then map (λ stat, [ ("PDF_URL", PStr url);
                            ("Content_Type", PStr "PDF_number");
                            ("Extracted_Number", PStr stat);
                            ("Parser", PStr "textract");
                            ("Scrape_Date", PStr today) ])
                 (take 10
                    (re_findall false
                       "\b\d+\.?\d*\s*%\b|\b\d{1,3}(?:,\d{3})*\b" text))
        else []
    | Raised _ => []
    end
  else [].

(** Calling a method.  Every method catches what its reader raises, so
    the call itself returns. *)
Definition call_method (m : method) (pdf_content url : string)
  : result (list pydict) :=
  Ok (match m with
      | pdfplumber_method => _parse_pdf_with_pdfplumber pdf_content url
      | pypdf2_method => _parse_pdf_with_pypdf2 pdf_content url
      | pdfminer_method => _parse_pdf_with_pdfminer pdf_content url
      | pymupdf_method => _parse_pdf_with_pymupdf pdf_content url
      | textract_method => _parse_pdf_with_textract pdf_content url
      end).

(** super.py 516-533: the list [methods] *)
Definition methods : list method :=
  (if pdfplumber_in_globals then [pdfplumber_method] else [])
  ++ (if PyPDF2_in_globals then [pypdf2_method] else [])
  ++ (if pdfminer_extract_in_globals then [pdfminer_method] else [])
  ++ (if FITZ_AVAILABLE then [pymupdf_method] else [])
  ++ (if TEXTTRACT_AVAILABLE then [textract_method] else []).

(** super.py 536-545: [pdf_data] after the loop over [methods] *)
Fixpoint try_methods (ms : list method) (pdf_content url : string)
  : list pydict :=
  match ms with
  | [] => []
  | m :: ms' =>
      match call_method m pdf_content url with
      | Ok data =>
          if truthy data then data else try_methods ms' pdf_content url
      | Raised _ => try_methods ms' pdf_content url
      end
  end.

(** The second half of [_extract_basic_pdf_text], super.py 719-726 *)
Definition parenthesis_text (pdf_content : string) : string :=
  let matches := paren_findall pdf_content None in
  join " " (take 30 matches).

(** [text] after the loop over [pdf_reader.pages[:2]]; [None] if a page
    raises *)
Fixpoint basic_pages_text (pages : list (result string)) (text : string)
  : option string :=
  match pages with
  | [] => Some text
  | Ok page_text :: pages' =>
      basic_pages_text pages'
        (if negb (is_empty page_text)
         then text +:+ page_text +:+ String "010"%char EmptyString
         else text)
  | Raised _ :: _ => None
  end.

(** super.py 702-728: PyPDF2 once more, and the parentheses only if
    PyPDF2 is missing or raises *)
Definition _extract_basic_pdf_text (pdf_content : string) : string :=
  let fallback := parenthesis_text pdf_content in
  if PyPDF2_in_globals then
    match PyPDF2_PdfReader pdf_content with
    | Ok pages =>
        match basic_pages_text (take 2 pages) EmptyString with
        | Some text => text
        | None => fallback
        end
    | Raised _ => fallback
    end
  else fallback.

(** super.py 548-557 *)
Definition basic_record (basic_text url : string) : pydict :=
  [ ("PDF_URL", PStr url);
    ("Content_Type", PStr "PDF");
    ("Extracted_Text",
     PStr (if (500 <? String.length basic_text)%nat
           then str_take 500 basic_text +:+ "..."
           else basic_text));
    ("Note", PStr "Basic text extraction");
    ("Scrape_Date", PStr today) ].

(** super.py 514-557: [pdf_data] for a downloaded document *)
Definition parse_pdf_content (pdf_content url : string) : list pydict :=
  let pdf_data := try_methods methods pdf_content url in
  if negb (truthy pdf_data) then
    let basic_text := _extract_basic_pdf_text pdf_content in
    if negb (is_empty basic_text) then [basic_record basic_text url] else []
  else pdf_data.

(** super.py 498-562 *)
Definition scrape_pdf (url : string) : IO (list pydict) :=
  io_try
    (let* accessible := test_website_accessibility url in
     if negb accessible then io_ret []
     else
       let* response := request_session_get url in
       if (status_code response =? 200)
          && contains (lower (content_type response)) "application/pdf"
       then io_ret (parse_pdf_content (content response) url)
       else io_ret [])
    (λ _, io_ret []).

(** super.py 809-817: at most one linked PDF *)
Fixpoint embedded_pdfs (url : string) (pdf_links : list string)
  : IO (list pydict) :=
  match pdf_links with
  | [] => io_ret []
  | href :: links' =>
      let* pdf_data := scrape_pdf (urljoin url href) in
      let* more := embedded_pdfs url links' in
      io_ret (pdf_data ++ more)
  end.

(** super.py 773-822 *)
Definition scrape_with_requests (url : string) (search_query : option string)
  : IO (list pydict) :=
  io_try
    (let* response := request_session_get url in
     if status_code response =? 200 then
       let content_type := lower (content_type response) in
       let* data :=
         if contains content_type "application/pdf" && PDF_LIBRARIES_AVAILABLE
         then scrape_pdf url
         else if contains content_type "application/json"
         then let* json_data := io_lift (json_loads (content response)) in
              io_ret (parse_json_data json_data url)
         else if contains content_type "application/xml"
                 || contains content_type "text/xml"
         then let* xml_data := io_lift (ET_fromstring (content response)) in
              io_ret (parse_xml_data xml_data url)
         else if contains content_type "text/html"
         then io_ret (extract_html_data (BeautifulSoup (content response))
                        url search_query)
         else if contains content_type "text/plain"
         then io_ret (parse_text_data (text response) url)
         else io_ret [] in
       let* pdf_data :=
         if PDF_LIBRARIES_AVAILABLE
         then embedded_pdfs url
                (take 1 (find_pdf_hrefs (BeautifulSoup (content response))))
         else io_ret [] in
       io_ret (data ++ pdf_data)
     else io_ret [])
    (λ _, io_ret []).

(** super.py 849-869 *)
Definition scrape_with_api (url : string) (search_query : option string)
  : IO (list pydict) :=
  io_try
    (let* response := request_session_get url in
     if status_code response =? 200 then
       let content_type := lower (content_type response) in
       if contains content_type "application/json"
       then let* json_data := io_lift (json_loads (content response)) in
            io_ret (parse_json_data json_data url)
       else if contains content_type "application/xml"
               || contains content_type "text/xml"
       then let* xml_data := io_lift (ET_fromstring (content response)) in
            io_ret (parse_xml_data xml_data url)
       else io_ret []
     else io_ret [])
    (λ _, io_ret []).

(** The scraper object: [self.max_workers], [self.use_selenium] and
    whether [self.driver] is set. *)
Record Scraper : Type := {
  max_workers : Z;
  use_selenium : bool;
  driver : bool
}.

(** super.py 824-847 *)
Definition scrape_with_selenium (self : Scraper) (url : string)
  (search_query : option string) : IO (list pydict) :=
  if negb (driver self) then scrape_with_requests url search_query
  else
    io_try
      (let* soup := (λ t, (S t, driver_get t url)) in
       io_ret (extract_html_data soup url search_query))
      (λ _, scrape_with_requests url search_query).

(** One entry of the catalog: a dict with these five keys.  [category]
    and [priority] are read with [.get], which tolerates a missing key. *)
Record Website : Type := {
  w_name : string;
  w_url : string;
  w_scrape_method : string;
  w_category : option string;
  w_priority : option Z
}.

(** super.py 753-757: the source columns, written into every record *)
Definition add_source (name url scrape_method : string) (item : pydict)
  : pydict :=
  dict_set "Scrape_Method" (PStr scrape_method)
    (dict_set "Source_URL" (PStr url)
       (dict_set "Source_Website" (PStr name) item)).

(** super.py 730-771 *)
Definition scrape_website (self : Scraper) (website_config : Website)
  (search_query : option string) : IO (list pydict) :=
  let url := w_url website_config in
  let name := w_name website_config in
  let scrape_method := w_scrape_method website_config in
  io_try
    (let* accessible := test_website_accessibility url in
     if negb accessible then io_ret []
     else
       let* website_data :=
         if String.eqb scrape_method "selenium" && use_selenium self
         then scrape_with_selenium self url search_query
         else if String.eqb scrape_method "api"
         then scrape_with_api url search_query
         else scrape_with_requests url search_query in
       io_ret (map (add_source name url scrape_method) website_data))
    (λ _, io_ret []).

End Website.

Arguments call_method : simpl never.

(* ===================================================================== *)
(** * 6. The orchestrator (super.py, jim.py) *)
(* ===================================================================== *)

(** [l.sort(key=...)]: a stable sort on integer keys.  An element goes in
    front of the first element of the sorted tail whose key is not
    smaller, so equal keys keep their order. *)
Fixpoint insert_by {A} (key : A → Z) (x : A) (l : list A) : list A :=
  match l with
  | [] => [x]
  | y :: l' =>
      if key x <=? key y then x :: y :: l' else y :: insert_by key x l'
  end.

Fixpoint sort_by {A} (key : A → Z) (l : list A) : list A :=
  match l with
  | [] => []
  | x :: l' => insert_by key x (sort_by key l')
  end.

(** [w.get('category') in selected_categories] *)
Definition category_in (selected_categories : list string) (w : Website)
  : bool :=
  match w_category w with
  | Some c => mem c selected_categories
  | None => false
  end.

(** super.py 1190-1195, jim.py 1039-1044.  [None] and the empty list are
    both false. *)
Definition filtered_websites (all_websites : list Website)
  (selected_categories : option (list string)) : list Website :=
  match selected_categories with
  | Some cats =>
      if truthy cats then List.filter (category_in cats) all_websites
      else all_websites
  | None => all_websites
  end.

(** [x.get('priority', 99)] *)
Definition priority_key (x : Website) : Z := default 99 (w_priority x).

(** super.py 1197-1199, jim.py 1046-1048 *)
Definition websites_to_scrape (all_websites : list Website)
  (selected_categories : option (list string)) (max_websites : Z)
  : list Website :=
  slice_to max_websites
    (sort_by priority_key (filtered_websites all_websites selected_categories)).

(** What [executor.submit(self.scrape_website, website, search_query)]
    becomes: the moment the task ends and what [future.result()] then
    gives, the list the task returned or the exception it raised. *)
Record Future : Type := {
  completed_at : Z;
  future_result : result (list pydict)
}.

(** [concurrent.futures.as_completed]: the futures in the order in which
    they end. *)
Definition as_completed {A} (fs : list (Future * A)) : list (Future * A) :=
  sort_by (λ fw, completed_at fw.1) fs.

(** The body of the loop over [as_completed], super.py 1219-1231 *)
Definition collect_one (all_data : list pydict) (fw : Future * Website)
  : list pydict :=
  match future_result fw.1 with
  | Ok website_data =>
      if truthy website_data then all_data ++ website_data else all_data
  | Raised _ => all_data
  end.

Definition collect (completed : list (Future * Website)) : list pydict :=
  foldl collect_one [] completed.

(** [ThreadPoolExecutor(max_workers=n)] raises ValueError unless
    [n > 0]. *)
Definition pool_size (self : Scraper) (to_scrape : list Website) : Z :=
  Z.min (max_workers self) (Z.of_nat (length to_scrape)).

(** super.py 1207-1233, jim.py 1056-1082: [all_data] after the pool *)
Definition scrape_all (self : Scraper) (submit : Website → Future)
  (to_scrape : list Website) : result (list pydict) :=
  if pool_size self to_scrape <=? 0 then Raised ValueError
  else Ok (collect (as_completed (map (λ w, (submit w, w)) to_scrape))).

(** A task of the pool that runs [scrape_website] from request number
    [start] on and ends at [finish]. *)
Definition run_task `{Runtime} (self : Scraper) (search_query : option string)
  (start : nat) (finish : Z) (w : Website) : Future :=
  {| completed_at := finish;
     future_result := (scrape_website self w search_query start).2 |}.

Module Super.

(** super.py 1043 *)
Definition flatten_dict `{Runtime} := flatten_dict_limit 2.

(** super.py 1246-1310 *)
Definition sample (stat category url pattern website : string)
  (timestamp : string) : pydict :=
  [ ("Statistical_Match", PStr stat);
    ("Category", PStr category);
    ("Source_URL", PStr url);
    ("Pattern_Type", PStr pattern);
    ("Scrape_Date", PStr timestamp);
    ("Source_Website", PStr website);
    ("Scrape_Method", PStr "direct");
    ("Note", PStr "Sample data - actual website scraping failed") ].

Definition get_sample_data `{Runtime} (search_query : string)
  : list pydict :=
  let timestamp := today in
  [ sample "GDP growth: 2.5%" "Economic"
      "https://data.worldbank.org/country/nigeria" "GDP.*growth"
      "World Bank Nigeria Data" timestamp;
    sample "Population: 223 million" "Demographic"
      "https://data.un.org/en/iso/ng.html" "population.*million"
      "UN Data Nigeria" timestamp;
    sample "Inflation rate: 28.9%" "Economic"
      "https://www.imf.org/en/Countries/NGA" "inflation.*rate"
      "IMF Nigeria" timestamp ]
  ++ (if contains (lower search_query) "gdp"
      then [ sample "GDP 2023: $477 billion" "Economic"
               "https://www.nigerianstat.gov.ng" "GDP.*billion"
               "National Bureau of Statistics" timestamp ]
      else [])
  ++ (if contains (lower search_query) "population"
      then [ sample "Population density: 226/km²" "Demographic"
               "https://data.worldbank.org/country/nigeria"
               "Population.*density" "World Bank" timestamp ]
      else []).

(** super.py 1181-1244.  [all_websites] is what
    [get_nigerian_statistical_websites()] returned. *)
Definition smart_scrape_multiple_websites `{Runtime} (self : Scraper)
  (submit : Website → Future) (all_websites : list Website)
  (search_query : string) (selected_categories : option (list string))
  (max_websites : Z) : result DataFrame :=
  match scrape_all self submit
          (websites_to_scrape all_websites selected_categories max_websites)
  with
  | Raised e => Raised e
  | Ok all_data =>
      if truthy all_data then drop_duplicates (pd_DataFrame all_data)
      else Ok (pd_DataFrame (get_sample_data search_query))
  end.

End Super.

Module Jim.

(** jim.py 952 *)
Definition flatten_dict `{Runtime} := flatten_dict_limit 3.

(** jim.py 1032-1089: [None] when nothing was collected *)
Definition smart_scrape_multiple_websites (self : Scraper)
  (submit : Website → Future) (all_websites : list Website)
  (search_query : string) (selected_categories : option (list string))
  (max_websites : Z) : result (option DataFrame) :=
  match scrape_all self submit
          (websites_to_scrape all_websites selected_categories max_websites)
  with
  | Raised e => Raised e
  | Ok all_data =>
      if truthy all_data
      then match drop_duplicates (pd_DataFrame all_data) with
           | Ok df => Ok (Some df)
           | Raised e => Raised e
           end
      else Ok None
  end.

End Jim.

(* ===================================================================== *)
(** * 6a. The catalog, the request session and the caller (super.py) *)
(* ===================================================================== *)

(** An entry of the catalog that is scraped with requests. *)
Definition direct (name url category : string) (priority : Z) : Website :=
  {| w_name := name; w_url := url; w_scrape_method := "direct";
     w_category := Some category; w_priority := Some priority |}.

(** super.py 1085-1154: the list [websites] *)
Definition statistical_websites : list Website :=
  [ direct "World Bank Nigeria Data"
      "https://data.worldbank.org/country/nigeria"
      "International Statistics" 1;
    direct "IMF Nigeria Economic Indicators"
      "https://www.imf.org/en/Countries/NGA" "Economic Statistics" 1;
    direct "UN Data Nigeria" "https://data.un.org/en/iso/ng.html"
      "International Statistics" 1;
    direct "National Bureau of Statistics (NBS)"
      "https://www.nigerianstat.gov.ng" "Official Statistics" 1;
    direct "Central Bank of Nigeria" "https://www.cbn.gov.ng"
      "Economic Statistics" 2;
    direct "WHO Nigeria Data" "https://www.who.int/countries/nga"
      "Health Statistics" 1;
    direct "Knoema Nigeria Data" "https://knoema.com/atlas/Nigeria"
      "General Statistics" 2;
    direct "Index Mundi Nigeria" "https://www.indexmundi.com/nigeria"
      "General Statistics" 2;
    direct "NairaMetrics" "https://nairametrics.com"
      "Economic Statistics" 2 ].

(** super.py 1162-1177: the list returned when no site is accessible *)
Definition fallback_websites : list Website :=
  [ direct "World Bank Nigeria Data"
      "https://data.worldbank.org/country/nigeria"
      "International Statistics" 1;
    direct "UN Data Nigeria" "https://data.un.org/en/iso/ng.html"
      "International Statistics" 1 ].

(** The resolver of the operating system, as [_is_url_accessible] sees
    it: [socket.gethostbyname] returns, raises [socket.gaierror], or
    raises something else. *)
Inductive lookup : Type :=
| resolved
| gaierror
| lookup_error.

Class Resolver : Type := {
  (** [urlparse(url).hostname]: the host, [None] if the URL has none;
      parsing may raise *)
  urlparse_hostname : string → result (option string);
  (** [socket.gethostbyname(hostname)] *)
  gethostbyname : string → lookup
}.

(** super.py 1523, in [main]: the test ['Note' in scraped_data.columns
    and 'sample' in scraped_data['Note'].iloc[0].lower()] on the frame a
    scrape returned.  [iloc[0]] is the first row; a missing cell is a
    float (NaN) and a number has no [lower] either, so anything but a
    string raises AttributeError. *)
Definition sample_warning (scraped_data : DataFrame) : result bool :=
  if mem "Note" (columns scraped_data) then
    match rows scraped_data with
    | [] => Raised (OtherError "IndexError")
    | row :: _ =>
        match cell_at (columns scraped_data) row "Note" with
        | Some (PStr note) => Ok (contains (lower note) "sample")
        | _ => Raised (OtherError "AttributeError")
        end
    end
  else Ok false.

Section Catalog.
Context `{Runtime}.

(** super.py 1060-1080: the sites whose probe succeeds, in the order of
    [websites].  The [try] around the probe catches what it raises. *)
Fixpoint get_working_websites (websites : list Website)
  : IO (list Website) :=
  match websites with
  | [] => io_ret []
  | website :: websites' =>
      let* accessible :=
        io_try (test_website_accessibility (w_url website))
               (λ _, io_ret false) in
      let* working := get_working_websites websites' in
      io_ret (if accessible then website :: working else working)
  end.

(** super.py 1082-1179 *)
Definition get_nigerian_statistical_websites : IO (list Website) :=
  let* working_websites := get_working_websites statistical_websites in
  if negb (truthy working_websites) then io_ret fallback_websites
  else io_ret working_websites.

Context `{Resolver}.

(** super.py 429 *)
Definition problematic_domains : list string :=
  ["covid19.ncdc.gov.ng"; "npf.gov.ng"; "health.gov.ng"].

(** super.py 422-442.  A URL without a host makes [gethostbyname(None)]
    raise TypeError, which the outer [except] turns into [True], as it
    does with everything but [socket.gaierror]. *)
Definition _is_url_accessible (url : string) : bool :=
  match urlparse_hostname url with
  | Ok (Some hostname) =>
      if mem hostname problematic_domains then true
      else match gethostbyname hostname with
           | resolved => true
           | gaierror => false
           | lookup_error => true
           end
  | Ok None => true
  | Raised _ => true
  end.

(** The exception [get] raises for the exception [e] of the session:
    the handlers of super.py 413-420.  The texts of the messages are
    left out. *)
Definition relabel (url : string) (e : exn) : exn :=
  match e with
  | ConnectionError => ConnectionError
  | TimeoutError => TimeoutError
  | _ => OtherError ("Request error for " +:+ url)
  end.

(** super.py 403-420, [RobustRequestSession.get].  The [ConnectionError]
    raised when the URL is not accessible is the builtin one, not the one
    of requests: the last handler catches it and raises a plain
    [Exception]. *)
Definition RobustRequestSession_get (url : string) : IO Response :=
  if negb (_is_url_accessible url)
  then io_lift (Raised (OtherError ("Request error for " +:+ url)))
  else io_try (send (Get url 30)) (λ e, io_lift (Raised (relabel url e))).

End Catalog.

(* ===================================================================== *)
(** * 6b. The logger (super.py, jim.py, yap.py, my.py) *)
(* ===================================================================== *)

(** super.py 161-181; the same class is in jim.py 158-178, yap.py
    169-189 and my.py 111-130.  [log_queue] is a [queue.Queue], first in
    first out: [put] adds at the end, [get] takes from the front. *)
Record ThreadSafeLogger : Type := {
  log_queue : list string;
  logs : list string
}.

(** [__init__] *)
Definition new_logger : ThreadSafeLogger :=
  {| log_queue := []; logs := [] |}.

(** [f"[{timestamp}] {message}"] *)
Definition log_message (timestamp message : string) : string :=
  "[" +:+ timestamp +:+ "] " +:+ message.

(** [self.log_queue.put(log_message)] and [self.logs.append(log_message)],
    the two steps of [add_log]; each is atomic. *)
Definition queue_put (m : string) (self : ThreadSafeLogger)
  : ThreadSafeLogger :=
  {| log_queue := log_queue self ++ [m]; logs := logs self |}.

Definition logs_append (m : string) (self : ThreadSafeLogger)
  : ThreadSafeLogger :=
  {| log_queue := log_queue self; logs := logs self ++ [m] |}.

(** [add_log(message)], called at the time [timestamp], run without
    interruption *)
Definition add_log (timestamp message : string) (self : ThreadSafeLogger)
  : ThreadSafeLogger :=
  let log_message := log_message timestamp message in
  logs_append log_message (queue_put log_message self).

(** The loop of [get_logs]: [while not self.log_queue.empty():
    logs.append(self.log_queue.get())].  It returns [logs] and the queue
    it leaves. *)
Fixpoint get_logs_loop (queue logs : list string)
  : list string * list string :=
  match queue with
  | [] => (logs, [])
  | m :: queue' => get_logs_loop queue' (logs ++ [m])
  end.

(** [get_logs()], run without interruption: what it returns, and the
    logger afterwards *)
Definition get_logs (self : ThreadSafeLogger)
  : list string * ThreadSafeLogger :=
  let '(returned, queue) := get_logs_loop (log_queue self) [] in
  (returned, {| log_queue := queue; logs := logs self |}).

(** [get_all_logs()] *)
Definition get_all_logs (self : ThreadSafeLogger) : list string :=
  logs self.

(** A call of the logger. *)
Inductive call : Type :=
| AddLog (timestamp message : string)
| GetLogs.

(** Calls made one after the other: the logger afterwards, and what the
    calls of [get_logs] returned, in order. *)
Fixpoint run_calls (calls : list call) (self : ThreadSafeLogger)
  (returned : list (list string)) : ThreadSafeLogger * list (list string) :=
  match calls with
  | [] => (self, returned)
  | AddLog timestamp message :: calls' =>
      run_calls calls' (add_log timestamp message self) returned
  | GetLogs :: calls' =>
      let '(out, self') := get_logs self in
      run_calls calls' self' (returned ++ [out])
  end.

(** The logger shared by the threads of the pool: the object, the
    messages of the calls of [add_log] that have done their [put] and
    not yet their [append], and what [get] has taken from the queue so
    far. *)
Record Shared : Type := {
  logger : ThreadSafeLogger;
  in_add_log : list string;
  taken : list string
}.

(** One atomic step of some thread: the [put] of a call of [add_log],
    the [append] of a call that has done its [put], or one [get] of the
    loop of [get_logs] on a queue that is not empty. *)
Inductive thread_step : Shared → Shared → Prop :=
| step_put (timestamp message : string) (w : Shared) :
    thread_step w
      {| logger := queue_put (log_message timestamp message) (logger w);
         in_add_log := log_message timestamp message :: in_add_log w;
         taken := taken w |}
| step_append (m : string) (before after : list string) (w : Shared) :
    in_add_log w = before ++ m :: after →
    thread_step w
      {| logger := logs_append m (logger w);
         in_add_log := before ++ after;
         taken := taken w |}
| step_get (m : string) (queue : list string) (w : Shared) :
    log_queue (logger w) = m :: queue →
    thread_step w
      {| logger := {| log_queue := queue; logs := logs (logger w) |};
         in_add_log := in_add_log w;
         taken := taken w ++ [m] |}.

(** The states the threads can reach from a new logger. *)
Inductive reachable : Shared → Prop :=
| reachable_new :
    reachable {| logger := new_logger; in_add_log := []; taken := [] |}
| reachable_step (w w' : Shared) :
    reachable w → thread_step w w' → reachable w'.

(* ===================================================================== *)
(** * 7. Table extraction (yap.py, my.py) *)
(* ===================================================================== *)

(** [text or f"Column_{i+1}"] for the cells of the header row *)
Fixpoint headers_of (i : nat) (header_cells : list string) : list string :=
  match header_cells with
  | [] => []
  | text :: cells' =>
      (if is_empty text then "Column_" +:+ pretty (S i) else text)
      :: headers_of (S i) cells'
  end.

(** The loop over [enumerate(cells[:len(headers)])]: one dict per row,
    keyed by the headers. *)
Definition row_data_of (headers cells : list string) : pydict :=
  dict_of_items (zip_with (λ col_name text, (col_name, PStr text))
                          headers cells).

(** The dict [metadata] that every extraction builds. *)
Definition metadata_of `{Runtime} (url table_name extraction_method : string)
  (df : DataFrame) : pydict :=
  [ ("source_url", PStr url);
    ("table_name", PStr table_name);
    ("extraction_method", PStr extraction_method);
    ("rows", PInt (Z.of_nat (df_len df)));
    ("columns", PInt (Z.of_nat (length (columns df))));
    ("scrape_date", PStr today);
    ("column_names", PList (map PStr (columns df))) ].

(** Keep the elements of [l] whose flag is set. *)
Fixpoint mask {A} (flags : list bool) (l : list A) : list A :=
  match flags, l with
  | b :: flags', x :: l' => if b then x :: mask flags' l' else mask flags' l'
  | _, _ => []
  end.

(** [any(f(t) for t in l)] where [f] may raise *)
Fixpoint any_result {A} (f : A → result bool) (l : list A) : result bool :=
  match l with
  | [] => Ok false
  | x :: l' =>
      match f x with
      | Ok true => Ok true
      | Ok false => any_result f l'
      | Raised e => Raised e
      end
  end.

Module Yap.

(** The dict the three methods build for a table: its keys are
    ['metadata'], ['dataframe'], ['preview'] and ['raw_html']. *)
Record table_info : Type := {
  metadata : pydict;
  dataframe : DataFrame;
  preview : list pydict;
  raw_html : option string
}.

Inductive table_value : Type :=
| Metadata (d : pydict)
| Dataframe (df : DataFrame)
| Preview (rows : list pydict)
| RawHtml (html : option string).

(** [t[key]] *)
Definition table_getitem (t : table_info) (key : string)
  : result table_value :=
  if String.eqb key "metadata" then Ok (Metadata (metadata t))
  else if String.eqb key "dataframe" then Ok (Dataframe (dataframe t))
  else if String.eqb key "preview" then Ok (Preview (preview t))
  else if String.eqb key "raw_html" then Ok (RawHtml (raw_html t))
  else Raised KeyError.

(** [needle in v] for a string [needle] *)
Definition value_contains (needle : string) (v : table_value)
  : result bool :=
  match v with
  | Metadata d => Ok (has_key needle d)
  | Dataframe df => Ok (mem needle (columns df))
  | Preview _ => Ok false
  | RawHtml (Some html) => Ok (contains html needle)
  | RawHtml None => Raised TypeError
  end.

Section WithRuntime.
Context `{Runtime}.

(** yap.py 650-672 *)
Definition _table_matches_search (table_data : table_info)
  (search_query : option string) : bool :=
  match search_query with
  | None => true
  | Some q =>
      if is_empty q then true
      else
        let search_terms := split (lower q) in
        let found (s : string) := existsb (λ term, contains s term)
                                          search_terms in
        let metadata_str := lower (py_str (PDict (metadata table_data))) in
        let columns_str :=
          lower (join " " (columns (dataframe table_data))) in
        let preview_str :=
          lower (py_str (PList (map PDict (preview table_data)))) in
        found metadata_str || found columns_str || found preview_str
  end.

(** yap.py 488-520; [column_names] is [list(df.columns)], so the join
    of [_table_matches_search] reads the columns of the frame *)
Definition _process_table_dataframe (df : DataFrame) (table_index : nat)
  (url method : string) : table_info :=
  let df := dropna_all df in
  let keep := map (λ c, negb (String.prefix "Unnamed" c)) (columns df) in
  let df := {| columns := mask keep (columns df);
               rows := map (mask keep) (rows df) |} in
  {| metadata := metadata_of url ("Table_" +:+ pretty (S table_index))
                   method df;
     dataframe := df;
     preview := head_dicts 5 df;
     raw_html := None |}.

(** yap.py 522-578 *)
Definition _extract_table_manually (table : HtmlTable) (table_index : nat)
  (url : string) : option table_info :=
  match table_tr table with
  | header_row :: ((_ :: _) as data_rows) =>
      let headers := headers_of 0 header_row in
      let data :=
        flat_map (λ cells,
                    if (length cells =? length headers)%nat
                       || (0 <? length cells)%nat
                    then [row_data_of headers cells] else [])
                 data_rows in
      if negb (truthy data) then None
      else
        let df := pd_DataFrame data in
        Some {| metadata :=
                  metadata_of url
                    ("Table_" +:+ pretty (S table_index) +:+ "_manual")
                    "manual" df;
                dataframe := df;
                preview := head_dicts 5 df;
                raw_html := Some (str_take 1000 (table_html table)) |}
  | _ => None
  end.

(** yap.py 596-646, the body of the loop for the div number [div_idx] *)
Definition div_table (div_idx : nat) (div : Div) (url : string)
  (search_query : option string) : list table_info :=
  match div_rows div with
  | first_row :: ((_ :: _) as rest) =>
      let headers := headers_of 0 (header_cells first_row) in
      let data :=
        flat_map (λ row, if truthy (data_cells row)
                         then [row_data_of headers (data_cells row)]
                         else [])
                 rest in
      if truthy data then
        let df := pd_DataFrame data in
        let table_data :=
          {| metadata :=
               metadata_of url ("DivTable_" +:+ pretty (S div_idx))
                 "div_extraction" df;
             dataframe := df;
             preview := head_dicts 3 df;
             raw_html := Some (str_take 500 (div_html div)) |} in
        if _table_matches_search table_data search_query
        then [table_data] else []
      else []
  | _ => []
  end.

(** yap.py 580-648 *)
Definition _extract_div_tables (soup : Page) (url : string)
  (search_query : option string) : list table_info :=
  flat_map (λ divs,
              for_enumerate
                (λ div_idx div, div_table div_idx div url search_query)
                5 0%nat divs)
           (find_divs soup).

(** yap.py 445-456: the tables pandas reads from the whole page *)
Definition pandas_tables (soup : Page) (url : string)
  (search_query : option string) : list table_info :=
  match soup_read_html soup with
  | Ok df_list =>
      for_enumerate
        (λ i df,
           if negb (df_empty df) && (1 <? df_len df)%nat
           then
             let table_info := _process_table_dataframe df i url "pandas" in
             if _table_matches_search table_info search_query
             then [table_info] else []
           else [])
        (length df_list) 0%nat df_list
  | Raised _ => []
  end.

(** yap.py 463: [any(f"Table_{table_idx}" in t['table_name'] for t in
    tables_data)] *)
Definition already_found (table_idx : nat) (tables_data : list table_info)
  : result bool :=
  any_result
    (λ t, match table_getitem t "table_name" with
          | Ok name => value_contains ("Table_" +:+ pretty table_idx) name
          | Raised e => Raised e
          end)
    tables_data.

(** yap.py 460-472: [tables_data] after the loop over the table tags
    from index [table_idx] on.  An exception in the body moves on to the
    next tag. *)
Fixpoint manual_tables (html_tables : list HtmlTable) (table_idx : nat)
  (url : string) (search_query : option string)
  (tables_data : list table_info) : list table_info :=
  match html_tables with
  | [] => tables_data
  | table :: html_tables' =>
      let tables_data' :=
        match already_found table_idx tables_data with
        | Ok true => tables_data
        | Ok false =>
            match _extract_table_manually table table_idx url with
            | Some table_data =>
                if _table_matches_search table_data search_query
                then tables_data ++ [table_data]
                else tables_data
            | None => tables_data
            end
        | Raised _ => tables_data
        end in
      manual_tables html_tables' (S table_idx) url search_query tables_data'
  end.

(** yap.py 439-486 *)
Definition extract_all_tables (soup : Page) (url : string)
  (search_query : option string) : list table_info :=
  let tables_data := pandas_tables soup url search_query in
  let tables_data :=
    manual_tables (find_tables soup) 0 url search_query tables_data in
  tables_data
  ++ List.filter (λ t, _table_matches_search t search_query)
       (_extract_div_tables soup url search_query).

(** yap.py 920-986: the list [websites] of [get_working_websites]; the
    key ['has_tables'] of the entries is never read *)
Definition websites : list Website :=
  [ direct "World Bank Nigeria Indicators"
      "https://data.worldbank.org/indicator?locations=NG"
      "International Statistics" 1;
    direct "UN Data Nigeria" "https://data.un.org/en/iso/ng.html"
      "International Statistics" 1;
    direct "Trading Economics Nigeria"
      "https://tradingeconomics.com/nigeria/indicators"
      "Economic Statistics" 1;
    direct "Worldometer Nigeria"
      "https://www.worldometers.info/world-population/nigeria-population/"
      "Demographic Statistics" 2;
    direct "Knoema Nigeria Atlas" "https://knoema.com/atlas/Nigeria"
      "General Statistics" 2;
    direct "Index Mundi Nigeria" "https://www.indexmundi.com/nigeria/"
      "General Statistics" 2;
    direct "Macrotrends Nigeria"
      "https://www.macrotrends.net/countries/NGA/nigeria/"
      "Economic Statistics" 2;
    direct "Statista Nigeria" "https://www.statista.com/topics/6616/nigeria/"
      "General Statistics" 2 ].

(** yap.py 918-1000: the loop over [websites] is the loop of super.py
    1066-1078 *)
Definition get_working_websites : IO (list Website) :=
  get_working_websites websites.

(** yap.py 836-844: the body of the answer, [None] unless the status is
    200.  The [get] of yap.py 411-424 sends the GET at once. *)
Definition scrape_with_requests (url : string) : IO (option string) :=
  io_try
    (let* response := request_session_get url in
     if status_code response =? 200 then io_ret (Some (content response))
     else io_ret None)
    (λ _, io_ret None).

(** [driver.get(url)] then [driver.page_source.encode('utf-8')], as the
    [n]-th request *)
Variable driver_page_source : nat → string → result string.

(** yap.py 846-861 *)
Definition scrape_with_selenium (self : Scraper) (url : string)
  : IO (option string) :=
  if negb (driver self) then scrape_with_requests url
  else
    io_try
      (let* page_source := (λ t, (S t, driver_page_source t url)) in
       io_ret (Some page_source))
      (λ _, scrape_with_requests url).

(** yap.py 863-916: the patterns and the filter are those of
    [extract_html_data] *)
Definition extract_general_data (soup : Page) (url : string)
  (search_query : option string) : list pydict :=
  let data := pattern_records (get_text soup) url in
  match search_query with
  | Some q =>
      if negb (is_empty q) && truthy data then filter_by_query q data
      else data
  | None => data
  end.

(** yap.py 788-834: the text records and the tables of one site; no
    source column is added *)
Definition scrape_website (self : Scraper) (website_config : Website)
  (search_query : option string) : IO (list pydict * list table_info) :=
  let url := w_url website_config in
  let scrape_method := w_scrape_method website_config in
  io_try
    (let* accessible := test_website_accessibility url in
     if negb accessible then io_ret ([], [])
     else
       let* html_content :=
         if String.eqb scrape_method "selenium" && use_selenium self
         then scrape_with_selenium self url
         else scrape_with_requests url in
       match html_content with
       | Some html =>
           if negb (is_empty html) then
             let soup := BeautifulSoup html in
             io_ret (extract_general_data soup url search_query,
                     extract_all_tables soup url search_query)
           else io_ret ([], [])
       | None => io_ret ([], [])
       end)
    (λ _, io_ret ([], [])).

(** What [executor.submit(self.scrape_website, website, search_query)]
    becomes in yap.py: the moment the task ends and the pair it returned
    or the exception it raised. *)
Record Task : Type := {
  task_completed_at : Z;
  task_result : result (list pydict * list table_info)
}.

Definition run_task (self : Scraper) (search_query : option string)
  (start : nat) (finish : Z) (w : Website) : Task :=
  {| task_completed_at := finish;
     task_result := (scrape_website self w search_query start).2 |}.

(** The body of the loop over [as_completed], yap.py 1036-1050 *)
Definition collect_one (acc : list pydict * list table_info)
  (tw : Task * Website) : list pydict * list table_info :=
  match task_result tw.1 with
  | Ok (website_data, website_tables) =>
      (if truthy website_data then acc.1 ++ website_data else acc.1,
       if truthy website_tables then acc.2 ++ website_tables else acc.2)
  | Raised _ => acc
  end.

(** yap.py 1002-1061.  [websites] is what [get_working_websites()]
    returned; the query only reaches the tasks. *)
Definition smart_scrape_tables (self : Scraper) (submit : Website → Task)
  (websites : list Website) (search_query : option string)
  (selected_categories : option (list string)) (max_websites : Z)
  : result (DataFrame * list table_info) :=
  if negb (truthy websites) then Ok (pd_DataFrame [], [])
  else
    let websites_to_scrape :=
      websites_to_scrape websites selected_categories max_websites in
    if pool_size self websites_to_scrape <=? 0 then Raised ValueError
    else
      let completed :=
        sort_by (λ tw, task_completed_at tw.1)
                (map (λ w, (submit w, w)) websites_to_scrape) in
      let '(all_data, all_tables) := foldl collect_one ([], []) completed in
      if truthy all_data
      then match drop_duplicates (pd_DataFrame all_data) with
           | Ok df => Ok (df, all_tables)
           | Raised e => Raised e
           end
      else Ok (pd_DataFrame [], all_tables).

End WithRuntime.

End Yap.

Module My.

(** The dict built for a table: ['metadata'], ['dataframe'] and
    ['preview']. *)
Record table_info : Type := {
  metadata : pydict;
  dataframe : DataFrame;
  preview : list pydict
}.

Section WithRuntime.
Context `{Runtime}.

(** my.py 553-571 *)
Definition _table_matches_search (df : DataFrame)
  (search_terms : list string) : bool :=
  if negb (truthy search_terms) then true
  else
    let df_str := lower (df_to_string df) in
    let columns_str := lower (join " " (columns df)) in
    existsb (λ term, contains df_str (lower term)) search_terms
    || existsb (λ term, contains columns_str (lower term)) search_terms.

(** my.py 484-502 *)
Definition _process_table (df : DataFrame) (table_index : nat)
  (url method : string) : table_info :=
  let df := dropna_all df in
  {| metadata := metadata_of url ("Table_" +:+ pretty (S table_index))
                   method df;
     dataframe := df;
     preview := head_dicts 5 df |}.

(** my.py 504-551 *)
Definition _extract_table_manually (table : HtmlTable) (table_index : nat)
  (url : string) : option table_info :=
  match table_tr table with
  | header_row :: ((_ :: _) as data_rows) =>
      let headers := headers_of 0 header_row in
      let data :=
        flat_map (λ cells, if truthy cells
                           then [row_data_of headers cells] else [])
                 data_rows in
      if negb (truthy data) then None
      else
        let df := pd_DataFrame data in
        Some {| metadata :=
                  metadata_of url
                    ("Table_" +:+ pretty (S table_index) +:+ "_manual")
                    "manual" df;
                dataframe := df;
                preview := head_dicts 5 df |}
  | _ => None
  end.

(** my.py 453-482 *)
Definition extract_all_tables (soup : Page) (url : string)
  (search_terms : list string) : list table_info :=
  let from_pandas :=
    match soup_read_html soup with
    | Ok df_list =>
        for_enumerate
          (λ i df,
             if negb (df_empty df) && (1 <? df_len df)%nat
                && _table_matches_search df search_terms
             then [_process_table df i url "pandas"] else [])
          (length df_list) 0%nat df_list
    | Raised _ => []
    end in
  let manual :=
    for_enumerate
      (λ table_idx table,
         match _extract_table_manually table table_idx url with
         | Some table_data =>
             if _table_matches_search (dataframe table_data) search_terms
             then [table_data] else []
         | None => []
         end)
      (length (find_tables soup)) 0%nat (find_tables soup) in
  from_pandas ++ manual.

(** my.py 754-762 *)
Definition get_context (text match_ : string) (chars : Z) : string :=
  let idx := find text match_ in
  if idx =? -1 then match_
  else
    let start := Z.max 0 (idx - chars) in
    let end_ :=
      Z.min (Z.of_nat (String.length text))
            (idx + Z.of_nat (String.length match_) + chars) in
    str_slice text start end_.

(** my.py 732-736 *)
Definition patterns : list string :=
  [ "\b\d+\.?\d*\s*%\b";
    "\b\d{1,3}(?:,\d{3})+\b";
    "\b\d+\s*(?:million|billion|thousand)\b" ].

(** my.py 726-752.  The loop over [search_terms] appends the record and
    breaks at the first term that occurs in the text of the page. *)
Definition extract_text_data (soup : Page) (url : string)
  (search_terms : list string) : list pydict :=
  let text := get_text soup in
  flat_map
    (λ pattern,
       flat_map
         (λ match_,
            if existsb (λ term, contains (lower text) (lower term))
                       search_terms
            then [ [ ("value", PStr match_);
                     ("context", PStr (get_context text match_ 100));
                     ("source_url", PStr url);
                     ("scrape_date", PStr today) ] ]
            else [])
         (take 10 (re_findall false pattern text)))
    patterns.

(** A source of a topic: a dict with the keys ['name'] and ['url']. *)
Record Source : Type := {
  s_name : string;
  s_url : string
}.

(** my.py 626-667 *)
Definition topic_sources : list (string * list Source) :=
  [ ("GDP",
     [ {| s_name := "World Bank GDP Data";
          s_url := "https://data.worldbank.org/indicator/NY.GDP.MKTP.CD?locations=NG" |};
       {| s_name := "NBS GDP Reports";
          s_url := "https://nigerianstat.gov.ng/elibrary?page=2&query=GDP" |};
       {| s_name := "IMF Nigeria GDP";
          s_url := "https://www.imf.org/en/Countries/NGA" |} ]);
    ("Agriculture",
     [ {| s_name := "FAO Nigeria Data";
          s_url := "https://www.fao.org/countryprofiles/index/en/?iso3=NGA" |};
       {| s_name := "NBS Agriculture";
          s_url := "https://nigerianstat.gov.ng/elibrary?query=agriculture" |};
       {| s_name := "World Bank Agri Data";
          s_url := "https://data.worldbank.org/topic/agriculture-and-rural-development?locations=NG" |} ]);
    ("Oil and Gas",
     [ {| s_name := "NNPC Statistics";
          s_url := "https://nnpcgroup.com/Public-Relations/Oil-and-Gas-Statistics.aspx" |};
       {| s_name := "OPEC Nigeria";
          s_url := "https://www.opec.org/opec_web/en/about_us/167.htm" |};
       {| s_name := "EIA Nigeria";
          s_url := "https://www.eia.gov/international/analysis/country/NGA" |} ]);
    ("Banking",
     [ {| s_name := "CBN Statistics"; s_url := "https://www.cbn.gov.ng/rates/" |};
       {| s_name := "NDIC Reports"; s_url := "https://ndic.gov.ng/" |};
       {| s_name := "World Bank Financial";
          s_url := "https://data.worldbank.org/topic/financial-sector?locations=NG" |} ]);
    ("Health",
     [ {| s_name := "WHO Nigeria"; s_url := "https://www.who.int/countries/nga" |};
       {| s_name := "NBS Health";
          s_url := "https://nigerianstat.gov.ng/elibrary?query=health" |};
       {| s_name := "World Bank Health";
          s_url := "https://data.worldbank.org/topic/health?locations=NG" |} ]);
    ("Education",
     [ {| s_name := "UNESCO Nigeria"; s_url := "https://uis.unesco.org/en/country/ng" |};
       {| s_name := "World Bank Education";
          s_url := "https://data.worldbank.org/topic/education?locations=NG" |};
       {| s_name := "NBS Education";
          s_url := "https://nigerianstat.gov.ng/elibrary?query=education" |} ]);
    ("Population",
     [ {| s_name := "UN Population Division";
          s_url := "https://population.un.org/wpp/" |};
       {| s_name := "World Bank Population";
          s_url := "https://data.worldbank.org/indicator/SP.POP.TOTL?locations=NG" |};
       {| s_name := "Worldometer Nigeria";
          s_url := "https://www.worldometers.info/world-population/nigeria-population/" |} ]);
    ("Trade",
     [ {| s_name := "UN Comtrade Nigeria"; s_url := "https://comtradeplus.un.org/" |};
       {| s_name := "WTO Nigeria";
          s_url := "https://www.wto.org/english/thewto_e/countries_e/nigeria_e.htm" |};
       {| s_name := "NBS Trade";
          s_url := "https://nigerianstat.gov.ng/elibrary?query=trade" |} ]) ].

(** my.py 669-676 *)
Definition default_sources : list Source :=
  [ {| s_name := "World Bank Nigeria";
       s_url := "https://data.worldbank.org/country/nigeria" |};
    {| s_name := "UN Data Nigeria";
       s_url := "https://data.un.org/en/iso/ng.html" |};
    {| s_name := "NBS Library"; s_url := "https://nigerianstat.gov.ng/elibrary" |};
    {| s_name := "Knoema Nigeria"; s_url := "https://knoema.com/atlas/Nigeria" |};
    {| s_name := "Trading Economics";
       s_url := "https://tradingeconomics.com/nigeria/indicators" |} ].

(** [topic_sources.get(topic, default_sources)] *)
Fixpoint sources_get (topic : string) (d : list (string * list Source))
  : list Source :=
  match d with
  | [] => default_sources
  | (k, sources) :: d' =>
      if String.eqb topic k then sources else sources_get topic d'
  end.

(** my.py 624-678 *)
Definition get_topic_sources (topic : string) : list Source :=
  sources_get topic topic_sources.

(** my.py 691-721, the body of the loop: what one source adds to
    [all_data] and [all_tables].  The text of a page is read only if the
    page has tables; a failed request moves on to the next source. *)
Definition scrape_source (source : Source) (search_terms : list string)
  : IO (list pydict * list table_info) :=
  io_try
    (let* response := send (Get (s_url source) 10) in
     if negb (status_code response =? 200) then io_ret ([], [])
     else
       let soup := BeautifulSoup (content response) in
       let tables := extract_all_tables soup (s_url source) search_terms in
       if truthy tables
       then io_ret (extract_text_data soup (s_url source) search_terms,
                    tables)
       else io_ret ([], []))
    (λ _, io_ret ([], [])).

(** my.py 690-722: the loop over [sources] *)
Fixpoint scrape_sources (sources : list Source) (search_terms : list string)
  (all_data : list pydict) (all_tables : list table_info)
  : IO (list pydict * list table_info) :=
  match sources with
  | [] => io_ret (all_data, all_tables)
  | source :: sources' =>
      let* found := scrape_source source search_terms in
      scrape_sources sources' search_terms (all_data ++ found.1)
        (all_tables ++ found.2)
  end.

(** my.py 680-724 *)
Definition scrape_topic (topic : string) (search_terms : list string)
  (max_sources : Z) : IO (list pydict * list table_info) :=
  let sources := slice_to max_sources (get_topic_sources topic) in
  scrape_sources sources search_terms [] [].

End WithRuntime.

End My.

(* ===================================================================== *)
(** * 8. The properties, in the words of the specification *)
(* ===================================================================== *)

(** A value [flatten_dict] turns into a string instead of descending into
    it. *)
Definition is_dict (v : pyval) : bool :=
  match v with PDict _ => true | _ => false end.

Definition is_list (v : pyval) : bool :=
  match v with PList _ => true | _ => false end.

(** [flat_entry limit sep d parent_key key x]: the value [x] sits in the
    dict [d] under the path that [key] spells out: the keys on the way
    joined with [sep], a list element adding its index, and no list
    entered beyond its first [limit] elements. *)
Inductive flat_entry (limit : nat) (sep : string)
  : pyval → string → string → pyval → Prop :=
| entry_leaf kvs parent_key k v :
    (k, v) ∈ kvs → is_dict v = false → is_list v = false →
    flat_entry limit sep (PDict kvs) parent_key
      (new_key_of parent_key sep k) v
| entry_dict kvs parent_key k sub key x :
    (k, PDict sub) ∈ kvs →
    flat_entry limit sep (PDict sub) (new_key_of parent_key sep k) key x →
    flat_entry limit sep (PDict kvs) parent_key key x
| entry_item kvs parent_key k xs i item :
    (k, PList xs) ∈ kvs → xs !! i = Some item → (i < limit)%nat →
    is_dict item = false →
    flat_entry limit sep (PDict kvs) parent_key
      (index_key (new_key_of parent_key sep k) i) item
| entry_item_dict kvs parent_key k xs i sub key x :
    (k, PList xs) ∈ kvs → xs !! i = Some (PDict sub) → (i < limit)%nat →
    flat_entry limit sep (PDict sub)
      (index_key (new_key_of parent_key sep k) i) key x →
    flat_entry limit sep (PDict kvs) parent_key key x.

(** The pairs [flatten_dict] appends to [items] for one entry of [d]: the
    body of its loop. *)
Definition entry_items `{Runtime} (limit : nat) (parent_key sep : string)
  (kv : string * pyval) : pydict :=
  let '(k, v) := kv in
  let new_key := new_key_of parent_key sep k in
  match v with
  | PDict _ => flatten_value limit v new_key sep
  | PList xs =>
      for_enumerate
        (λ i item,
           match item with
           | PDict _ => flatten_value limit item (index_key new_key i) sep
           | _ => [(index_key new_key i, PStr (py_str item))]
           end) limit 0%nat xs
  | _ => [(new_key, PStr (py_str v))]
  end.

(** Every pair of the flat dict of [d] comes from a value of [d], under
    the key its path spells, as the [str] of that value. *)
Definition flattens_soundly `{Runtime} (limit : nat) (sep : string)
  (d : pyval) : Prop :=
  ∀ parent_key key val,
    (key, val) ∈ flatten_value limit d parent_key sep →
    ∃ x, flat_entry limit sep d parent_key key x ∧ val = PStr (py_str x).

(** The category of [w] is one of [cats]. *)
Definition in_categories (cats : list string) (w : Website) : Prop :=
  ∃ c, w_category w = Some c ∧ c ∈ cats.

#[global] Instance in_categories_dec cats w : Decision (in_categories cats w).
Proof.
  unfold in_categories. destruct (w_category w) as [c|].
  - destruct (decide (c ∈ cats)) as [Hin|Hout].
    + left. eauto.
    + right. intros (c' & [= <-] & ?). done.
  - right. intros (c' & [=] & _).
Defined.



(** [t] occurs in [s]. *)
Definition substring (t s : string) : Prop :=
  ∃ before after, s = before +:+ t +:+ after.

(** The result of a scrape is an empty table. *)
Definition empty_result_set (r : result DataFrame) : Prop :=
  ∃ df, r = Ok df ∧ rows df = [].

(** A source that yields no record: its task raised, or returned an empty
    list. *)
Definition yields_nothing (f : Future) : Prop :=
  match future_result f with
  | Ok data => data = []
  | Raised _ => True
  end.


(** Every value of every record can be hashed. *)
Definition all_hashable (data : list pydict) : bool :=
  forallb (λ r, forallb (λ kv, hashable kv.2) r) data.

(** The records a future contributes. *)
Definition records_of (f : Future) : list pydict :=
  match future_result f with
  | Ok website_data => website_data
  | Raised _ => []
  end.






(** [m] sends at most [hi] requests whatever the network answers, and
    the count of the requests sent never goes down. *)
Definition within {A} (m : IO A) (hi : nat) : Prop :=
  ∀ t, (t ≤ (m t).1 ≤ t + hi)%nat.

(** The HEAD request sent as request number [t] is answered, with a
    status below 400. *)
Definition answers `{Runtime} (t : nat) (url : string) : bool :=
  match net t (Head url 5) with
  | Ok response => status_code response <? 400
  | Raised _ => false
  end.

(** What every record of a PDF says: the document it comes from, the
    day, a page number between 1 and 3 if it has one, and nothing but
    strings and integers. *)
Definition pdf_record `{Runtime} (url : string) (r : pydict) : Prop :=
  dict_get "PDF_URL" r = Some (PStr url)
  ∧ dict_get "Scrape_Date" r = Some (PStr today)
  ∧ (∀ page, dict_get "Page" r = Some page → ∃ n, page = PInt n ∧ 1 ≤ n ≤ 3)
  ∧ forallb (λ kv, hashable kv.2) r = true.

(** The tag of an element, and the value [xml_to_dict] stores for a
    child: its text if it has no children, the dict of its children
    otherwise. *)
Definition tag_of (e : Element) : string :=
  match e with Elem tag _ _ => tag end.

Definition element_value (child : Element) : pyval :=
  match child with
  | Elem _ text [] => match text with Some s => PStr s | None => PNone end
  | Elem _ _ (_ :: _) => PDict (xml_to_dict child)
  end.

(** Every value of the record is a string. *)
Definition all_strings (r : pydict) : Prop :=
  Forall (λ kv, ∃ s, kv.2 = PStr s) r.

(** The three columns [scrape_website] writes. *)
Definition source_columns : list string :=
  ["Source_Website"; "Source_URL"; "Scrape_Method"].

(** Whenever [m] returns, it returns at most [n] records. *)
Definition at_most {A} (m : IO (list A)) (n : nat) : Prop :=
  ∀ t t' data, m t = (t', Ok data) → (length data ≤ n)%nat.

(** The text records and the tables a task of yap.py contributes. *)
Definition text_of (task : Yap.Task) : list pydict :=
  match Yap.task_result task with
  | Ok (website_data, _) => website_data
  | Raised _ => []
  end.

Definition tables_of (task : Yap.Task) : list Yap.table_info :=
  match Yap.task_result task with
  | Ok (_, website_tables) => website_tables
  | Raised _ => []
  end.

(** The keys of a record of [pattern_records], in their order. *)
Definition pattern_keys : list string :=
  ["Statistical_Match"; "Category"; "Source_URL"; "Pattern_Type";
   "Scrape_Date"].

(** What the manual pass of yap.py would report for the table tag
    number [i], taken alone: the table built from its rows, if it can be
    built and matches the query. *)
Definition manual_candidate `{Runtime} (url : string)
  (search_query : option string) (i : nat) (table : HtmlTable)
  : list Yap.table_info :=
  match Yap._extract_table_manually table i url with
  | Some table_data =>
      if Yap._table_matches_search table_data search_query
      then [table_data] else []
  | None => []
  end.

(** The metadata of a table say what its frame is: the page it comes
    from, the numbers of rows and columns and the names of the
    columns. *)
Definition describes (url : string) (md : pydict) (df : DataFrame) : Prop :=
  dict_get "source_url" md = Some (PStr url)
  ∧ dict_get "rows" md = Some (PInt (Z.of_nat (df_len df)))
  ∧ dict_get "columns" md = Some (PInt (Z.of_nat (length (columns df))))
  ∧ dict_get "column_names" md = Some (PList (map PStr (columns df))).

(** The messages of the calls of [add_log] among [calls], in order. *)
Definition messages_of (calls : list call) : list string :=
  flat_map (λ c, match c with
                 | AddLog timestamp message => [log_message timestamp message]
                 | GetLogs => []
                 end) calls.

(* ===================================================================== *)
(** * 9. A runtime to run the code on *)
(* ===================================================================== *)

(** The double quote character. *)
Definition dq : string := String "034"%char EmptyString.

(** [repr] of a value whose strings need no escaping. *)
Fixpoint demo_repr (v : pyval) : string :=
  match v with
  | PNone => "None"
  | PBool true => "True"
  | PBool false => "False"
  | PInt z => pretty z
  | PStr s => "'" +:+ s +:+ "'"
  | PList xs => "[" +:+ join ", " (map demo_repr xs) +:+ "]"
  | PDict kvs =>
      "{" +:+ join ", " (map (λ kv, let '(k, x) := kv in
                                 "'" +:+ k +:+ "': " +:+ demo_repr x) kvs)
      +:+ "}"
  end.

Definition demo_str (v : pyval) : string :=
  match v with
  | PStr s => s
  | _ => demo_repr v
  end.

Definition has_digit (s : string) : bool :=
  existsb is_digit (list_ascii_of_string s).

(** The regular expressions the examples run, on the texts they run them
    on. *)
Definition demo_findall (ignorecase : bool) (pattern text : string)
  : list string :=
  if String.eqb text "Inflation rate: 28.9%" then
    if String.eqb pattern "inflation.*?(?:rate|%).*?\d+\.?\d*"
    then ["Inflation rate: 28.9"]
    else if String.eqb pattern "\d+\.?\d*\s*%" then ["28.9%"]
    else []
  else if String.eqb text "Revenue 1,000 2,000 3,000" then
    if String.eqb pattern "\b\d{1,3}(?:,\d{3})+\b"
    then ["1,000"; "2,000"; "3,000"]
    else []
  else [].

Definition demo_search (ignorecase : bool) (pattern text : string) : bool :=
  (String.eqb pattern "\d"
   || String.eqb pattern "\d+\.?\d*\s*%|\d+[\d,]*\.?\d*")
  && has_digit text.

(** Distinct elements, first occurrences first: one order a set may
    yield. *)
Fixpoint demo_set (seen xs : list string) : list string :=
  match xs with
  | [] => []
  | x :: xs' =>
      if mem x seen then demo_set seen xs' else x :: demo_set (x :: seen) xs'
  end.

Definition empty_page : Page :=
  {| get_text := "";
     find_tables := [];
     find_text_elements := [];
     find_pdf_hrefs := [];
     soup_read_html := Raised ValueError;
     find_divs := [[]; []; []; []; []; []] |}.

(** A page with one sentence. *)
Definition inflation_page : Page :=
  {| get_text := "Inflation rate: 28.9%";
     find_tables := [];
     find_text_elements := ["Inflation rate: 28.9%"];
     find_pdf_hrefs := [];
     soup_read_html := Raised ValueError;
     find_divs := [[]; []; []; []; []; []] |}.

Definition json_url : string := "https://example.org/indicators.json".
Definition pdf_url : string := "https://example.org/report.pdf".
Definition html_url : string := "https://example.org/prices.html".

Definition html_body : string := "<p>Inflation rate: 28.9%</p>".

(** The body [{"gdp": 440, "years": [2021, 2022, 2023]}]. *)
Definition json_body : string :=
  "{" +:+ dq +:+ "gdp" +:+ dq +:+ ": 440, " +:+ dq +:+ "years" +:+ dq
  +:+ ": [2021, 2022, 2023]}".

Definition json_value : pyval :=
  PDict [ ("gdp", PInt 440);
          ("years", PList [PInt 2021; PInt 2022; PInt 2023]) ].

Definition demo_net (n : nat) (rq : Request) : result Response :=
  match rq with
  | Head url _ =>
      if String.eqb url json_url || String.eqb url pdf_url
         || String.eqb url html_url
      then Ok {| status_code := 200; content_type := ""; content := "";
                 text := "" |}
      else Raised ConnectionError
  | Get url _ =>
      if String.eqb url json_url
      then Ok {| status_code := 200;
                 content_type := "application/json; charset=utf-8";
                 content := json_body; text := json_body |}
      else if String.eqb url pdf_url
      then Ok {| status_code := 200; content_type := "application/pdf";
                 content := "%PDF-1.4"; text := "%PDF-1.4" |}
      else if String.eqb url html_url
      then Ok {| status_code := 200;
                 content_type := "text/html; charset=UTF-8";
                 content := html_body; text := html_body |}
      else Raised ConnectionError
  end.

(** pdfplumber cannot open the document; PyPDF2 reads one page. *)
#[local] Instance demo_runtime : Runtime := {|
  py_str := demo_str;
  re_findall := demo_findall;
  re_search := demo_search;
  list_of_set := demo_set [];
  today := "2024-01-15";
  df_to_string := λ _, "";
  net := demo_net;
  urljoin := λ base href, href;
  json_loads := λ body, if String.eqb body json_body then Ok json_value
                        else Raised ValueError;
  ET_fromstring := λ _, Raised ValueError;
  BeautifulSoup := λ body, if String.eqb body html_body then inflation_page
                           else empty_page;
  driver_get := λ _ _, Raised ConnectionError;
  pdfplumber_open := λ _, Raised (OtherError "No /Root object");
  PyPDF2_PdfReader := λ _, Ok [Ok "Revenue 1,000 2,000 3,000"];
  pdfminer_extract := λ _, Ok "";
  fitz_open := λ _, Raised ImportError;
  textract_process := λ _, Raised ImportError;
  pdfplumber_in_globals := true;
  PyPDF2_in_globals := true;
  pdfminer_extract_in_globals := true;
  FITZ_AVAILABLE := false;
  TEXTTRACT_AVAILABLE := false;
  PDF_LIBRARIES_AVAILABLE := true
|}.

Definition demo_scraper : Scraper :=
  {| max_workers := 5; use_selenium := false; driver := false |}.

Definition site (name url category : string) (priority : Z) : Website :=
  {| w_name := name; w_url := url; w_scrape_method := "direct";
     w_category := Some category; w_priority := Some priority |}.

(** Four entries in the order of a catalog. *)
Definition demo_catalog : list Website :=
  [ site "NBS" "https://nigerianstat.gov.ng" "Official Statistics" 2;
    site "World Bank" "https://data.worldbank.org" "International Statistics" 1;
    site "CBN" "https://www.cbn.gov.ng" "Economic Statistics" 1;
    site "Indicators" json_url "Economic Statistics" 3 ].

(** A reachable page and a site that refuses the connection. *)
Definition two_sources : list Website :=
  [ site "NBS" "https://nigerianstat.gov.ng" "Official Statistics" 1;
    site "Prices" html_url "Economic Statistics" 2 ].

(** Every task ends at once and returns no record. *)
Definition nothing_found (w : Website) : Future :=
  {| completed_at := 0; future_result := Ok [] |}.


Definition table_of (trs : list (list string)) : HtmlTable :=
  {| table_read_html := Raised ImportError; table_tr := trs;
     table_html := "<table>...</table>" |}.

Definition states_table : HtmlTable :=
  table_of [ ["State"; "Population"]; ["Lagos"; "9000000"] ].

Definition prices_table : HtmlTable :=
  table_of [ ["Item"; "Price"]; ["Rice"; "900"] ].

(** Two tables of a header and one data row each; [read_html] cannot run
    because html5lib is not installed. *)
Definition two_tables_page : Page :=
  {| get_text := "State Population Lagos 9000000 Item Price Rice 900";
     find_tables := [states_table; prices_table];
     find_text_elements := [];
     find_pdf_hrefs := [];
     soup_read_html := Raised ImportError;
     find_divs := [[]; []; []; []; []; []] |}.

(** One table of a header and two data rows, which pandas reads. *)
Definition cities_frame : DataFrame :=
  {| columns := ["City"; "Population"];
     rows := [ [Some (PStr "Lagos"); Some (PInt 9000000)];
               [Some (PStr "Kano"); Some (PInt 4000000)] ] |}.

Definition one_table_page : Page :=
  {| get_text := "City Population Lagos 9000000 Kano 4000000";
     find_tables :=
       [ table_of [ ["City"; "Population"]; ["Lagos"; "9000000"];
                    ["Kano"; "4000000"] ] ];
     find_text_elements := [];
     find_pdf_hrefs := [];
     soup_read_html := Ok [cities_frame];
     find_divs := [[]; []; []; []; []; []] |}.

(** A task that returns one record with a nested value. *)
Definition nested_found (w : Website) : Future :=
  {| completed_at := 0;
     future_result :=
       Ok [ [ ("indicators", PDict [("gdp", PStr "440")]);
              ("Source_URL", PStr (w_url w)) ] ] |}.

(** A task of yap.py that finds the two tables of [two_tables_page] and
    no text record. *)
Definition tables_only (w : Website) : Yap.Task :=
  {| Yap.task_completed_at := 0;
     Yap.task_result :=
       Ok ([], Yap.extract_all_tables two_tables_page (w_url w) None) |}.

(** No browser. *)
Definition no_driver (n : nat) (url : string) : result string :=
  Raised ConnectionError.

(* ===================================================================== *)
(** * 10. Values, cells and rows *)
(* ===================================================================== *)

(** Induction on values, with the hypothesis for the elements of a list
    and for the values of a dict. *)
Lemma pyval_ind' (P : pyval → Prop) :
  P PNone → (∀ b, P (PBool b)) → (∀ z, P (PInt z)) → (∀ s, P (PStr s)) →
  (∀ xs, Forall P xs → P (PList xs)) →
  (∀ kvs, Forall (λ kv, P kv.2) kvs → P (PDict kvs)) →
  ∀ v, P v.
Proof.
  intros HN HB HI HS HL HD.
  fix IH 1. intros [ | b | z | s | xs | kvs ].
  - exact HN.
  - apply HB.
  - apply HI.
  - apply HS.
  - apply HL. induction xs as [|x xs IHxs]; constructor.
    + apply IH.
    + exact IHxs.
  - apply HD. induction kvs as [|[k v] kvs IHkvs]; constructor.
    + simpl. apply IH.
    + exact IHkvs.
Qed.

Lemma pyval_eqb_eq (a b : pyval) : pyval_eqb a b = true ↔ a = b.
Proof.
  revert b. induction a as [ | x | x | x | xs IH | kvs IH ] using pyval_ind';
    intros [ | y | y | y | ys | ys ]; simpl; try (split; congruence).
  - rewrite Bool.eqb_true_iff. split; congruence.
  - rewrite Z.eqb_eq. split; congruence.
  - rewrite String.eqb_eq. split; congruence.
  - revert ys. induction IH as [|x xs Hx _ IHxs]; intros [|y ys];
      try (split; congruence).
    rewrite andb_true_iff, Hx. specialize (IHxs ys).
    split.
    + intros [-> Hgo]. apply IHxs in Hgo. congruence.
    + intros [= -> ->]. split; [done|]. apply IHxs. done.
  - revert ys. induction IH as [|[k x] xs Hx _ IHxs]; intros [|[k' y] ys];
      try (split; congruence).
    rewrite !andb_true_iff, String.eqb_eq. simpl in Hx. rewrite Hx.
    specialize (IHxs ys).
    split.
    + intros [[-> ->] Hgo]. apply IHxs in Hgo. congruence.
    + intros [= -> -> ->]. repeat split. apply IHxs. done.
Qed.

Lemma cell_eqb_eq (a b : cell) : cell_eqb a b = true ↔ a = b.
Proof.
  destruct a, b; simpl; try (split; congruence).
  rewrite pyval_eqb_eq. split; congruence.
Qed.

Lemma row_eqb_eq (r1 r2 : list cell) : row_eqb r1 r2 = true ↔ r1 = r2.
Proof.
  revert r2. induction r1 as [|a r1 IH]; intros [|b r2]; simpl;
    try (split; congruence).
  rewrite andb_true_iff, cell_eqb_eq, IH. split.
  - intros [-> ->]. done.
  - intros [= -> ->]. done.
Qed.

Lemma seen_iff (r : list cell) (seen : list (list cell)) :
  existsb (row_eqb r) seen = true ↔ r ∈ seen.
Proof.
  rewrite existsb_exists. split.
  - intros (x & Hin & Heq). apply row_eqb_eq in Heq. subst.
    by apply list_elem_of_In.
  - intros Hin. exists r. split; [by apply list_elem_of_In|].
    by apply row_eqb_eq.
Qed.

Lemma keep_first_elem (seen rs : list (list cell)) (r : list cell) :
  r ∈ keep_first seen rs ↔ r ∈ rs ∧ r ∉ seen.
Proof.
  revert seen. induction rs as [|x rs IH]; intros seen; simpl.
  - split; [intros ?%elem_of_nil; done | intros [?%elem_of_nil _]; done].
  - destruct (existsb (row_eqb x) seen) eqn:Hx.
    + apply seen_iff in Hx. rewrite IH, elem_of_cons. split.
      * intros [? ?]. auto.
      * intros [[-> | ?] Hn]; [done | auto].
    + assert (x ∉ seen) as Hx'.
      { intros Hin. apply seen_iff in Hin. congruence. }
      rewrite !elem_of_cons, IH, elem_of_cons. split.
      * intros [-> | [? Hn]]; [auto|]. split; [auto|]. intros ?. apply Hn. auto.
      * intros [[-> | ?] Hn]; [auto|].
        destruct (row_eqb r x) eqn:Hrx.
        { apply row_eqb_eq in Hrx as ->. auto. }
        right. split; [done|]. intros [Heq|?]; [|done].
        apply row_eqb_eq in Heq. congruence.
Qed.








(* ===================================================================== *)
(** * 11. Selecting the sources *)
(* ===================================================================== *)

Section Sorting.
Context {A : Type} (key : A → Z).

Lemma insert_by_perm (x : A) (l : list A) : insert_by key x l ≡ₚ x :: l.
Proof.
  induction l as [|y l IH]; simpl; [done|].
  destruct (key x <=? key y); [done|].
  rewrite IH. apply Permutation_swap.
Qed.

Lemma sort_by_perm (l : list A) : sort_by key l ≡ₚ l.
Proof.
  induction l as [|x l IH]; simpl; [done|].
  by rewrite insert_by_perm, IH.
Qed.





End Sorting.

Lemma mem_iff (k : string) (ks : list string) : mem k ks = true ↔ k ∈ ks.
Proof.
  unfold mem. rewrite existsb_exists. split.
  - intros (x & Hin & ->%String.eqb_eq). by apply list_elem_of_In.
  - intros Hin. exists k. split; [by apply list_elem_of_In|].
    apply String.eqb_refl.
Qed.




Lemma slice_to_nonneg {A} (n : Z) (l : list A) :
  0 ≤ n → slice_to n l = take (Z.to_nat n) l.
Proof.
  intros Hn. unfold slice_to. destruct (0 <=? n) eqn:E; [done|].
  apply Z.leb_gt in E. lia.
Qed.



Lemma slice_to_negative {A} (n : Z) (l : list A) :
  n < 0 → slice_to n l = take (length l - Z.to_nat (- n)) l.
Proof.
  intros Hn. unfold slice_to. destruct (0 <=? n) eqn:E; [|done].
  apply Z.leb_le in E. lia.
Qed.

(** A negative bound is not a count: Python's slice then drops entries
    from the end. *)
Lemma websites_to_scrape_negative :
  map w_name (websites_to_scrape demo_catalog None (-1))
  = ["World Bank"; "CBN"; "NBS"].
Proof. reflexivity. Qed.

(* ===================================================================== *)
(** * 12. The prefilter *)
(* ===================================================================== *)

(** C3. [test_website_accessibility] sends one HEAD request with a
    timeout of 5 seconds, answers [True] exactly when that request is
    answered with a status code below 400, [False] when the request
    raises, and never raises itself. *)
Theorem test_website_accessibility_never_raises `{Runtime}
  (url : string) (n : nat) :
  ∃ b : bool,
    test_website_accessibility url n = (S n, Ok b)
    ∧ (b = true ↔ ∃ response, net n (Head url 5) = Ok response
                              ∧ status_code response < 400)
    ∧ (∀ e, net n (Head url 5) = Raised e → b = false).
Proof.
  unfold test_website_accessibility, io_try, io_bind, send, io_ret.
  destruct (net n (Head url 5)) as [response|e] eqn:Hnet.
  - exists (status_code response <? 400). split_and!; [done| |done].
    rewrite Z.ltb_lt. split.
    + intros ?. eauto.
    + intros (r & [= <-] & ?). done.
  - exists false. split_and!; [done| |done].
    split; [done|]. intros (r & [=] & _).
Qed.

(** A [try] whose handler returns a value returns. *)
Lemma io_try_ret {A} (m : IO A) (a : A) (n : nat) :
  ∃ n' a', io_try m (λ _, io_ret a) n = (n', Ok a').
Proof.
  unfold io_try, io_ret. destruct (m n) as [n' [a'|e]]; eauto.
Qed.

(** [scrape_website] never raises. *)
Lemma scrape_website_returns `{Runtime} (self : Scraper) (w : Website)
  (search_query : option string) (n : nat) :
  ∃ n' website_data,
    scrape_website self w search_query n = (n', Ok website_data).
Proof. apply io_try_ret. Qed.

(* ===================================================================== *)
(** * 13. The orchestrator *)
(* ===================================================================== *)

Lemma collect_one_app (all_data : list pydict) (fw : Future * Website) :
  collect_one all_data fw = all_data ++ records_of fw.1.
Proof.
  unfold collect_one, records_of.
  destruct (future_result fw.1) as [[|r data]|e]; simpl;
    by rewrite ?app_nil_r.
Qed.

Lemma foldl_collect_one (all_data : list pydict)
  (completed : list (Future * Website)) :
  foldl collect_one all_data completed
  = all_data ++ flat_map (λ fw, records_of fw.1) completed.
Proof.
  revert all_data. induction completed as [|fw l IH]; intros all_data; simpl.
  - by rewrite app_nil_r.
  - by rewrite IH, collect_one_app, <- app_assoc.
Qed.

Lemma collect_flat_map (completed : list (Future * Website)) :
  collect completed = flat_map (λ fw, records_of fw.1) completed.
Proof. unfold collect. by rewrite foldl_collect_one. Qed.

Lemma insert_by_map {A B} (key : B → Z) (g : A → B) (x : A) (l : list A) :
  insert_by key (g x) (map g l) = map g (insert_by (key ∘ g) x l).
Proof.
  induction l as [|y l IH]; simpl; [done|].
  destruct (key (g x) <=? key (g y)); simpl; [done|]. by rewrite IH.
Qed.

Lemma sort_by_map {A B} (key : B → Z) (g : A → B) (l : list A) :
  sort_by key (map g l) = map g (sort_by (key ∘ g) l).
Proof.
  induction l as [|x l IH]; simpl; [done|].
  by rewrite IH, insert_by_map.
Qed.

Lemma insert_by_ext {A} (k1 k2 : A → Z) (x : A) (l : list A) :
  (∀ a, k1 a = k2 a) → insert_by k1 x l = insert_by k2 x l.
Proof.
  intros Hk. induction l as [|y l IH]; simpl; [done|].
  by rewrite !Hk, IH.
Qed.

Lemma sort_by_ext {A} (k1 k2 : A → Z) (l : list A) :
  (∀ a, k1 a = k2 a) → sort_by k1 l = sort_by k2 l.
Proof.
  intros Hk. induction l as [|x l IH]; simpl; [done|].
  by rewrite IH, (insert_by_ext k1 k2).
Qed.

(** What the loop collects: the records of the tasks that returned, in
    the order in which the tasks ended. *)
Lemma collect_as_completed (submit : Website → Future)
  (to_scrape : list Website) :
  collect (as_completed (map (λ w, (submit w, w)) to_scrape))
  = flat_map (λ w, records_of (submit w))
      (sort_by (λ w, completed_at (submit w)) to_scrape).
Proof.
  unfold as_completed. rewrite collect_flat_map, sort_by_map.
  rewrite flat_map_concat_map, map_map, <- flat_map_concat_map. done.
Qed.




Lemma scrape_all_elem (self : Scraper) (submit : Website → Future)
  (to_scrape : list Website) (all_data : list pydict) (r : pydict) :
  scrape_all self submit to_scrape = Ok all_data →
  r ∈ all_data ↔ ∃ w, w ∈ to_scrape ∧ r ∈ records_of (submit w).
Proof.
  unfold scrape_all. destruct (pool_size self to_scrape <=? 0); [done|].
  intros [= <-]. rewrite collect_as_completed.
  rewrite list_elem_of_In, in_flat_map. split.
  - intros (w & Hw & Hr). exists w.
    rewrite <- !list_elem_of_In in *.
    by rewrite sort_by_perm in Hw.
  - intros (w & Hw & Hr). exists w.
    rewrite <- !list_elem_of_In.
    by rewrite sort_by_perm.
Qed.

Lemma dict_get_elem (k : string) (d : pydict) (v : pyval) :
  dict_get k d = Some v → (k, v) ∈ d.
Proof.
  induction d as [|[k' v'] d IH]; simpl; [done|].
  destruct (String.eqb k k') eqn:Hk.
  - apply String.eqb_eq in Hk as ->. intros [= ->]. left.
  - intros ?. right. auto.
Qed.

Lemma cell_of_hashable (r : pydict) (c : string) :
  forallb (λ kv, hashable kv.2) r = true → cell_hashable (cell_of r c) = true.
Proof.
  intros Hr. unfold cell_of.
  destruct (dict_get c r) as [v|] eqn:Hget; [|done].
  apply dict_get_elem in Hget.
  rewrite forallb_forall in Hr.
  specialize (Hr (c, v)). rewrite <- list_elem_of_In in Hr.
  specialize (Hr Hget). simpl in Hr. by destruct v.
Qed.

Lemma pd_DataFrame_hashable (data : list pydict) :
  all_hashable data = true →
  forallb (forallb cell_hashable) (rows (pd_DataFrame data)) = true.
Proof.
  unfold all_hashable, pd_DataFrame. simpl.
  generalize (all_columns data) as cols. intros cols.
  rewrite !forallb_forall. intros Hdata row Hrow.
  apply in_map_iff in Hrow as (r & <- & Hr).
  unfold row_of. rewrite forallb_forall. intros c Hc.
  apply in_map_iff in Hc as (col & <- & _).
  apply cell_of_hashable. auto.
Qed.


Lemma scrape_all_ok (self : Scraper) (submit : Website → Future)
  (to_scrape : list Website) :
  0 < pool_size self to_scrape →
  ∃ all_data, scrape_all self submit to_scrape = Ok all_data.
Proof.
  intros Hpool. unfold scrape_all.
  destruct (pool_size self to_scrape <=? 0) eqn:E; [|eauto].
  apply Z.leb_le in E. lia.
Qed.


(** The scenario of the specification: one source answers with a page,
    the other refuses the connection; the frame holds the two records of
    the first, which match the query. *)
Lemma scrape_reachable_and_unreachable :
  ∃ df,
    Super.smart_scrape_multiple_websites demo_scraper
      (run_task demo_scraper (Some "inflation") 0 0) two_sources
      "inflation" None 2
    = Ok df
    ∧ df_len df = 2%nat
    ∧ (run_task demo_scraper (Some "inflation") 0 0
         (site "NBS" "https://nigerianstat.gov.ng" "Official Statistics" 1))
      .(future_result) = Ok [].
Proof. eexists. split_and!; reflexivity. Qed.

(** Without a candidate no pool can be created: the scrape raises the
    ValueError of [ThreadPoolExecutor]. *)
Lemma no_candidate_raises `{Runtime} (self : Scraper)
  (submit : Website → Future) (all_websites : list Website)
  (search_query : string) (selected_categories : option (list string))
  (max_websites : Z) :
  websites_to_scrape all_websites selected_categories max_websites = [] →
  Super.smart_scrape_multiple_websites self submit all_websites
    search_query selected_categories max_websites
  = Raised ValueError.
Proof.
  intros Hnone. unfold Super.smart_scrape_multiple_websites, scrape_all.
  rewrite Hnone.
  assert ((pool_size self [] <=? 0) = true) as ->; [|done].
  apply Z.leb_le. unfold pool_size. simpl. lia.
Qed.


Lemma get_sample_data_length `{Runtime} (search_query : string) :
  (3 ≤ length (Super.get_sample_data search_query))%nat.
Proof.
  unfold Super.get_sample_data. rewrite !length_app. simpl. lia.
Qed.

Lemma nothing_collected (self : Scraper) (submit : Website → Future)
  (to_scrape : list Website) :
  0 < pool_size self to_scrape →
  (∀ w, w ∈ to_scrape → yields_nothing (submit w)) →
  scrape_all self submit to_scrape = Ok [].
Proof.
  intros Hpool Hnone.
  destruct (scrape_all_ok self submit to_scrape Hpool) as [all_data Hall].
  rewrite Hall. f_equal. destruct all_data as [|r all_data]; [done|].
  assert (r ∈ r :: all_data) as Hr by left.
  apply (scrape_all_elem _ _ _ _ _ Hall) in Hr as (w & Hw & Hr).
  specialize (Hnone w Hw). unfold yields_nothing, records_of in *.
  destruct (future_result (submit w)); subst; by apply elem_of_nil in Hr.
Qed.

(** C1, as the code has it.  When no source yields a record and the pool
    can be created, super.py returns the frame of its built-in sample
    records, which has at least three rows, and jim.py returns [None];
    neither raises. *)
Theorem no_data_outcome `{Runtime} (self : Scraper)
  (submit : Website → Future) (all_websites : list Website)
  (search_query : string) (selected_categories : option (list string))
  (max_websites : Z) :
  let to_scrape :=
    websites_to_scrape all_websites selected_categories max_websites in
  0 < pool_size self to_scrape →
  (∀ w, w ∈ to_scrape → yields_nothing (submit w)) →
  Super.smart_scrape_multiple_websites self submit all_websites
    search_query selected_categories max_websites
  = Ok (pd_DataFrame (Super.get_sample_data search_query))
  ∧ (3 ≤ df_len (pd_DataFrame (Super.get_sample_data search_query)))%nat
  ∧ Jim.smart_scrape_multiple_websites self submit all_websites
      search_query selected_categories max_websites
    = Ok None.
Proof.
  intros to_scrape Hpool Hnone.
  unfold Super.smart_scrape_multiple_websites,
    Jim.smart_scrape_multiple_websites.
  fold to_scrape. rewrite (nothing_collected _ _ _ Hpool Hnone). simpl.
  split_and!; [done| |done].
  unfold df_len, pd_DataFrame. simpl. rewrite length_map.
  apply get_sample_data_length.
Qed.

Lemma no_data_outcome_witness :
  0 < pool_size demo_scraper (websites_to_scrape demo_catalog None 3)
  ∧ (∀ w, w ∈ websites_to_scrape demo_catalog None 3 →
          yields_nothing (nothing_found w))
  ∧ Super.smart_scrape_multiple_websites demo_scraper nothing_found
      demo_catalog "gdp" None 3
    = Ok (pd_DataFrame (Super.get_sample_data "gdp"))
  ∧ (3 ≤ df_len (pd_DataFrame (Super.get_sample_data "gdp")))%nat
  ∧ Jim.smart_scrape_multiple_websites demo_scraper nothing_found
      demo_catalog "gdp" None 3
    = Ok None.
Proof.
  split; [reflexivity|]. split; [intros w _; reflexivity|].
  apply (no_data_outcome demo_scraper nothing_found demo_catalog "gdp"
           None 3); [reflexivity | intros w _; reflexivity].
Defined.

(** C1, as the specification has it, fails: with one candidate source
    after another yielding nothing, super.py answers with a frame of four
    rows and jim.py with [None], not with an empty frame. *)
Lemma empty_result_set_counterexample :
  (∀ w, yields_nothing (nothing_found w))
  ∧ ¬ empty_result_set
        (Super.smart_scrape_multiple_websites demo_scraper nothing_found
           demo_catalog "gdp" None 3)
  ∧ ¬ (∃ df, Jim.smart_scrape_multiple_websites demo_scraper nothing_found
               demo_catalog "gdp" None 3 = Ok (Some df)).
Proof.
  split; [intros w; reflexivity|]. split.
  - intros (df & Hdf & Hrows). vm_compute in Hdf.
    injection Hdf as <-. discriminate Hrows.
  - intros (df & Hdf). vm_compute in Hdf. discriminate Hdf.
Qed.

(* ===================================================================== *)
(** * 14. The query filter *)
(* ===================================================================== *)

Lemma append_nil (s : string) : EmptyString +:+ s = s.
Proof. reflexivity. Qed.

Lemma append_cons (c : ascii) (s t : string) :
  String c s +:+ t = String c (s +:+ t).
Proof. reflexivity. Qed.

Lemma lower_app (s t : string) : lower (s +:+ t) = lower s +:+ lower t.
Proof.
  induction s as [|c s IH]; [done|].
  rewrite append_cons. simpl. by rewrite IH, append_cons.
Qed.

(** Lower-casing leaves white space alone, and makes none. *)
Lemma is_space_lower_char (c : ascii) : is_space (lower_char c) = is_space c.
Proof. by destruct c as [[] [] [] [] [] [] [] []]. Qed.

Lemma is_empty_lower (s : string) : is_empty (lower s) = is_empty s.
Proof. by destruct s. Qed.

Lemma split_go_lower (s cur : string) :
  split_go (lower s) (lower cur) = map lower (split_go s cur).
Proof.
  revert cur. induction s as [|c s IH]; intros cur; simpl.
  - rewrite is_empty_lower. by destruct (is_empty cur).
  - rewrite is_space_lower_char, is_empty_lower.
    destruct (is_space c).
    + destruct (is_empty cur); simpl; by rewrite <- (IH EmptyString).
    + by rewrite <- IH, lower_app.
Qed.

(** The terms the filter looks for, [search_query.lower().split()], are
    the lower-cased tokens of the query. *)
Lemma split_lower (s : string) : split (lower s) = map lower (split s).
Proof. apply (split_go_lower s EmptyString). Qed.

Lemma prefix_iff (t s : string) :
  String.prefix t s = true ↔ ∃ rest, s = t +:+ rest.
Proof.
  revert s. induction t as [|c t IH]; intros s.
  - split; [|by destruct s]. intros _. by exists s.
  - destruct s as [|c' s]; simpl.
    + split; [done|]. intros (rest & Hs). by rewrite append_cons in Hs.
    + destruct (Ascii.ascii_dec c c') as [->|Hne].
      * rewrite IH. split.
        -- intros (rest & ->). exists rest. by rewrite append_cons.
        -- intros (rest & Hs). rewrite append_cons in Hs.
           injection Hs as ->. by exists rest.
      * split; [done|]. intros (rest & Hs). rewrite append_cons in Hs.
        congruence.
Qed.

(** [contains] decides [substring]. *)
Lemma contains_iff (s t : string) : contains s t = true ↔ substring t s.
Proof.
  unfold substring. induction s as [|c s IH].
  - change (contains EmptyString t)
      with (String.prefix t EmptyString || false).
    rewrite orb_false_r, prefix_iff. split.
    + intros (rest & Hs). by exists EmptyString, rest.
    + intros ([|c before] & after & Hs).
      * rewrite append_nil in Hs. by exists after.
      * by rewrite append_cons in Hs.
  - change (contains (String c s) t)
      with (String.prefix t (String c s) || contains s t).
    rewrite orb_true_iff, prefix_iff, IH. split.
    + intros [(rest & Hs) | (before & after & ->)].
      * exists EmptyString, rest. by rewrite append_nil.
      * exists (String c before), after. by rewrite append_cons.
    + intros ([|c' before] & after & Hs).
      * left. exists after. by rewrite append_nil in Hs.
      * right. rewrite append_cons in Hs. injection Hs as -> ->.
        by exists before, after.
Qed.

Lemma List_filter_sublist {A} (p : A → bool) (l : list A) :
  List.filter p l `sublist_of` l.
Proof.
  induction l as [|x l IH]; simpl; [done|].
  destruct (p x); [by apply sublist_skip | by apply sublist_cons].
Qed.

Lemma filter_by_query_elem `{Runtime} (q : string) (data : list pydict)
  (item : pydict) :
  item ∈ filter_by_query q data
  ↔ item ∈ data
    ∧ ∃ token, token ∈ split q
               ∧ substring (lower token) (lower (py_str (PDict item))).
Proof.
  unfold filter_by_query.
  rewrite list_elem_of_In, filter_In, <- list_elem_of_In, existsb_exists.
  rewrite split_lower.
  split; intros [Hin Hex]; (split; [done|]).
  - destruct Hex as (term & Hterm & Hc).
    apply in_map_iff in Hterm as (token & <- & Htoken).
    exists token. rewrite list_elem_of_In. split; [done|].
    by apply contains_iff.
  - destruct Hex as (token & Htoken & Hsub).
    exists (lower token). split.
    + apply in_map. by apply list_elem_of_In.
    + by apply contains_iff.
Qed.

(** C4. In [extract_html_data] the query only filters: with a non-empty
    query the records are a sublist of the records without a query, and a
    record stays exactly when some white-space separated token of the
    query, lower-cased, occurs in the lower-cased [str] of the record. *)
Theorem query_filter_is_a_filter `{Runtime} (soup : Page)
  (url search_query : string) :
  search_query ≠ EmptyString →
  let unfiltered := extract_html_data soup url None in
  let filtered := extract_html_data soup url (Some search_query) in
  filtered `sublist_of` unfiltered
  ∧ ∀ item,
      item ∈ filtered
      ↔ item ∈ unfiltered
        ∧ ∃ token, token ∈ split search_query
                   ∧ substring (lower token) (lower (py_str (PDict item))).
Proof.
  intros Hq unfiltered filtered. subst unfiltered filtered.
  unfold extract_html_data.
  destruct search_query as [|c q]; [done|]. simpl negb. simpl andb.
  destruct (html_data soup url) as [|r data] eqn:Hdata.
  - simpl. split; [done|]. intros item. split.
    + intros ?%elem_of_nil. done.
    + intros [?%elem_of_nil _]. done.
  - cbv [truthy]. split.
    + apply List_filter_sublist.
    + intros item. apply filter_by_query_elem.
Qed.

Lemma query_filter_is_a_filter_witness :
  "Economic" ≠ EmptyString
  ∧ extract_html_data inflation_page "https://example.org" (Some "Economic")
    `sublist_of` extract_html_data inflation_page "https://example.org" None
  ∧ ∀ item,
      item ∈ extract_html_data inflation_page "https://example.org"
               (Some "Economic")
      ↔ item ∈ extract_html_data inflation_page "https://example.org" None
        ∧ ∃ token, token ∈ split "Economic"
                   ∧ substring (lower token) (lower (py_str (PDict item))).
Proof.
  split; [discriminate|].
  apply (query_filter_is_a_filter inflation_page "https://example.org"
           "Economic").
  discriminate.
Defined.

(** Without a query, and with the empty query, nothing is filtered. *)
Lemma extract_html_data_empty_query `{Runtime} (soup : Page) (url : string) :
  extract_html_data soup url (Some EmptyString)
  = extract_html_data soup url None.
Proof. reflexivity. Qed.

(* ===================================================================== *)
(** * 15. PDF extraction *)
(* ===================================================================== *)



Lemma try_methods_cons `{Runtime} (m : method) (ms : list method)
  (pdf_content url : string) :
  try_methods (m :: ms) pdf_content url
  = match call_method m pdf_content url with
    | Ok data =>
        if truthy data then data else try_methods ms pdf_content url
    | Raised _ => try_methods ms pdf_content url
    end.
Proof. reflexivity. Qed.




Lemma try_methods_from `{Runtime} (ms : list method)
  (pdf_content url : string) :
  truthy (try_methods ms pdf_content url) = true →
  ∃ m, m ∈ ms ∧ call_method m pdf_content url
                 = Ok (try_methods ms pdf_content url).
Proof.
  induction ms as [|m ms IH]; [done|].
  rewrite try_methods_cons.
  destruct (call_method m pdf_content url) as [[|r data]|e] eqn:Hm; simpl.
  - intros (m' & ? & ?)%IH. exists m'. split; [by right|done].
  - intros _. exists m. split; [left|done].
  - intros (m' & ? & ?)%IH. exists m'. split; [by right|done].
Qed.





(** [scrape_pdf] never raises. *)
Lemma scrape_pdf_returns `{Runtime} (url : string) (n : nat) :
  ∃ n' pdf_data, scrape_pdf url n = (n', Ok pdf_data).
Proof. apply io_try_ret. Qed.

(** For a reachable URL that answers 200 with a PDF, [scrape_pdf] is the
    extraction above on the body. *)
Lemma scrape_pdf_downloaded `{Runtime} (url : string) (n : nat)
  (probe response : Response) :
  net n (Head url 5) = Ok probe → status_code probe < 400 →
  net (S n) (Get url 30) = Ok response → status_code response = 200 →
  contains (lower (content_type response)) "application/pdf" = true →
  scrape_pdf url n = (S (S n), Ok (parse_pdf_content (content response) url)).
Proof.
  intros Hprobe Hlt Hget Hstatus Htype.
  unfold scrape_pdf, io_try, io_bind, test_website_accessibility, io_try,
    io_bind, send, request_session_get, send, io_ret.
  rewrite Hprobe. simpl.
  apply Z.ltb_lt in Hlt. rewrite Hlt. simpl.
  rewrite Hget. simpl. rewrite Htype, Hstatus. done.
Qed.

(* ===================================================================== *)
(** * 16. The source columns of a record *)
(* ===================================================================== *)

Lemma dict_get_set_eq (k : string) (v : pyval) (d : pydict) :
  dict_get k (dict_set k v d) = Some v.
Proof.
  induction d as [|[k' v'] d IH]; simpl.
  - by rewrite String.eqb_refl.
  - destruct (String.eqb k k') eqn:Hk; simpl.
    + by rewrite String.eqb_refl.
    + by rewrite Hk.
Qed.

Lemma dict_get_set_ne (k k' : string) (v : pyval) (d : pydict) :
  k ≠ k' → dict_get k' (dict_set k v d) = dict_get k' d.
Proof.
  intros Hne. induction d as [|[k0 v0] d IH]; simpl.
  - destruct (String.eqb k' k) eqn:Hk; [|done].
    apply String.eqb_eq in Hk. congruence.
  - destruct (String.eqb k k0) eqn:Hk; simpl.
    + apply String.eqb_eq in Hk as <-.
      destruct (String.eqb k' k) eqn:Hk'; [|done].
      apply String.eqb_eq in Hk'. congruence.
    + by rewrite IH.
Qed.

Lemma add_source_columns (name url scrape_method : string) (item : pydict) :
  let r := add_source name url scrape_method item in
  dict_get "Source_Website" r = Some (PStr name)
  ∧ dict_get "Source_URL" r = Some (PStr url)
  ∧ dict_get "Scrape_Method" r = Some (PStr scrape_method).
Proof.
  unfold add_source. split_and!.
  - rewrite !dict_get_set_ne by done. apply dict_get_set_eq.
  - rewrite dict_get_set_ne by done. apply dict_get_set_eq.
  - apply dict_get_set_eq.
Qed.

(** The source columns leave the other keys of a record alone. *)
Lemma add_source_other (name url scrape_method k : string) (item : pydict) :
  k ≠ "Source_Website" → k ≠ "Source_URL" → k ≠ "Scrape_Method" →
  dict_get k (add_source name url scrape_method item) = dict_get k item.
Proof.
  intros. unfold add_source. by rewrite !dict_get_set_ne.
Qed.

Lemma io_bind_ok {A B} (m : IO A) (k : A → IO B) (n n' : nat) (b : B) :
  io_bind m k n = (n', Ok b) →
  ∃ n1 a, m n = (n1, Ok a) ∧ k a n1 = (n', Ok b).
Proof.
  unfold io_bind. destruct (m n) as [n1 [a|e]]; [eauto|done].
Qed.

Lemma io_try_nil_ok {A} (m : IO (list A)) (n n' : nat) (data : list A) :
  io_try m (λ _, io_ret []) n = (n', Ok data) →
  m n = (n', Ok data) ∨ data = [].
Proof.
  unfold io_try, io_ret. destruct (m n) as [n1 [a|e]]; intros [= <- <-]; auto.
Qed.

(** Every record [scrape_website] returns names its source: the three
    columns written at super.py 753-757. *)
Lemma scrape_website_source_columns `{Runtime} (self : Scraper) (w : Website)
  (search_query : option string) (n n' : nat) (website_data : list pydict) :
  scrape_website self w search_query n = (n', Ok website_data) →
  Forall (λ r, dict_get "Source_Website" r = Some (PStr (w_name w))
               ∧ dict_get "Source_URL" r = Some (PStr (w_url w))
               ∧ dict_get "Scrape_Method" r
                 = Some (PStr (w_scrape_method w)))
         website_data.
Proof.
  unfold scrape_website. intros [Hrun| ->]%io_try_nil_ok; [|constructor].
  apply io_bind_ok in Hrun as (n1 & accessible & _ & Hrun).
  destruct (negb accessible).
  - injection Hrun as _ <-. constructor.
  - apply io_bind_ok in Hrun as (n2 & data & _ & Hrun).
    injection Hrun as _ <-.
    apply Forall_map, Forall_forall. intros item _.
    apply add_source_columns.
Qed.

(** A record of the JSON extractor has a scrape date only if the
    document has a key of that name. *)
Lemma json_record_scrape_date `{Runtime} (d : pydict)
  (name url scrape_method : string) :
  dict_get "Scrape_Date"
    (add_source name url scrape_method (json_record d url))
  = dict_get "Scrape_Date" (flatten_dict_limit 2 d "" "_").
Proof.
  rewrite add_source_other by done. unfold json_record.
  by rewrite !dict_get_set_ne.
Qed.

(** C9, on the code: a source that answers with the JSON document
    [{"gdp": 440, "years": [2021, 2022, 2023]}] yields one record; it
    names its source, and it has no scrape date. *)
Theorem json_record_has_no_scrape_date :
  ∃ r,
    scrape_website demo_scraper
      (site "Indicators" json_url "Economic Statistics" 3) (Some "gdp")
      0%nat
    = (2%nat, Ok [r])
    ∧ has_key "Source_Website" r = true
    ∧ has_key "Source_URL" r = true
    ∧ has_key "Scrape_Method" r = true
    ∧ has_key "Scrape_Date" r = false.
Proof. eexists. split_and!; reflexivity. Qed.

(** The rows pandas reads from a table and the record of an XML document
    have no scrape date either. *)
Lemma table_row_has_no_scrape_date `{Runtime} (url : string) :
  map (has_key "Scrape_Date")
      (table_records 0
         {| table_read_html := Ok [cities_frame]; table_tr := [];
            table_html := "" |} url)
  = [false; false].
Proof. reflexivity. Qed.

Lemma xml_record_has_no_scrape_date `{Runtime} (url : string) :
  map (has_key "Scrape_Date")
      (parse_xml_data
         (Elem "data" None [Elem "gdp" (Some "440") []]) url)
  = [false].
Proof. reflexivity. Qed.

(* ===================================================================== *)
(** * 17. Tables *)
(* ===================================================================== *)

(** yap.py 463 reads [t['table_name']], a key the dicts of [tables_data]
    do not have: the check raises KeyError as soon as one table has been
    collected, and the loop then skips every table that is left. *)
Lemma already_found_raises `{Runtime} (table_idx : nat)
  (t : Yap.table_info) (tables_data : list Yap.table_info) :
  Yap.already_found table_idx (t :: tables_data) = Raised KeyError.
Proof. reflexivity. Qed.

Lemma manual_tables_skips `{Runtime} (html_tables : list HtmlTable)
  (table_idx : nat) (url : string) (search_query : option string)
  (t : Yap.table_info) (tables_data : list Yap.table_info) :
  Yap.manual_tables html_tables table_idx url search_query (t :: tables_data)
  = t :: tables_data.
Proof.
  revert table_idx. induction html_tables as [|table html_tables IH];
    intros table_idx; [done|].
  simpl. apply IH.
Qed.

(** C8, on the code.  On a page with two tables of two rows each that
    pandas cannot read, yap.py reports the first table and skips the
    second; on a page with one table of three rows that pandas reads,
    my.py reports that table twice. *)
Theorem tables_are_skipped_or_repeated `{Runtime} (url : string) :
  (length (find_tables two_tables_page) = 2%nat
   ∧ map (λ t, dict_get "table_name" (Yap.metadata t))
         (Yap.extract_all_tables two_tables_page url None)
     = [Some (PStr "Table_1_manual")])
  ∧ (length (find_tables one_table_page) = 1%nat
     ∧ map (λ t, dict_get "table_name" (My.metadata t))
           (My.extract_all_tables one_table_page url [])
       = [Some (PStr "Table_1"); Some (PStr "Table_1_manual")]).
Proof. split_and!; reflexivity. Qed.

(* ===================================================================== *)
(** * 18. Flattening JSON *)
(* ===================================================================== *)

Lemma dict_set_elem (k : string) (v : pyval) (d : pydict)
  (kv : string * pyval) :
  kv ∈ dict_set k v d → kv = (k, v) ∨ kv ∈ d.
Proof.
  induction d as [|[k' v'] d IH]; simpl.
  - intros ->%list_elem_of_singleton. by left.
  - destruct (String.eqb k k').
    + intros [->|?]%elem_of_cons; [by left|]. right. by right.
    + intros [->|Hin]%elem_of_cons; [right; left|].
      destruct (IH Hin); [by left|]. right. by right.
Qed.

Lemma dict_get_set (k k' : string) (v : pyval) (d : pydict) :
  dict_get k' (dict_set k v d)
  = if String.eqb k' k then Some v else dict_get k' d.
Proof.
  destruct (String.eqb k' k) eqn:Hk.
  - apply String.eqb_eq in Hk as ->. apply dict_get_set_eq.
  - apply dict_get_set_ne. intros ->. by rewrite String.eqb_refl in Hk.
Qed.

Lemma dict_set_keys_NoDup (k : string) (v : pyval) (d : pydict) :
  NoDup d.*1 → NoDup (dict_set k v d).*1.
Proof.
  induction d as [|[k' v'] d IH]; simpl.
  - intros _. apply NoDup_singleton.
  - intros [Hk' Hd]%NoDup_cons. destruct (String.eqb k k') eqn:Hk; simpl.
    + apply String.eqb_eq in Hk as ->. by apply NoDup_cons.
    + apply NoDup_cons. split; [|auto].
      intros ((k0 & v0) & Heq & [[= -> ->]|Hin]%dict_set_elem)%list_elem_of_fmap.
      * simpl in Heq. subst. by rewrite String.eqb_refl in Hk.
      * simpl in Heq. subst. apply Hk'. apply list_elem_of_fmap.
        by exists (k0, v0).
Qed.

Lemma foldl_dict_set (acc items : pydict) :
  let d := foldl (λ d kv, dict_set kv.1 kv.2 d) acc items in
  (∀ kv, kv ∈ d → kv ∈ acc ∨ kv ∈ items)
  ∧ (∀ k, is_Some (dict_get k acc) ∨ k ∈ items.*1 → is_Some (dict_get k d))
  ∧ (NoDup acc.*1 → NoDup d.*1).
Proof.
  revert acc. induction items as [|[k v] items IH]; intros acc; simpl.
  - split_and!; [auto| |done].
    intros k [?|?%elem_of_nil]; done.
  - destruct (IH (dict_set k v acc)) as (Hin & Hkeys & Hnd). split_and!.
    + intros kv [[->|?]%dict_set_elem|?]%Hin; auto.
      * right. left.
      * right. by right.
    + intros k' Hk'. apply Hkeys. rewrite dict_get_set.
      destruct (String.eqb k' k) eqn:Hk; [left; eauto|].
      destruct Hk' as [?|[->|?]%elem_of_cons]; [by left| |by right].
      by rewrite String.eqb_refl in Hk.
    + intros ?. by apply Hnd, dict_set_keys_NoDup.
Qed.

Lemma dict_of_items_elem (items : pydict) (kv : string * pyval) :
  kv ∈ dict_of_items items → kv ∈ items.
Proof.
  intros Hin. destruct (foldl_dict_set [] items) as (H1 & _).
  destruct (H1 kv Hin) as [?%elem_of_nil|?]; done.
Qed.

Lemma dict_of_items_key (items : pydict) (k : string) (v : pyval) :
  (k, v) ∈ items → ∃ v', (k, v') ∈ dict_of_items items.
Proof.
  intros Hin. destruct (foldl_dict_set [] items) as (_ & H2 & _).
  destruct (H2 k) as [v' Hv'].
  - right. apply list_elem_of_fmap. by exists (k, v).
  - exists v'. by apply dict_get_elem.
Qed.

Lemma dict_of_items_NoDup (items : pydict) : NoDup (dict_of_items items).*1.
Proof.
  destruct (foldl_dict_set [] items) as (_ & _ & H3). apply H3. constructor.
Qed.

(** [enumerate(l[:limit])] visits the elements of index below [limit]. *)
Lemma for_enumerate_elem {A B} (f : nat → A → list B) (limit i : nat)
  (l : list A) (y : B) :
  y ∈ for_enumerate f limit i l
  ↔ ∃ j x, l !! j = Some x ∧ (j < limit)%nat ∧ y ∈ f (i + j)%nat x.
Proof.
  revert limit i. induction l as [|a l IH]; intros limit i.
  - destruct limit; simpl; (split; [by intros ?%elem_of_nil|]);
      by intros (j & x & ? & _).
  - destruct limit as [|limit]; simpl.
    + split; [by intros ?%elem_of_nil|]. intros (j & x & _ & ? & _). lia.
    + rewrite elem_of_app, IH. split.
      * intros [Hy | (j & x & Hj & Hlt & Hy)].
        -- exists 0%nat, a. rewrite Nat.add_0_r. split_and!; [done|lia|done].
        -- exists (S j), x. rewrite Nat.add_succ_r. split_and!; [done|lia|done].
      * intros ([|j] & x & Hj & Hlt & Hy).
        -- left. injection Hj as ->. by rewrite Nat.add_0_r in Hy.
        -- right. exists j, x. rewrite Nat.add_succ_r in Hy.
           split_and!; [done|lia|done].
Qed.

(** The loop is the loop over [enumerate(l[:limit])]. *)
Lemma for_enumerate_take {A B} (f : nat → A → list B) (limit i : nat)
  (l : list A) :
  for_enumerate f limit i l
  = concat (imap (λ j, f (i + j)%nat) (take limit l)).
Proof.
  revert limit i. induction l as [|a l IH]; intros [|limit] i; simpl;
    [done..|].
  rewrite Nat.add_0_r, IH. do 2 f_equal.
  apply imap_ext. intros j x _. simpl. f_equal. lia.
Qed.

Lemma flatten_value_dict `{Runtime} (limit : nat) (kvs : pydict)
  (parent_key sep : string) :
  flatten_value limit (PDict kvs) parent_key sep
  = dict_of_items (flat_map (entry_items limit parent_key sep) kvs).
Proof. reflexivity. Qed.

Lemma flatten_value_not_dict `{Runtime} (limit : nat) (v : pyval)
  (parent_key sep : string) :
  is_dict v = false → flatten_value limit v parent_key sep = [].
Proof. by destruct v. Qed.

Section Flatten.
Context `{Runtime} (limit : nat) (sep : string).

Lemma entry_items_sound (kvs : pydict) (k : string) (v : pyval)
  (parent_key key : string) (val : pyval) :
  (k, v) ∈ kvs →
  flattens_soundly limit sep v →
  (∀ xs, v = PList xs → Forall (flattens_soundly limit sep) xs) →
  (key, val) ∈ entry_items limit parent_key sep (k, v) →
  ∃ x, flat_entry limit sep (PDict kvs) parent_key key x
       ∧ val = PStr (py_str x).
Proof.
  intros Hkv Hv Hxs Hin. unfold entry_items in Hin.
  destruct v as [ | b | z | s | xs | sub ].
  1-4: apply list_elem_of_singleton in Hin as [= -> ->];
       eexists; split; [by eapply entry_leaf|done].
  - apply for_enumerate_elem in Hin as (j & item & Hj & Hlt & Hin).
    simpl in Hin. specialize (Hxs xs eq_refl).
    rewrite Forall_forall in Hxs.
    assert (flattens_soundly limit sep item) as Hitem.
    { apply Hxs. by eapply list_elem_of_lookup_2. }
    destruct item as [ | b | z | s | ys | sub ].
    1-5: apply list_elem_of_singleton in Hin as [= -> ->];
         eexists; split; [by eapply entry_item|done].
    apply Hitem in Hin as (x & Hx & ->).
    exists x. split; [|done]. by eapply entry_item_dict.
  - apply Hv in Hin as (x & Hx & ->).
    exists x. split; [|done]. by eapply entry_dict.
Qed.

Lemma flatten_value_sound (d : pyval) :
  flattens_soundly limit sep d
  ∧ (∀ xs, d = PList xs → Forall (flattens_soundly limit sep) xs).
Proof.
  induction d as [ | b | z | s | xs IH | kvs IH ] using pyval_ind'.
  1-4: split; [|done]; intros parent_key key val ?%elem_of_nil; done.
  - split.
    + intros parent_key key val ?%elem_of_nil. done.
    + intros ? [= <-]. eapply Forall_impl; [exact IH|]. by intros x [? _].
  - split; [|done]. intros parent_key key val Hin.
    rewrite flatten_value_dict in Hin. apply dict_of_items_elem in Hin.
    apply list_elem_of_In, in_flat_map in Hin as ([k v] & Hkv & Hin).
    apply list_elem_of_In in Hkv, Hin.
    rewrite Forall_forall in IH. destruct (IH _ Hkv) as [Hv Hxs].
    by eapply entry_items_sound.
Qed.

(** Every value of the nested dict within the bound has its key in the
    flat dict. *)
Lemma flatten_value_complete (d : pyval) (parent_key key : string)
  (x : pyval) :
  flat_entry limit sep d parent_key key x →
  ∃ val, (key, val) ∈ flatten_value limit d parent_key sep.
Proof.
  induction 1 as [ kvs parent_key k v Hkv Hd Hl
                 | kvs parent_key k sub key x Hkv _ IH
                 | kvs parent_key k xs i item Hkv Hi Hlt Hd
                 | kvs parent_key k xs i sub key x Hkv Hi Hlt _ IH ];
    rewrite flatten_value_dict.
  - apply (dict_of_items_key _ _ (PStr (py_str v))).
    apply list_elem_of_In, in_flat_map. exists (k, v).
    split; [by apply list_elem_of_In|]. apply list_elem_of_In.
    unfold entry_items. destruct v; try done; by apply list_elem_of_singleton.
  - destruct IH as [val Hval]. apply (dict_of_items_key _ _ val).
    apply list_elem_of_In, in_flat_map. exists (k, PDict sub).
    split; by apply list_elem_of_In.
  - apply (dict_of_items_key _ _ (PStr (py_str item))).
    apply list_elem_of_In, in_flat_map. exists (k, PList xs).
    split; [by apply list_elem_of_In|]. apply list_elem_of_In.
    unfold entry_items. apply for_enumerate_elem. exists i, item.
    split_and!; [done..|]. simpl.
    destruct item; try done; by apply list_elem_of_singleton.
  - destruct IH as [val Hval]. apply (dict_of_items_key _ _ val).
    apply list_elem_of_In, in_flat_map. exists (k, PList xs).
    split; [by apply list_elem_of_In|]. apply list_elem_of_In.
    unfold entry_items. apply for_enumerate_elem. exists i, (PDict sub).
    split_and!; done.
Qed.

End Flatten.

(** C10. [flatten_dict] returns a flat dict: every value is a string, the
    [str] of a value of the nested dict that is no dict (and no list,
    unless it is an element of a list); its key joins the keys on the
    path to that value with the separator, an element of a list adding
    its index; and only the first 2 (super.py) or 3 (jim.py) elements of
    a list are visited, so every such value within that bound has its key
    in the result, and no other value has. *)
Theorem flatten_dict_is_flat `{Runtime} (limit : nat) (d : pydict)
  (parent_key sep : string) :
  let flat := flatten_dict_limit limit d parent_key sep in
  Forall (λ kv, ∃ s, kv.2 = PStr s) flat
  ∧ (∀ key val, (key, val) ∈ flat →
       ∃ x, flat_entry limit sep (PDict d) parent_key key x
            ∧ val = PStr (py_str x))
  ∧ (∀ key x, flat_entry limit sep (PDict d) parent_key key x →
       ∃ val, (key, val) ∈ flat)
  ∧ NoDup flat.*1
  ∧ Super.flatten_dict = flatten_dict_limit 2
  ∧ Jim.flatten_dict = flatten_dict_limit 3.
Proof.
  intros flat. subst flat. unfold flatten_dict_limit.
  pose proof (flatten_value_sound limit sep (PDict d)) as [Hsound _].
  split_and!; [| | | |done|done].
  - apply Forall_forall. intros [key val] Hin.
    apply Hsound in Hin as (x & _ & ->). by eexists.
  - intros key val. apply Hsound.
  - intros key x. apply flatten_value_complete.
  - rewrite flatten_value_dict. apply dict_of_items_NoDup.
Qed.

(** A list of three elements loses its third element in super.py and
    keeps it in jim.py. *)
Lemma flatten_dict_truncates :
  Super.flatten_dict [("years", PList [PInt 2021; PInt 2022; PInt 2023])]
    "" "_"
  = [("years_0", PStr "2021"); ("years_1", PStr "2022")]
  ∧ Jim.flatten_dict [("years", PList [PInt 2021; PInt 2022; PInt 2023])]
      "" "_"
    = [("years_0", PStr "2021"); ("years_1", PStr "2022");
       ("years_2", PStr "2023")].
Proof. split; reflexivity. Qed.

(* ===================================================================== *)
(** * 19. The requests one source costs *)
(* ===================================================================== *)

Lemma within_ret {A} (a : A) (hi : nat) : within (io_ret a) hi.
Proof. intros t. simpl. lia. Qed.

Lemma within_lift {A} (r : result A) (hi : nat) : within (io_lift r) hi.
Proof. intros t. simpl. lia. Qed.

Lemma within_send `{Runtime} (rq : Request) (hi : nat) :
  within (send rq) (S hi).
Proof. intros t. simpl. lia. Qed.

Lemma within_mono {A} (m : IO A) (a b : nat) :
  within m a → (a ≤ b)%nat → within m b.
Proof. intros Hm Hab t. specialize (Hm t). lia. Qed.

Lemma within_bind {A B} (m : IO A) (k : A → IO B) (a b : nat) :
  within m a → (∀ x, within (k x) b) → within (io_bind m k) (a + b).
Proof.
  intros Hm Hk t. unfold io_bind. specialize (Hm t).
  destruct (m t) as [t' [x|e]]; simpl in *; [|lia].
  specialize (Hk x t'). lia.
Qed.

Lemma within_try {A} (m : IO A) (handler : exn → IO A) (a b : nat) :
  within m a → (∀ e, within (handler e) b) →
  within (io_try m handler) (a + b).
Proof.
  intros Hm Hh t. unfold io_try. specialize (Hm t).
  destruct (m t) as [t' [x|e]]; simpl in *; [lia|].
  specialize (Hh e t'). lia.
Qed.

(** The prefilter is one HEAD request, and its answer is [answers]. *)
Lemma test_website_accessibility_eq `{Runtime} (url : string) (t : nat) :
  test_website_accessibility url t = (S t, Ok (answers t url)).
Proof.
  unfold test_website_accessibility, answers, io_try, io_bind, send, io_ret.
  by destruct (net t (Head url 5)).
Qed.

Lemma test_website_accessibility_within `{Runtime} (url : string) :
  within (test_website_accessibility url) 1.
Proof. intros t. rewrite test_website_accessibility_eq. simpl. lia. Qed.

Lemma scrape_pdf_within `{Runtime} (url : string) : within (scrape_pdf url) 2.
Proof.
  unfold scrape_pdf.
  apply (within_try _ _ 2 0); [|intros; apply within_ret].
  apply (within_bind _ _ 1 1); [apply test_website_accessibility_within|].
  intros accessible. destruct (negb accessible); [apply within_ret|].
  apply (within_bind _ _ 1 0); [apply within_send|].
  intros response. destruct (_ && _); apply within_ret.
Qed.

Lemma embedded_pdfs_within `{Runtime} (url : string) (pdf_links : list string) :
  within (embedded_pdfs url pdf_links) (2 * length pdf_links).
Proof.
  induction pdf_links as [|href links IH]; simpl embedded_pdfs.
  - apply within_ret.
  - eapply within_mono.
    + apply (within_bind _ _ 2 (2 * length links)); [apply scrape_pdf_within|].
      intros pdf_data.
      apply (within_mono _ (2 * length links + 0)); [|lia].
      apply within_bind; [apply IH|].
      intros more. apply within_ret.
    + simpl. lia.
Qed.

Lemma scrape_with_requests_within `{Runtime} (url : string)
  (search_query : option string) :
  within (scrape_with_requests url search_query) 5.
Proof.
  unfold scrape_with_requests.
  apply (within_try _ _ 5 0); [|intros; apply within_ret].
  apply (within_bind _ _ 1 4); [apply within_send|].
  intros response. destruct (status_code response =? 200); [|apply within_ret].
  apply (within_bind _ _ 2 2).
  - repeat case_match; try apply within_ret; try apply scrape_pdf_within.
    + apply (within_bind _ _ 0 2); [apply within_lift|].
      intros. apply within_ret.
    + apply (within_bind _ _ 0 2); [apply within_lift|].
      intros. apply within_ret.
  - intros data. apply (within_bind _ _ 2 0); [|intros; apply within_ret].
    destruct PDF_LIBRARIES_AVAILABLE; [|apply within_ret].
    eapply within_mono; [apply embedded_pdfs_within|].
    rewrite length_take. lia.
Qed.

Lemma scrape_with_api_within `{Runtime} (url : string)
  (search_query : option string) :
  within (scrape_with_api url search_query) 1.
Proof.
  unfold scrape_with_api.
  apply (within_try _ _ 1 0); [|intros; apply within_ret].
  apply (within_bind _ _ 1 0); [apply within_send|].
  intros response. repeat case_match; try apply within_ret.
  - apply (within_bind _ _ 0 0); [apply within_lift|].
    intros. apply within_ret.
  - apply (within_bind _ _ 0 0); [apply within_lift|].
    intros. apply within_ret.
Qed.

Lemma scrape_with_selenium_within `{Runtime} (self : Scraper) (url : string)
  (search_query : option string) :
  within (scrape_with_selenium self url search_query) 6.
Proof.
  unfold scrape_with_selenium. destruct (negb (driver self)).
  - eapply within_mono; [apply scrape_with_requests_within|lia].
  - apply (within_try _ _ 1 5); [|intros; apply scrape_with_requests_within].
    apply (within_bind _ _ 1 0); [|intros; apply within_ret].
    intros t. simpl. lia.
Qed.

(** X1. What one source costs.  [scrape_website] always sends the HEAD
    request of the prefilter and never more than seven requests in all
    (the probe, the page through the browser and again through requests,
    a PDF and a linked PDF with a probe each).  A source whose probe
    fails or is answered with a status of 400 or more costs that one
    request: no GET is sent and no record is returned. *)
Theorem scrape_website_requests `{Runtime} (self : Scraper) (w : Website)
  (search_query : option string) (t : nat) :
  (S t ≤ (scrape_website self w search_query t).1 ≤ t + 7)%nat
  ∧ (answers t (w_url w) = false →
     scrape_website self w search_query t = (S t, Ok [])).
Proof.
  set (fetch :=
         if String.eqb (w_scrape_method w) "selenium" && use_selenium self
         then scrape_with_selenium self (w_url w) search_query
         else if String.eqb (w_scrape_method w) "api"
         then scrape_with_api (w_url w) search_query
         else scrape_with_requests (w_url w) search_query).
  assert (within fetch 6) as Hfetch.
  { unfold fetch. repeat case_match.
    - apply scrape_with_selenium_within.
    - eapply within_mono; [apply scrape_with_api_within|lia].
    - eapply within_mono; [apply scrape_with_requests_within|lia]. }
  assert (scrape_website self w search_query t
          = if answers t (w_url w)
            then match fetch (S t) with
                 | (t', Ok website_data) =>
                     (t', Ok (map (add_source (w_name w) (w_url w)
                                     (w_scrape_method w)) website_data))
                 | (t', Raised _) => (t', Ok [])
                 end
            else (S t, Ok [])) as ->.
  { unfold scrape_website, io_try. unfold io_bind at 1.
    rewrite test_website_accessibility_eq.
    destruct (answers t (w_url w)); [|done]. cbn [negb].
    unfold io_bind. fold fetch. by destruct (fetch (S t)) as [t' [data|e]]. }
  specialize (Hfetch (S t)).
  destruct (answers t (w_url w)); [|simpl; split; [lia|done]].
  split; [|done].
  destruct (fetch (S t)) as [t' [data|e]]; simpl in *; lia.
Qed.

(** X2. [scrape_pdf] never raises and sends at most two requests.  It
    returns records only for a document that passed the prefilter and
    whose GET was answered with status 200 and a content type that names
    [application/pdf]; the records are then those parsed from the body
    of that answer.  In every other case (probe failed, GET raised,
    another status, another content type) the result is the empty
    list. *)
Theorem scrape_pdf_yields_only_pdf `{Runtime} (url : string) (t : nat) :
  ∃ t' pdf_data,
    scrape_pdf url t = (t', Ok pdf_data)
    ∧ (S t ≤ t' ≤ t + 2)%nat
    ∧ (pdf_data ≠ [] →
       ∃ probe response,
         net t (Head url 5) = Ok probe ∧ status_code probe < 400
         ∧ net (S t) (Get url 30) = Ok response
         ∧ status_code response = 200
         ∧ substring "application/pdf" (lower (content_type response))
         ∧ t' = S (S t)
         ∧ pdf_data = parse_pdf_content (content response) url).
Proof.
  unfold scrape_pdf, io_try. unfold io_bind at 1.
  rewrite test_website_accessibility_eq. unfold answers.
  destruct (net t (Head url 5)) as [probe|e] eqn:Hprobe; cbn [negb].
  2:{ eexists _, _. split; [done|]. split; [lia|done]. }
  destruct (status_code probe <? 400) eqn:Hstatus; cbn [negb].
  2:{ eexists _, _. split; [done|]. split; [lia|done]. }
  apply Z.ltb_lt in Hstatus.
  unfold io_bind, request_session_get, send.
  destruct (net (S t) (Get url 30)) as [response|e] eqn:Hget.
  2:{ eexists _, _. split; [done|]. split; [simpl; lia|done]. }
  destruct (status_code response =? 200) eqn:H200; cbn [andb].
  2:{ eexists _, _. split; [done|]. split; [simpl; lia|done]. }
  destruct (contains _ _) eqn:Htype.
  2:{ eexists _, _. split; [done|]. split; [simpl; lia|done]. }
  eexists _, _. split; [done|]. split; [simpl; lia|]. intros _.
  exists probe, response. split_and!; try done.
  - by apply Z.eqb_eq.
  - by apply contains_iff.
Qed.

(* ===================================================================== *)
(** * 20. The records of a PDF *)
(* ===================================================================== *)

Lemma for_pages_bound (P : pydict → Prop) (f : nat → string → list pydict)
  (i n : nat) (pages : list (result string)) :
  (∀ j page_text, (i ≤ j < i + length pages)%nat →
     Forall P (f j page_text) ∧ (length (f j page_text) ≤ n)%nat) →
  Forall P (for_pages f i pages)
  ∧ (length (for_pages f i pages) ≤ n * length pages)%nat.
Proof.
  revert i. induction pages as [|[page_text|e] pages IH]; intros i Hf; simpl.
  - split; [constructor|lia].
  - destruct (Hf i page_text) as [HP Hn]; [simpl; lia|].
    destruct (IH (S i)) as [HP' Hn']; [intros; apply Hf; simpl; lia|].
    split; [by apply Forall_app|]. rewrite length_app. lia.
  - split; [constructor|lia].
Qed.

Lemma flat_map_bound {A B} (P : B → Prop) (g : A → list B) (n : nat)
  (l : list A) :
  (∀ x, Forall P (g x) ∧ (length (g x) ≤ n)%nat) →
  Forall P (flat_map g l) ∧ (length (flat_map g l) ≤ n * length l)%nat.
Proof.
  intros Hg. induction l as [|x l [HP Hn]]; simpl.
  - split; [constructor|lia].
  - destruct (Hg x) as [HPx Hnx].
    split; [by apply Forall_app|]. rewrite length_app. lia.
Qed.

Lemma _extract_statistics_from_text_length `{Runtime} (text : string) :
  (length (_extract_statistics_from_text text) ≤ 20)%nat.
Proof. unfold _extract_statistics_from_text. rewrite length_take. lia. Qed.

Lemma call_method_bound `{Runtime} (m : method) (pdf_content url : string)
  (data : list pydict) :
  call_method m pdf_content url = Ok data →
  Forall (pdf_record url) data ∧ (length data ≤ 90)%nat.
Proof.
  unfold call_method. intros [= <-]. destruct m.
  - unfold _parse_pdf_with_pdfplumber.
    destruct (pdfplumber_open pdf_content) as [pages|e];
      [|split; [constructor|simpl; lia]].
    match goal with
    | |- context [for_pages ?f _ _] =>
        destruct (for_pages_bound (pdf_record url) f 0 20 (take 3 pages))
          as [HP Hn]
    end.
    { intros j page_text Hj. rewrite length_take in Hj.
      destruct (_ && _); [|split; [constructor|simpl; lia]].
      split.
      - apply Forall_map, Forall_forall. intros stat _.
        split_and!; try done. simpl. intros page [= <-].
        eexists. split; [done|]. lia.
      - rewrite length_map. apply _extract_statistics_from_text_length. }
    split; [done|]. rewrite length_take in Hn. lia.
  - unfold _parse_pdf_with_pypdf2.
    destruct (PyPDF2_PdfReader pdf_content) as [pages|e];
      [|split; [constructor|simpl; lia]].
    match goal with
    | |- context [for_pages ?f _ _] =>
        destruct (for_pages_bound (pdf_record url) f 0 20 (take 3 pages))
          as [HP Hn]
    end.
    { intros j page_text Hj. rewrite length_take in Hj.
      destruct (negb _); [|split; [constructor|simpl; lia]].
      split.
      - apply Forall_map, Forall_forall. intros stat _.
        split_and!; try done. simpl. intros page [= <-].
        eexists. split; [done|]. lia.
      - rewrite length_map. apply _extract_statistics_from_text_length. }
    split; [done|]. rewrite length_take in Hn. lia.
  - unfold _parse_pdf_with_pdfminer.
    destruct (pdfminer_extract pdf_content) as [text|e];
      [|split; [constructor|simpl; lia]].
    destruct (negb _); [|split; [constructor|simpl; lia]].
    split.
    + apply Forall_map, Forall_forall. intros stat _. by split_and!.
    + rewrite length_map, length_take. lia.
  - unfold _parse_pdf_with_pymupdf.
    destruct FITZ_AVAILABLE; [|split; [constructor|simpl; lia]].
    destruct (fitz_open pdf_content) as [doc|e];
      [|split; [constructor|simpl; lia]].
    match goal with
    | |- context [for_pages ?f _ _] =>
        destruct (for_pages_bound (pdf_record url) f 0 30 (take 3 doc))
          as [HP Hn]
    end.
    { intros j page_text Hj. rewrite length_take in Hj.
      destruct (negb _); [|split; [constructor|simpl; lia]].
      match goal with
      | |- context [flat_map ?g ?l] =>
          destruct (flat_map_bound (pdf_record url) g 1 l) as [HP Hn]
      end.
      { intros line. destruct (_ && _); simpl; [|split; [constructor|lia]].
        split; [|lia]. constructor; [|constructor].
        split_and!; try done. simpl. intros page [= <-].
        eexists. split; [done|]. lia. }
      split; [done|]. rewrite length_take in Hn. lia. }
    split; [done|]. rewrite length_take in Hn. lia.
  - unfold _parse_pdf_with_textract.
    destruct TEXTTRACT_AVAILABLE; [|split; [constructor|simpl; lia]].
    destruct (textract_process pdf_content) as [text|e];
      [|split; [constructor|simpl; lia]].
    destruct (negb _); [|split; [constructor|simpl; lia]].
    split.
    + apply Forall_map, Forall_forall. intros stat _. by split_and!.
    + rewrite length_map, length_take. lia.
Qed.

Lemma parse_pdf_content_length `{Runtime} (pdf_content url : string) :
  (length (parse_pdf_content pdf_content url) ≤ 90)%nat.
Proof.
  unfold parse_pdf_content.
  destruct (truthy (try_methods methods pdf_content url)) eqn:Hdata; simpl.
  - apply try_methods_from in Hdata as (m & _ & Hcall).
    by apply call_method_bound in Hcall as [HP Hn].
  - destruct (negb _); simpl; lia.
Qed.

(** X3. What a PDF can contribute.  Whatever the readers answer, a
    document yields at most 90 records (three pages of at most 30 lines
    for PyMuPDF, less for the other methods, one for the basic text);
    every record names the URL of the document under [PDF_URL] and the
    day under [Scrape_Date], a page number lies between 1 and 3, and
    every value is a string or an integer, so the records never stop
    [drop_duplicates]. *)
Theorem pdf_records_are_bounded `{Runtime} (pdf_content url : string) :
  let pdf_data := parse_pdf_content pdf_content url in
  (length pdf_data ≤ 90)%nat ∧ Forall (pdf_record url) pdf_data.
Proof.
  split; [apply parse_pdf_content_length|].
  unfold parse_pdf_content.
  destruct (truthy (try_methods methods pdf_content url)) eqn:Hdata; simpl.
  - apply try_methods_from in Hdata as (m & _ & Hcall).
    by apply call_method_bound in Hcall as [HP Hn].
  - destruct (negb _); simpl; [|constructor].
    constructor; [|constructor]. by split_and!.
Qed.

(* ===================================================================== *)
(** * 21. JSON and XML documents *)
(* ===================================================================== *)

Lemma flatten_value_strings `{Runtime} (limit : nat) (d : pyval)
  (parent_key sep : string) :
  all_strings (flatten_value limit d parent_key sep).
Proof.
  pose proof (flatten_value_sound limit sep d) as [Hsound _].
  apply Forall_forall. intros [key val] Hin.
  apply Hsound in Hin as (x & _ & ->). by eexists.
Qed.

Lemma dict_set_Forall (P : string * pyval → Prop) (k : string) (v : pyval)
  (d : pydict) :
  P (k, v) → Forall P d → Forall P (dict_set k v d).
Proof.
  intros Hkv Hd. apply Forall_forall. intros kv Hin.
  apply dict_set_elem in Hin as [->|Hin]; [done|].
  by eapply Forall_forall in Hd.
Qed.

Lemma json_record_fields `{Runtime} (d : pydict) (url : string) :
  let r := json_record d url in
  dict_get "Source_URL" r = Some (PStr url)
  ∧ dict_get "Data_Type" r = Some (PStr "JSON")
  ∧ all_strings r
  ∧ NoDup r.*1.
Proof.
  unfold json_record. split_and!.
  - rewrite dict_get_set_ne by done. apply dict_get_set_eq.
  - apply dict_get_set_eq.
  - apply dict_set_Forall; [by eexists|].
    apply dict_set_Forall; [by eexists|].
    apply flatten_value_strings.
  - do 2 apply dict_set_keys_NoDup. unfold flatten_dict_limit.
    rewrite flatten_value_dict. apply dict_of_items_NoDup.
Qed.

(** X4. The records of a JSON document.  A list gives one record for
    each dict among its first five items, a dict gives one record, any
    other value gives none.  Every value of a record is a string, no key
    occurs twice, and [Source_URL] and [Data_Type] hold the URL of the
    document and ['JSON'] even when the document has keys of these
    names. *)
Theorem json_records_are_strings `{Runtime} (json_data : pyval)
  (url : string) :
  let data := parse_json_data json_data url in
  (length data ≤ 5)%nat
  ∧ (is_list json_data = false → length data = if is_dict json_data
                                              then 1%nat else 0%nat)
  ∧ Forall (λ r, dict_get "Source_URL" r = Some (PStr url)
               ∧ dict_get "Data_Type" r = Some (PStr "JSON")
               ∧ all_strings r
               ∧ NoDup r.*1) data.
Proof.
  destruct json_data as [| | | |items|d]; simpl.
  1-4: split_and!; [lia|done|constructor].
  - match goal with
    | |- context [flat_map ?g ?l] =>
        edestruct (flat_map_bound
                     (λ r, dict_get "Source_URL" r = Some (PStr url)
                           ∧ dict_get "Data_Type" r = Some (PStr "JSON")
                           ∧ all_strings r ∧ NoDup r.*1) g 1 l) as [HP Hn]
    end.
    { intros [| | | | |d]; simpl; (split; [|lia]); repeat constructor.
      all: apply json_record_fields. }
    split_and!; [|done|done]. rewrite length_take in Hn. lia.
  - split_and!; [lia|done|].
    constructor; [|constructor]. apply json_record_fields.
Qed.

Lemma foldl_dict_set_get (k : string) (acc items : pydict) :
  k ∉ items.*1 →
  dict_get k (foldl (λ d kv, dict_set kv.1 kv.2 d) acc items)
  = dict_get k acc.
Proof.
  revert acc. induction items as [|[k' v'] items IH]; intros acc Hk; [done|].
  simpl in *. apply not_elem_of_cons in Hk as [Hne Hk].
  rewrite IH by done. by rewrite dict_get_set_ne.
Qed.

(** In [dict(items)] a key holds the value of its last pair. *)
Lemma dict_of_items_last (before after : pydict) (k : string) (v : pyval) :
  k ∉ after.*1 →
  dict_get k (dict_of_items (before ++ (k, v) :: after)) = Some v.
Proof.
  intros Hk. unfold dict_of_items. rewrite foldl_app. simpl.
  rewrite foldl_dict_set_get by done. apply dict_get_set_eq.
Qed.

Lemma dict_of_items_keys (items : pydict) (k : string) :
  is_Some (dict_get k (dict_of_items items)) ↔ k ∈ items.*1.
Proof.
  split.
  - intros [v Hv]. apply dict_get_elem, dict_of_items_elem in Hv.
    apply list_elem_of_fmap. by exists (k, v).
  - intros Hk. unfold dict_of_items.
    by apply (foldl_dict_set [] items); right.
Qed.

Lemma xml_to_dict_items (tag : string) (text : option string)
  (children : list Element) :
  xml_to_dict (Elem tag text children)
  = dict_of_items (map (λ child, (tag_of child, element_value child))
                       children).
Proof.
  simpl. f_equal. apply map_ext. by intros [ctag ctext [|g gs]].
Qed.

(** X5. Children of an XML element that share a tag.  The dict of an
    element has one key for each tag among its children, and a tag
    holds the value of the last child that has it (its text for a leaf,
    the dict of its children otherwise): the earlier children with that
    tag are lost. *)
Theorem xml_to_dict_last_wins (tag : string) (text : option string)
  (before after : list Element) (child : Element) :
  Forall (λ later, tag_of later ≠ tag_of child) after →
  let d := xml_to_dict (Elem tag text (before ++ child :: after)) in
  dict_get (tag_of child) d = Some (element_value child)
  ∧ NoDup d.*1
  ∧ ∀ k, is_Some (dict_get k d)
         ↔ k ∈ map tag_of (before ++ child :: after).
Proof.
  intros Hafter d. subst d. rewrite xml_to_dict_items. split_and!.
  - rewrite map_app. simpl. apply dict_of_items_last.
    intros Hin. apply list_elem_of_fmap in Hin as ([k v] & Hk & Hin).
    apply list_elem_of_fmap in Hin as (later & [= -> ->] & Hin).
    eapply Forall_forall in Hafter; [|done]. done.
  - apply dict_of_items_NoDup.
  - intros k. rewrite dict_of_items_keys.
    rewrite <- list_fmap_compose. done.
Qed.

Lemma xml_to_dict_last_wins_witness :
  let before := [Elem "gdp" (Some "440") []] in
  let child := Elem "gdp" (Some "477") [] in
  let after := [Elem "year" (Some "2023") []] in
  Forall (λ later, tag_of later ≠ tag_of child) after
  ∧ xml_to_dict (Elem "data" None (before ++ child :: after))
    = [("gdp", PStr "477"); ("year", PStr "2023")]
  ∧ dict_get "gdp" (xml_to_dict (Elem "data" None (before ++ child :: after)))
    = Some (PStr "477").
Proof.
  intros before child after.
  assert (Forall (λ later, tag_of later ≠ tag_of child) after) as Hafter.
  { repeat constructor. done. }
  split; [done|]. split; [reflexivity|].
  apply (xml_to_dict_last_wins "data" None before after child Hafter).
Defined.

Lemma unhashable_value (k : string) (r : pydict) (v : pyval) :
  dict_get k r = Some v → hashable v = false →
  forallb (λ kv, hashable kv.2) r = false.
Proof.
  intros Hget Hv. apply dict_get_elem, list_elem_of_In in Hget.
  destruct (forallb _ r) eqn:Hall; [|done].
  rewrite forallb_forall in Hall. apply Hall in Hget. simpl in Hget.
  congruence.
Qed.

(** X6. An XML document with a nested element.  A child of the root
    that has children of its own is stored as a dict (unless a later
    child has the same tag, or the tag is one of the two keys the record
    is given afterwards): the record of the document then holds a value
    that cannot be hashed. *)
Theorem nested_xml_is_not_hashable `{Runtime} (tag : string)
  (text : option string) (before after : list Element) (ctag : string)
  (ctext : option string) (grandchild : Element)
  (grandchildren : list Element) (url : string) :
  let child := Elem ctag ctext (grandchild :: grandchildren) in
  Forall (λ later, tag_of later ≠ ctag) after →
  ctag ≠ "Source_URL" → ctag ≠ "Data_Type" →
  ∃ r, parse_xml_data (Elem tag text (before ++ child :: after)) url = [r]
       ∧ dict_get ctag r = Some (PDict (xml_to_dict child))
       ∧ dict_get "Source_URL" r = Some (PStr url)
       ∧ dict_get "Data_Type" r = Some (PStr "XML")
       ∧ all_hashable [r] = false.
Proof.
  intros child Hafter Hurl Htype.
  assert (dict_get ctag
            (xml_to_dict (Elem tag text (before ++ child :: after)))
          = Some (PDict (xml_to_dict child))) as Hget.
  { rewrite xml_to_dict_items, map_app. simpl map.
    apply dict_of_items_last.
    intros Hin. apply list_elem_of_fmap in Hin as ([k v] & Hk & Hin).
    apply list_elem_of_fmap in Hin as (later & [= -> ->] & Hin).
    eapply Forall_forall in Hafter; [|done]. done. }
  unfold parse_xml_data.
  destruct (xml_to_dict (Elem tag text (before ++ child :: after)))
    as [|kv xml_dict] eqn:Hdict; [done|].
  cbn [truthy]. eexists. split; [done|].
  assert (dict_get ctag
            (dict_set "Data_Type" (PStr "XML")
               (dict_set "Source_URL" (PStr url) (kv :: xml_dict)))
          = Some (PDict (xml_to_dict child))) as Hnested.
  { rewrite !dict_get_set_ne by done. apply Hget. }
  split_and!.
  - done.
  - rewrite dict_get_set_ne by done. apply dict_get_set_eq.
  - apply dict_get_set_eq.
  - unfold all_hashable. cbn [forallb].
    by rewrite (unhashable_value _ _ _ Hnested).
Qed.

Lemma nested_xml_is_not_hashable_witness :
  let root :=
    Elem "data" None
      ([Elem "country" (Some "Nigeria") []]
       ++ Elem "indicators" None [Elem "gdp" (Some "477") []] :: []) in
  Forall (λ later, tag_of later ≠ "indicators") []
  ∧ "indicators" ≠ "Source_URL" ∧ "indicators" ≠ "Data_Type"
  ∧ ∃ r, parse_xml_data root "https://example.org/data.xml" = [r]
         ∧ dict_get "indicators" r
           = Some (PDict (xml_to_dict
                            (Elem "indicators" None
                               [Elem "gdp" (Some "477") []])))
         ∧ dict_get "Source_URL" r
           = Some (PStr "https://example.org/data.xml")
         ∧ dict_get "Data_Type" r = Some (PStr "XML")
         ∧ all_hashable [r] = false.
Proof.
  intros root. split; [constructor|]. split; [done|]. split; [done|].
  apply (nested_xml_is_not_hashable "data" None
           [Elem "country" (Some "Nigeria") []] [] "indicators" None
           (Elem "gdp" (Some "477") []) [] "https://example.org/data.xml");
    [constructor|done|done].
Defined.

(* ===================================================================== *)
(** * 22. The columns and the rows of the merged frame *)
(* ===================================================================== *)

Lemma add_columns_elem (k : string) (cols : list string) (r : pydict) :
  k ∈ add_columns cols r ↔ k ∈ cols ∨ k ∈ r.*1.
Proof.
  unfold add_columns. revert cols.
  induction r as [|[k' v'] r IH]; intros cols; simpl.
  - rewrite elem_of_nil. tauto.
  - rewrite IH, elem_of_cons. destruct (mem k' cols) eqn:Hmem.
    + apply mem_iff in Hmem. split; [tauto|].
      intros [?|[->|?]]; tauto.
    + rewrite elem_of_app, list_elem_of_singleton. tauto.
Qed.

Lemma foldl_add_columns_elem (k : string) (cols : list string)
  (data : list pydict) :
  k ∈ foldl add_columns cols data
  ↔ k ∈ cols ∨ ∃ r, r ∈ data ∧ k ∈ r.*1.
Proof.
  revert cols. induction data as [|r data IH]; intros cols; simpl.
  - split; [tauto|]. intros [?|(r & Hr & _)]; [done|].
    by apply elem_of_nil in Hr.
  - rewrite IH, add_columns_elem. split.
    + intros [[?|?]|(r' & Hr' & Hk)]; [tauto| |].
      * right. exists r. split; [left|done].
      * right. exists r'. split; [by right|done].
    + intros [?|(r' & Hr' & Hk)]; [tauto|].
      apply elem_of_cons in Hr' as [->|Hr']; [tauto|].
      right. eauto.
Qed.

(** The columns of [pd.DataFrame(data)] are the keys of the records. *)
Lemma all_columns_elem (k : string) (data : list pydict) :
  k ∈ all_columns data ↔ ∃ r, r ∈ data ∧ k ∈ r.*1.
Proof.
  unfold all_columns. rewrite foldl_add_columns_elem, elem_of_nil. tauto.
Qed.

Lemma dict_get_key (k : string) (r : pydict) (v : pyval) :
  dict_get k r = Some v → k ∈ r.*1.
Proof.
  intros Hget. apply dict_get_elem in Hget.
  apply list_elem_of_fmap. by exists (k, v).
Qed.

Lemma pd_DataFrame_unhashable (data : list pydict) (r : pydict) (k : string)
  (v : pyval) :
  r ∈ data → dict_get k r = Some v → hashable v = false →
  forallb (forallb cell_hashable) (rows (pd_DataFrame data)) = false.
Proof.
  intros Hr Hget Hv.
  destruct (forallb _ (rows (pd_DataFrame data))) eqn:Hall; [|done].
  rewrite forallb_forall in Hall.
  specialize (Hall (row_of (all_columns data) r)).
  rewrite forallb_forall in Hall.
  specialize (Hall (in_map _ _ _ (proj1 (list_elem_of_In _ _) Hr))
                (cell_of r k)).
  assert (k ∈ all_columns data) as Hk.
  { apply all_columns_elem. exists r. split; [done|]. by eapply dict_get_key. }
  unfold cell_of in Hall at 2. rewrite Hget in Hall.
  assert (cell_hashable (Some v) = true) as Hcell.
  { destruct v; try done; apply Hall, in_map; by apply list_elem_of_In. }
  simpl in Hcell. congruence.
Qed.

(** X7. One value that cannot be hashed stops the whole scrape.  If a
    task of the pool returns a record with a list or a dict among its
    values, [drop_duplicates] raises TypeError, nothing catches it, and
    the scrape returns no frame at all: the records of the other sources
    are lost with it (super.py 1238, jim.py 1087). *)
Theorem unhashable_value_stops_the_scrape `{Runtime} (self : Scraper)
  (submit : Website → Future) (all_websites : list Website)
  (search_query : string) (selected_categories : option (list string))
  (max_websites : Z) (w : Website) (website_data : list pydict)
  (r : pydict) (k : string) (v : pyval) :
  let to_scrape :=
    websites_to_scrape all_websites selected_categories max_websites in
  0 < pool_size self to_scrape →
  w ∈ to_scrape →
  future_result (submit w) = Ok website_data →
  r ∈ website_data →
  dict_get k r = Some v →
  hashable v = false →
  Super.smart_scrape_multiple_websites self submit all_websites
    search_query selected_categories max_websites
  = Raised TypeError
  ∧ Jim.smart_scrape_multiple_websites self submit all_websites
      search_query selected_categories max_websites
    = Raised TypeError.
Proof.
  intros to_scrape Hpool Hw Hresult Hr Hget Hv.
  destruct (scrape_all_ok self submit to_scrape Hpool) as [all_data Hall].
  assert (r ∈ all_data) as Hin.
  { apply (scrape_all_elem self submit to_scrape all_data r Hall).
    exists w. split; [done|]. unfold records_of. by rewrite Hresult. }
  assert (truthy all_data = true) as Htruthy.
  { destruct all_data; [by apply elem_of_nil in Hin|done]. }
  assert (drop_duplicates (pd_DataFrame all_data) = Raised TypeError) as Hdrop.
  { unfold drop_duplicates.
    by rewrite (pd_DataFrame_unhashable all_data r k v Hin Hget Hv). }
  unfold Super.smart_scrape_multiple_websites,
    Jim.smart_scrape_multiple_websites.
  fold to_scrape. rewrite Hall, Htruthy, Hdrop. done.
Qed.

Lemma unhashable_value_stops_the_scrape_witness :
  let w := site "World Bank" "https://data.worldbank.org"
             "International Statistics" 1 in
  let r := [ ("indicators", PDict [("gdp", PStr "440")]);
             ("Source_URL", PStr "https://data.worldbank.org") ] in
  0 < pool_size demo_scraper (websites_to_scrape demo_catalog None 3)
  ∧ w ∈ websites_to_scrape demo_catalog None 3
  ∧ future_result (nested_found w) = Ok [r]
  ∧ r ∈ [r]
  ∧ dict_get "indicators" r = Some (PDict [("gdp", PStr "440")])
  ∧ hashable (PDict [("gdp", PStr "440")]) = false
  ∧ Super.smart_scrape_multiple_websites demo_scraper nested_found
      demo_catalog "gdp" None 3
    = Raised TypeError
  ∧ Jim.smart_scrape_multiple_websites demo_scraper nested_found
      demo_catalog "gdp" None 3
    = Raised TypeError.
Proof.
  intros w r.
  assert (0 < pool_size demo_scraper (websites_to_scrape demo_catalog None 3))
    as Hpool by reflexivity.
  assert (w ∈ websites_to_scrape demo_catalog None 3) as Hw by (by left).
  assert (r ∈ [r]) as Hr by (by left).
  destruct (unhashable_value_stops_the_scrape demo_scraper nested_found
              demo_catalog "gdp" None 3 w [r] r "indicators"
              (PDict [("gdp", PStr "440")]) Hpool Hw eq_refl Hr eq_refl
              eq_refl) as [Hsuper Hjim].
  split_and!; [exact Hpool|exact Hw|reflexivity|exact Hr|reflexivity
              |reflexivity|exact Hsuper|exact Hjim].
Defined.

Lemma cell_at_row_of (cols : list string) (r : pydict) (c : string) :
  c ∈ cols → cell_at cols (row_of cols r) c = cell_of r c.
Proof.
  induction cols as [|c' cols IH]; intros Hc; [by apply elem_of_nil in Hc|].
  simpl. destruct (String.eqb c c') eqn:Heq.
  - by apply String.eqb_eq in Heq as ->.
  - apply IH. apply elem_of_cons in Hc as [->|Hc]; [|done].
    by rewrite String.eqb_refl in Heq.
Qed.

(** A key that every record has, with a string, is a column without a
    missing cell. *)
Lemma pd_DataFrame_cells (data : list pydict) (c : string) :
  (∀ r, r ∈ data → ∃ s, dict_get c r = Some (PStr s)) →
  ∀ row, row ∈ rows (pd_DataFrame data) →
    c ∈ columns (pd_DataFrame data)
    ∧ ∃ s, cell_at (columns (pd_DataFrame data)) row c = Some (PStr s).
Proof.
  intros Hdata row Hrow. simpl in *.
  apply list_elem_of_fmap in Hrow as (r & -> & Hr).
  destruct (Hdata r Hr) as [s Hs].
  assert (c ∈ all_columns data) as Hc.
  { apply all_columns_elem. exists r. split; [done|]. by eapply dict_get_key. }
  split; [done|]. exists s. rewrite cell_at_row_of by done.
  unfold cell_of. by rewrite Hs.
Qed.

Lemma get_sample_data_columns `{Runtime} (search_query c : string)
  (r : pydict) :
  c ∈ source_columns → r ∈ Super.get_sample_data search_query →
  ∃ s, dict_get c r = Some (PStr s).
Proof.
  intros Hc Hr. unfold Super.get_sample_data in Hr.
  assert (∃ stat category url pattern website,
            r = Super.sample stat category url pattern website today)
    as (stat & category & url & pattern & website & ->).
  { repeat (apply elem_of_app in Hr as [Hr|Hr]).
    - repeat (apply elem_of_cons in Hr as [->|Hr]); try by do 5 eexists.
      by apply elem_of_nil in Hr.
    - destruct (contains _ _); [|by apply elem_of_nil in Hr].
      apply list_elem_of_singleton in Hr as ->. by do 5 eexists.
    - destruct (contains _ _); [|by apply elem_of_nil in Hr].
      apply list_elem_of_singleton in Hr as ->. by do 5 eexists. }
  unfold source_columns in Hc.
  repeat (apply elem_of_cons in Hc as [->|Hc]); try by eexists.
  by apply elem_of_nil in Hc.
Qed.

(** X8. The source columns of the merged frame.  When the tasks of the
    pool run [scrape_website], whenever they start and end, every row of
    the frame that [smart_scrape_multiple_websites] returns has a string
    in each of the columns [Source_Website], [Source_URL] and
    [Scrape_Method]: no row has a missing value there, neither a row
    scraped from a source nor a row of the sample data. *)
Theorem every_row_names_its_source `{Runtime} (self : Scraper)
  (start : Website → nat) (finish : Website → Z)
  (all_websites : list Website) (search_query : string)
  (selected_categories : option (list string)) (max_websites : Z)
  (df : DataFrame) :
  Super.smart_scrape_multiple_websites self
    (λ w, run_task self (Some search_query) (start w) (finish w) w)
    all_websites search_query selected_categories max_websites
  = Ok df →
  ∀ row c, row ∈ rows df → c ∈ source_columns →
    c ∈ columns df ∧ ∃ s, cell_at (columns df) row c = Some (PStr s).
Proof.
  unfold Super.smart_scrape_multiple_websites.
  destruct (scrape_all _ _ _) as [all_data|e] eqn:Hall; [|done].
  assert (∀ r c, r ∈ all_data → c ∈ source_columns →
                 ∃ s, dict_get c r = Some (PStr s)) as Hkeys.
  { intros r c Hr Hc.
    apply (scrape_all_elem _ _ _ _ r Hall) in Hr as (w & _ & Hr).
    unfold records_of, run_task in Hr. simpl in Hr.
    destruct (scrape_website_returns self w (Some search_query) (start w))
      as (t' & website_data & Hrun).
    pose proof (scrape_website_source_columns _ _ _ _ _ _ Hrun) as Hcols.
    rewrite Hrun in Hr. simpl in Hr.
    eapply Forall_forall in Hcols as (Hname & Hurl & Hmethod); [|done].
    unfold source_columns in Hc.
    repeat (apply elem_of_cons in Hc as [->|Hc]); try by eexists.
    by apply elem_of_nil in Hc. }
  destruct (truthy all_data).
  - unfold drop_duplicates. destruct (forallb _ _); [|done].
    intros [= <-] row c Hrow Hc. simpl in Hrow.
    apply keep_first_elem in Hrow as [Hrow _].
    apply (pd_DataFrame_cells all_data c); [|done].
    intros r Hr. by apply Hkeys.
  - intros [= <-] row c Hrow Hc.
    apply (pd_DataFrame_cells (Super.get_sample_data search_query) c);
      [|done].
    intros r Hr. by apply (get_sample_data_columns search_query).
Qed.

Lemma every_row_names_its_source_witness :
  ∃ df,
    Super.smart_scrape_multiple_websites demo_scraper
      (λ w, run_task demo_scraper (Some "inflation") 0 0 w) two_sources
      "inflation" None 2
    = Ok df
    ∧ df_len df = 2%nat
    ∧ ∀ row c, row ∈ rows df → c ∈ source_columns →
        c ∈ columns df ∧ ∃ s, cell_at (columns df) row c = Some (PStr s).
Proof.
  eexists. split; [reflexivity|]. split; [reflexivity|].
  apply (every_row_names_its_source demo_scraper (λ _, 0%nat) (λ _, 0)
           two_sources "inflation" None 2).
  reflexivity.
Defined.



(* ===================================================================== *)
(** * 23. Flattening a flat dict *)
(* ===================================================================== *)

Lemma dict_set_fresh (k : string) (v : pyval) (d : pydict) :
  k ∉ d.*1 → dict_set k v d = d ++ [(k, v)].
Proof.
  induction d as [|[k' v'] d IH]; simpl; intros Hk; [done|].
  apply not_elem_of_cons in Hk as [Hne Hk].
  destruct (String.eqb k k') eqn:Heq.
  - by apply String.eqb_eq in Heq.
  - by rewrite IH.
Qed.

Lemma foldl_dict_set_fresh (acc items : pydict) :
  NoDup (acc ++ items).*1 →
  foldl (λ d kv, dict_set kv.1 kv.2 d) acc items = acc ++ items.
Proof.
  revert acc. induction items as [|[k v] items IH]; intros acc Hnodup;
    simpl.
  - by rewrite app_nil_r.
  - rewrite fmap_app, fmap_cons in Hnodup. simpl in Hnodup.
    apply NoDup_app in Hnodup as (Hacc & Hdisj & Hitems).
    rewrite dict_set_fresh.
    + rewrite IH; [by rewrite <- app_assoc|].
      rewrite <- app_assoc. simpl. rewrite fmap_app, fmap_cons. simpl.
      apply NoDup_app. done.
    + intros Hin. apply (Hdisj k Hin). left.
Qed.

(** [dict(items)] of pairs with distinct keys is the list of the pairs. *)
Lemma dict_of_items_id (items : pydict) :
  NoDup items.*1 → dict_of_items items = items.
Proof. intros Hnodup. by apply (foldl_dict_set_fresh [] items). Qed.

Lemma flat_map_entry_items_strings `{Runtime} (limit : nat) (sep : string)
  (flat : pydict) :
  (∀ s, py_str (PStr s) = s) → all_strings flat →
  flat_map (entry_items limit "" sep) flat = flat.
Proof.
  intros Hstr Hflat. induction Hflat as [|[k v] flat [s Hs] _ IH]; [done|].
  simpl in Hs. subst v. simpl. by rewrite IH, Hstr.
Qed.

(** X10. Flattening twice.  Python's [str] returns a string unchanged;
    with that, [flatten_dict] leaves the dict it returned as it is:
    flattening a flat dict again (with no parent key) changes neither
    its keys, nor its values, nor their order.  This holds for the bound
    2 of super.py and the bound 3 of jim.py alike. *)
Theorem flatten_dict_idempotent `{Runtime} (limit : nat) (d : pydict)
  (parent_key sep : string) :
  (∀ s, py_str (PStr s) = s) →
  let flat := flatten_dict_limit limit d parent_key sep in
  flatten_dict_limit limit flat "" sep = flat.
Proof.
  intros Hstr flat. unfold flatten_dict_limit at 1.
  rewrite flatten_value_dict.
  rewrite flat_map_entry_items_strings;
    [|done|apply flatten_value_strings].
  apply dict_of_items_id. unfold flat, flatten_dict_limit.
  rewrite flatten_value_dict. apply dict_of_items_NoDup.
Qed.

Lemma flatten_dict_idempotent_witness :
  (∀ s, py_str (PStr s) = s)
  ∧ Super.flatten_dict
      [ ("gdp", PInt 440);
        ("years", PList [PInt 2021; PInt 2022; PInt 2023]);
        ("source", PDict [("name", PStr "NBS")]) ] "" "_"
    = [ ("gdp", PStr "440"); ("years_0", PStr "2021");
        ("years_1", PStr "2022"); ("source_name", PStr "NBS") ]
  ∧ flatten_dict_limit 2
      (flatten_dict_limit 2
         [ ("gdp", PInt 440);
           ("years", PList [PInt 2021; PInt 2022; PInt 2023]);
           ("source", PDict [("name", PStr "NBS")]) ] "" "_") "" "_"
    = flatten_dict_limit 2
        [ ("gdp", PInt 440);
          ("years", PList [PInt 2021; PInt 2022; PInt 2023]);
          ("source", PDict [("name", PStr "NBS")]) ] "" "_".
Proof.
  assert (∀ s, py_str (PStr s) = s) as Hstr by reflexivity.
  split; [exact Hstr|]. split; [reflexivity|].
  apply (flatten_dict_idempotent 2 _ "" "_" Hstr).
Defined.

(* ===================================================================== *)
(** * 24. The records one source contributes *)
(* ===================================================================== *)

Lemma at_most_ret {A} (l : list A) (n : nat) :
  (length l ≤ n)%nat → at_most (io_ret l) n.
Proof. by intros Hl t t' data [= _ <-]. Qed.

Lemma at_most_mono {A} (m : IO (list A)) (a b : nat) :
  at_most m a → (a ≤ b)%nat → at_most m b.
Proof. intros Hm Hab t t' data Hrun. apply Hm in Hrun. lia. Qed.

Lemma at_most_bind {A B} (m : IO A) (k : A → IO (list B)) (n : nat) :
  (∀ x, at_most (k x) n) → at_most (io_bind m k) n.
Proof.
  intros Hk t t' data Hrun.
  apply io_bind_ok in Hrun as (t1 & x & _ & Hrun). by eapply Hk.
Qed.

Lemma at_most_try_nil {A} (m : IO (list A)) (n : nat) :
  at_most m n → at_most (io_try m (λ _, io_ret [])) n.
Proof.
  intros Hm t t' data [Hrun| ->]%io_try_nil_ok; [by eapply Hm|simpl; lia].
Qed.

Lemma at_most_app {A} (m1 m2 : IO (list A)) (a b : nat) :
  at_most m1 a → at_most m2 b →
  at_most (let* data := m1 in let* more := m2 in io_ret (data ++ more))
          (a + b).
Proof.
  intros H1 H2 t t' data Hrun.
  apply io_bind_ok in Hrun as (t1 & d1 & Hrun1 & Hrun).
  apply io_bind_ok in Hrun as (t2 & d2 & Hrun2 & [= _ <-]).
  apply H1 in Hrun1. apply H2 in Hrun2. rewrite length_app. lia.
Qed.

Lemma for_enumerate_length {A B} (f : nat → A → list B) (n limit i : nat)
  (l : list A) :
  (∀ j x, (length (f j x) ≤ n)%nat) →
  (length (for_enumerate f limit i l) ≤ n * limit)%nat.
Proof.
  intros Hf. revert limit i.
  induction l as [|x l IH]; intros [|limit] i; simpl; try lia.
  rewrite length_app. specialize (Hf i x). specialize (IH limit (S i)). lia.
Qed.

Lemma flat_map_length {A B} (g : A → list B) (n : nat) (l : list A) :
  (∀ x, (length (g x) ≤ n)%nat) →
  (length (flat_map g l) ≤ n * length l)%nat.
Proof.
  intros Hg. apply (flat_map_bound (λ _, True)).
  intros x. split; [|done]. apply Forall_forall. done.
Qed.

Lemma table_records_length `{Runtime} (i : nat) (table : HtmlTable)
  (url : string) :
  (length (table_records i table url) ≤ 3)%nat.
Proof.
  unfold table_records. destruct (table_read_html table) as [[|df ?]|e].
  - simpl. lia.
  - rewrite length_map. unfold head_dicts.
    rewrite length_map, length_take. lia.
  - match goal with
    | |- context [flat_map ?g ?l] =>
        pose proof (flat_map_length g 1 l) as Hn
    end.
    rewrite length_take in Hn. etrans; [apply Hn|lia].
    intros row_data. destruct (_ && _); simpl; lia.
Qed.

Lemma html_data_length `{Runtime} (soup : Page) (url : string) :
  (length (html_data soup url) ≤ 52)%nat.
Proof.
  unfold html_data. rewrite !length_app.
  assert (length (pattern_records (get_text soup) url) ≤ 36)%nat.
  { unfold pattern_records.
    etrans; [apply (flat_map_length _ 3)|done].
    intros [pattern category]. rewrite length_map, length_take. lia. }
  assert (length (for_enumerate (λ i table, table_records i table url) 2 0
                    (find_tables soup)) ≤ 6)%nat.
  { etrans; [apply (for_enumerate_length _ 3)|done].
    intros. apply table_records_length. }
  assert (length (text_records soup url) ≤ 10)%nat.
  { unfold text_records.
    match goal with
    | |- context [flat_map ?g ?l] =>
        pose proof (flat_map_length g 1 l) as Hn
    end.
    rewrite length_take in Hn. etrans; [apply Hn|lia].
    intros text. destruct (_ && _); simpl; lia. }
  lia.
Qed.

Lemma extract_html_data_length `{Runtime} (soup : Page) (url : string)
  (search_query : option string) :
  (length (extract_html_data soup url search_query) ≤ 52)%nat.
Proof.
  pose proof (html_data_length soup url) as Hdata.
  unfold extract_html_data. destruct search_query as [q|]; [|done].
  destruct (_ && _); [|done]. unfold filter_by_query.
  etrans; [apply sublist_length, List_filter_sublist|done].
Qed.

Lemma parse_json_data_length `{Runtime} (json_data : pyval) (url : string) :
  (length (parse_json_data json_data url) ≤ 5)%nat.
Proof.
  destruct json_data as [| | | |items|d]; simpl; try lia.
  match goal with
  | |- context [flat_map ?g ?l] => pose proof (flat_map_length g 1 l) as Hn
  end.
  rewrite length_take in Hn. etrans; [apply Hn|lia].
  intros [| | | | |d]; simpl; lia.
Qed.

Lemma parse_xml_data_length `{Runtime} (xml_data : Element) (url : string) :
  (length (parse_xml_data xml_data url) ≤ 1)%nat.
Proof. unfold parse_xml_data. destruct (truthy _); simpl; lia. Qed.

Lemma parse_text_data_length `{Runtime} (text_data url : string) :
  (length (parse_text_data text_data url) ≤ 30)%nat.
Proof.
  unfold parse_text_data.
  match goal with
  | |- context [flat_map ?g ?l] => pose proof (flat_map_length g 1 l) as Hn
  end.
  rewrite length_take in Hn. etrans; [apply Hn|lia].
  intros line. destruct (re_search _ _ _); simpl; lia.
Qed.

Lemma scrape_pdf_at_most `{Runtime} (url : string) :
  at_most (scrape_pdf url) 90.
Proof.
  unfold scrape_pdf. apply at_most_try_nil, at_most_bind.
  intros accessible. destruct (negb accessible);
    [apply at_most_ret; simpl; lia|].
  apply at_most_bind. intros response.
  destruct (_ && _); apply at_most_ret;
    [apply parse_pdf_content_length|simpl; lia].
Qed.

Lemma embedded_pdfs_at_most `{Runtime} (url : string)
  (pdf_links : list string) :
  at_most (embedded_pdfs url pdf_links) (90 * length pdf_links).
Proof.
  induction pdf_links as [|href links IH]; simpl embedded_pdfs.
  - apply at_most_ret. simpl. lia.
  - eapply at_most_mono.
    + apply (at_most_app _ _ 90 (90 * length links));
        [apply scrape_pdf_at_most|apply IH].
    + simpl. lia.
Qed.

Lemma scrape_with_requests_at_most `{Runtime} (url : string)
  (search_query : option string) :
  at_most (scrape_with_requests url search_query) 180.
Proof.
  unfold scrape_with_requests. apply at_most_try_nil, at_most_bind.
  intros response. destruct (status_code response =? 200);
    [|apply at_most_ret; simpl; lia].
  apply (at_most_app _ _ 90 90).
  - repeat case_match.
    + apply scrape_pdf_at_most.
    + apply at_most_bind. intros json_data. apply at_most_ret.
      etrans; [apply parse_json_data_length|lia].
    + apply at_most_bind. intros xml_data. apply at_most_ret.
      etrans; [apply parse_xml_data_length|lia].
    + apply at_most_ret. etrans; [apply extract_html_data_length|lia].
    + apply at_most_ret. etrans; [apply parse_text_data_length|lia].
    + apply at_most_ret. simpl. lia.
  - destruct PDF_LIBRARIES_AVAILABLE; [|apply at_most_ret; simpl; lia].
    eapply at_most_mono; [apply embedded_pdfs_at_most|].
    rewrite length_take. lia.
Qed.

Lemma scrape_with_api_at_most `{Runtime} (url : string)
  (search_query : option string) :
  at_most (scrape_with_api url search_query) 5.
Proof.
  unfold scrape_with_api. apply at_most_try_nil, at_most_bind.
  intros response. repeat case_match.
  - apply at_most_bind. intros json_data. apply at_most_ret.
    apply parse_json_data_length.
  - apply at_most_bind. intros xml_data. apply at_most_ret.
    etrans; [apply parse_xml_data_length|lia].
  - apply at_most_ret. simpl. lia.
  - apply at_most_ret. simpl. lia.
Qed.

Lemma scrape_with_selenium_at_most `{Runtime} (self : Scraper) (url : string)
  (search_query : option string) :
  at_most (scrape_with_selenium self url search_query) 180.
Proof.
  unfold scrape_with_selenium. destruct (negb (driver self));
    [apply scrape_with_requests_at_most|].
  intros t t' data. unfold io_try, io_bind.
  destruct (driver_get t url) as [soup|e].
  - intros [= _ <-]. etrans; [apply extract_html_data_length|lia].
  - apply scrape_with_requests_at_most.
Qed.

(** X11. The records one source contributes.  [scrape_website] never
    raises and returns at most 180 records for one source, whatever the
    site answers: at most 90 from the page itself (52 from an HTML page,
    30 from a text, 5 from JSON, 1 from XML, 90 from a PDF) and at most
    90 from the one linked PDF that is followed. *)
Theorem scrape_website_records_bounded `{Runtime} (self : Scraper)
  (w : Website) (search_query : option string) (t : nat) :
  ∃ t' website_data,
    scrape_website self w search_query t = (t', Ok website_data)
    ∧ (length website_data ≤ 180)%nat.
Proof.
  destruct (scrape_website_returns self w search_query t)
    as (t' & website_data & Hrun).
  exists t', website_data. split; [done|].
  revert t t' website_data Hrun. fold (at_most (scrape_website self w search_query) 180).
  unfold scrape_website. apply at_most_try_nil, at_most_bind.
  intros accessible. destruct (negb accessible);
    [apply at_most_ret; simpl; lia|].
  intros t t' data Hrun.
  apply io_bind_ok in Hrun as (t1 & website_data & Hfetch & [= _ <-]).
  rewrite length_map. revert Hfetch. repeat case_match; intros Hfetch.
  - by eapply scrape_with_selenium_at_most.
  - etrans; [by eapply scrape_with_api_at_most|lia].
  - by eapply scrape_with_requests_at_most.
Qed.

(* ===================================================================== *)
(** * 25. The catalog *)
(* ===================================================================== *)

Lemma mask_sublist {A} (flags : list bool) (l : list A) :
  mask flags l `sublist_of` l.
Proof.
  revert flags. induction l as [|x l IH]; intros [|[] flags]; simpl;
    try apply sublist_nil_l.
  - by apply sublist_skip.
  - by apply sublist_cons.
Qed.

Lemma get_working_websites_eq `{Runtime} (websites : list Website)
  (t : nat) :
  get_working_websites websites t
  = ((t + length websites)%nat,
     Ok (mask (imap (λ i w, answers (t + i) (w_url w)) websites) websites)).
Proof.
  revert t. induction websites as [|website websites IH]; intros t.
  - simpl. unfold io_ret. by rewrite Nat.add_0_r.
  - simpl get_working_websites. unfold io_bind at 1, io_try.
    rewrite test_website_accessibility_eq. unfold io_bind. rewrite IH.
    unfold io_ret. simpl length. rewrite Nat.add_succ_r. simpl. f_equal.
    rewrite Nat.add_0_r.
    assert (imap (λ i w, answers (S (t + i)) (w_url w)) websites
            = imap ((λ i w, answers (t + i) (w_url w)) ∘ S) websites)
      as ->.
    { apply imap_ext. intros i w _. simpl. by rewrite Nat.add_succ_r. }
    by destruct (answers t (w_url website)).
Qed.

(** X12. Testing the catalog.  [get_working_websites] never raises and
    sends exactly one HEAD request for each site, also after a failure;
    it returns the sites whose own probe was answered with a status
    below 400, in the order of the list. *)
Theorem get_working_websites_probes_each `{Runtime}
  (websites : list Website) (t : nat) :
  ∃ working,
    get_working_websites websites t = ((t + length websites)%nat, Ok working)
    ∧ working
      = mask (imap (λ i w, answers (t + i) (w_url w)) websites) websites
    ∧ working `sublist_of` websites
    ∧ ((∀ i w, websites !! i = Some w → answers (t + i) (w_url w) = true) →
       working = websites).
Proof.
  eexists. split; [apply get_working_websites_eq|]. split; [done|].
  split; [apply mask_sublist|].
  revert t. induction websites as [|website websites IH]; intros t Hall;
    [done|].
  rewrite imap_cons. cbn [mask].
  rewrite (Hall 0%nat website eq_refl). f_equal.
  assert (imap ((λ i w, answers (t + i) (w_url w)) ∘ S) websites
          = imap (λ i w, answers (S t + i) (w_url w)) websites) as ->.
  { apply imap_ext. intros i w _. simpl. by rewrite Nat.add_succ_r. }
  apply IH. intros i w Hi. rewrite Nat.add_succ_comm.
  by apply (Hall (S i) w).
Qed.

Lemma mask_all_false {A} (flags : list bool) (l : list A) :
  Forall (λ b, b = false) flags → mask flags l = [].
Proof.
  intros Hflags. revert l.
  induction Hflags as [|b flags -> _ IH]; intros [|x l]; simpl; auto.
Qed.

Lemma fallback_sublist : fallback_websites `sublist_of` statistical_websites.
Proof.
  unfold fallback_websites, statistical_websites.
  apply sublist_skip, sublist_cons, sublist_skip, sublist_nil_l.
Qed.

Lemma get_nigerian_statistical_websites_eq `{Runtime} (t : nat) :
  get_nigerian_statistical_websites t
  = ((t + 9)%nat,
     Ok (let working :=
           mask (imap (λ i w, answers (t + i) (w_url w))
                      statistical_websites) statistical_websites in
         if truthy working then working else fallback_websites)).
Proof.
  unfold get_nigerian_statistical_websites, io_bind.
  rewrite get_working_websites_eq. cbv zeta.
  by destruct (truthy _).
Qed.

(** X13. The sources of a scrape.  [get_nigerian_statistical_websites]
    never raises, costs nine HEAD requests, and never returns an empty
    list: it returns the accessible entries of the catalog in their
    order, or, when none is accessible, the two entries of the fallback
    list (World Bank and UN Data), which are entries of the catalog
    too. *)
Theorem statistical_websites_never_empty `{Runtime} (t : nat) :
  ∃ websites,
    get_nigerian_statistical_websites t = ((t + 9)%nat, Ok websites)
    ∧ websites ≠ []
    ∧ websites `sublist_of` statistical_websites
    ∧ (websites = fallback_websites
       ∨ websites
         = mask (imap (λ i w, answers (t + i) (w_url w))
                      statistical_websites) statistical_websites)
    ∧ ((∀ i w, statistical_websites !! i = Some w →
               answers (t + i) (w_url w) = false) →
       websites = fallback_websites).
Proof.
  eexists. split; [apply get_nigerian_statistical_websites_eq|].
  cbv zeta.
  set (working := mask _ statistical_websites).
  destruct (truthy working) eqn:Htruthy.
  - split_and!.
    + intros ->. done.
    + apply mask_sublist.
    + by right.
    + intros Hnone. exfalso. unfold working in Htruthy.
      rewrite mask_all_false in Htruthy; [done|].
      apply Forall_forall. intros b Hb.
      apply list_elem_of_lookup in Hb as [i Hi].
      rewrite list_lookup_imap in Hi.
      destruct (statistical_websites !! i) as [w|] eqn:Hw; [|done].
      simpl in Hi. injection Hi as <-. by apply Hnone.
  - split_and!; [done|apply fallback_sublist|by left|done].
Qed.

Lemma nothing_answers_fallback `{Runtime} (t : nat) :
  (∀ i w, statistical_websites !! i = Some w →
          answers (t + i) (w_url w) = false) →
  get_nigerian_statistical_websites t = ((t + 9)%nat, Ok fallback_websites).
Proof.
  intros Hnone. rewrite get_nigerian_statistical_websites_eq. cbv zeta.
  rewrite mask_all_false; [done|].
  apply Forall_forall. intros b Hb.
  apply list_elem_of_lookup in Hb as [i Hi].
  rewrite list_lookup_imap in Hi.
  destruct (statistical_websites !! i) as [w|] eqn:Hw; [|done].
  simpl in Hi. injection Hi as <-. by apply Hnone.
Qed.

Lemma slice_to_nil {A} (n : Z) : slice_to n (@nil A) = [].
Proof. unfold slice_to. destruct (0 <=? n); by rewrite take_nil. Qed.

(** X14. The sources and the categories.  The list of sources is never
    empty, so a scrape without a choice of categories (with at least one
    worker and [max_websites >= 1]) always has a pool to run its tasks.
    A choice of categories is applied after the fallback: when no site
    of the catalog is accessible and the chosen categories do not
    include ['International Statistics'], the category of the two
    fallback entries, no source is left, [ThreadPoolExecutor] is given 0
    workers and the scrape raises ValueError instead of returning the
    sample data. *)
Theorem pool_needs_a_matching_category `{Runtime} (self : Scraper)
  (submit : Website → Future) (search_query : string) (max_websites : Z)
  (t : nat) (websites : list Website) :
  (get_nigerian_statistical_websites t).2 = Ok websites →
  0 < max_workers self → 0 < max_websites →
  (∀ selected_categories,
     selected_categories = None ∨ selected_categories = Some [] →
     ∃ all_data,
       scrape_all self submit
         (websites_to_scrape websites selected_categories max_websites)
       = Ok all_data)
  ∧ (∀ cats,
       (∀ i w, statistical_websites !! i = Some w →
               answers (t + i) (w_url w) = false) →
       cats ≠ [] → "International Statistics" ∉ cats →
       websites = fallback_websites
       ∧ Super.smart_scrape_multiple_websites self submit websites
           search_query (Some cats) max_websites
         = Raised ValueError).
Proof.
  intros Hrun Hworkers Hmax. split.
  - intros selected Hselected. apply scrape_all_ok.
    assert (filtered_websites websites selected = websites) as Hfiltered.
    { by destruct Hselected as [-> | ->]. }
    assert (websites ≠ []) as Hne.
    { rewrite get_nigerian_statistical_websites_eq in Hrun.
      simpl in Hrun. injection Hrun as <-.
      destruct (truthy _) eqn:Htruthy; [|done].
      intros Heq. by rewrite Heq in Htruthy. }
    unfold pool_size, websites_to_scrape.
    rewrite Hfiltered, slice_to_nonneg by lia.
    rewrite length_take.
    rewrite (Permutation_length (sort_by_perm priority_key websites)).
    destruct websites as [|w websites]; [done|]. simpl length. lia.
  - intros cats Hnone Hcats Hinternational.
    rewrite (nothing_answers_fallback t Hnone) in Hrun.
    injection Hrun as <-. split; [done|].
    apply no_candidate_raises.
    unfold websites_to_scrape, filtered_websites.
    assert (truthy cats = true) as -> by (by destruct cats).
    assert (mem "International Statistics" cats = false) as Hmem.
    { destruct (mem _ cats) eqn:Hmem; [|done]. by apply mem_iff in Hmem. }
    unfold fallback_websites. simpl List.filter. unfold category_in.
    cbn [w_category direct]. rewrite Hmem. simpl. apply slice_to_nil.
Qed.

Lemma pool_needs_a_matching_category_witness :
  (get_nigerian_statistical_websites 0%nat).2 = Ok fallback_websites
  ∧ 0 < max_workers demo_scraper ∧ 0 < 8
  ∧ (∃ all_data,
       scrape_all demo_scraper nothing_found
         (websites_to_scrape fallback_websites None 8)
       = Ok all_data)
  ∧ Super.smart_scrape_multiple_websites demo_scraper nothing_found
      fallback_websites "malaria" (Some ["Health Statistics"]) 8
    = Raised ValueError.
Proof.
  assert ((get_nigerian_statistical_websites 0%nat).2 = Ok fallback_websites)
    as Hrun by (vm_compute; reflexivity).
  destruct (pool_needs_a_matching_category demo_scraper nothing_found
              "malaria" 8 0%nat fallback_websites Hrun eq_refl eq_refl)
    as [Hpool Hnone].
  split_and!; [reflexivity|reflexivity|reflexivity| |].
  - apply Hpool. by left.
  - apply (Hnone ["Health Statistics"]).
    + intros i w Hw. unfold answers. simpl.
      do 9 (destruct i as [|i]; [by injection Hw as <-|]). done.
    + done.
    + by intros Hin%list_elem_of_singleton.
Defined.

(* ===================================================================== *)
(** * 26. The request session *)
(* ===================================================================== *)

(** X15. The GET of the request session.  [RobustRequestSession.get]
    resolves the host before it sends anything.  The check fails only
    for a URL whose host is none of the three listed domains and for
    which [gethostbyname] raises [gaierror]; then no request is sent and
    [get] raises.  In every other case (the host resolves, it is a
    listed domain, the URL has no host, parsing or the lookup fail in
    another way) exactly one GET with the timeout of 30 seconds is sent,
    and [get] returns its response or raises if it raised.  So [get]
    returns a response only if that GET, sent as the next request,
    returns it. *)
Theorem get_resolves_the_host_first `{Runtime} `{Resolver} (url : string)
  (t : nat) :
  (_is_url_accessible url = false
   ↔ ∃ hostname, urlparse_hostname url = Ok (Some hostname)
                 ∧ (hostname ∉ problematic_domains)
                 ∧ gethostbyname hostname = gaierror)
  ∧ (_is_url_accessible url = false →
     ∃ e, RobustRequestSession_get url t = (t, Raised e))
  ∧ (_is_url_accessible url = true →
     match net t (Get url 30) with
     | Ok response => RobustRequestSession_get url t = (S t, Ok response)
     | Raised e =>
         RobustRequestSession_get url t = (S t, Raised (relabel url e))
     end)
  ∧ (∀ t' response,
       RobustRequestSession_get url t = (t', Ok response) →
       request_session_get url t = (t', Ok response)).
Proof.
  split_and!.
  - unfold _is_url_accessible.
    destruct (urlparse_hostname url) as [[hostname|]|e].
    + destruct (mem hostname problematic_domains) eqn:Hmem.
      * apply mem_iff in Hmem. split; [done|].
        by intros (h & [= <-] & Hh & _).
      * assert (hostname ∉ problematic_domains) as Hout.
        { intros Hin%mem_iff. congruence. }
        destruct (gethostbyname hostname) eqn:Hlookup.
        -- split; [done|]. intros (h & [= <-] & _ & Hh). congruence.
        -- split; [eauto|done].
        -- split; [done|]. intros (h & [= <-] & _ & Hh). congruence.
    + split; [done|]. by intros (h & [=] & _).
    + split; [done|]. by intros (h & [=] & _).
  - intros Hcheck. unfold RobustRequestSession_get. rewrite Hcheck.
    by eexists.
  - intros Hcheck. unfold RobustRequestSession_get. rewrite Hcheck.
    unfold io_try, send, io_lift. simpl.
    by destruct (net t (Get url 30)).
  - intros t' response. unfold RobustRequestSession_get, request_session_get.
    destruct (_is_url_accessible url); simpl; [|done].
    unfold io_try, send, io_lift.
    destruct (net t (Get url 30)); [done|]. by intros [=].
Qed.

(* ===================================================================== *)
(** * 27. The table scraper (yap.py) *)
(* ===================================================================== *)

Lemma pattern_records_keys `{Runtime} (all_text url : string) :
  Forall (λ r, r.*1 = pattern_keys
               ∧ dict_get "Source_URL" r = Some (PStr url)
               ∧ all_strings r)
         (pattern_records all_text url)
  ∧ (length (pattern_records all_text url) ≤ 36)%nat.
Proof.
  unfold pattern_records.
  match goal with
  | |- context [flat_map ?g ?l] =>
      edestruct (flat_map_bound
                   (λ r : pydict, r.*1 = pattern_keys
                      ∧ dict_get "Source_URL" r = Some (PStr url)
                      ∧ all_strings r) g 3 l) as [HP Hn]
  end; [|split; [exact HP|exact Hn]].
  intros [pattern category]. split.
  - apply Forall_map, Forall_forall. intros m _. split_and!; try done.
    repeat constructor; by eexists.
  - rewrite length_map, length_take. lia.
Qed.

Lemma Forall_sublist {A} (P : A → Prop) (l k : list A) :
  l `sublist_of` k → Forall P k → Forall P l.
Proof.
  induction 1 as [|x l k _ IH|x l k _ IH]; intros Hk; [done| |].
  - apply Forall_cons in Hk as [Hx Hk]. constructor; auto.
  - apply Forall_cons in Hk as [_ Hk]. auto.
Qed.

Lemma extract_general_data_keys `{Runtime} (soup : Page) (url : string)
  (search_query : option string) :
  Forall (λ r, r.*1 = pattern_keys
               ∧ dict_get "Source_URL" r = Some (PStr url)
               ∧ all_strings r)
         (Yap.extract_general_data soup url search_query)
  ∧ (length (Yap.extract_general_data soup url search_query) ≤ 36)%nat.
Proof.
  destruct (pattern_records_keys (get_text soup) url) as [HP Hn].
  unfold Yap.extract_general_data.
  destruct search_query as [q|]; [|done].
  destruct (_ && _); [|done].
  pose proof (List_filter_sublist
                (λ item, existsb (λ term, contains (lower (py_str (PDict item))) term)
                                 (split (lower q)))
                (pattern_records (get_text soup) url)) as Hsub.
  split.
  - by eapply Forall_sublist.
  - etrans; [by apply sublist_length|done].
Qed.

Lemma yap_fetch_within `{Runtime}
  (driver_page_source : nat → string → result string) (self : Scraper)
  (w : Website) :
  within (if String.eqb (w_scrape_method w) "selenium" && use_selenium self
          then Yap.scrape_with_selenium driver_page_source self (w_url w)
          else Yap.scrape_with_requests (w_url w)) 2.
Proof.
  assert (within (Yap.scrape_with_requests (w_url w)) 1) as Hrequests.
  { unfold Yap.scrape_with_requests.
    apply (within_try _ _ 1 0); [|intros; apply within_ret].
    apply (within_bind _ _ 1 0); [apply within_send|].
    intros response. destruct (_ =? 200); apply within_ret. }
  destruct (_ && _); [|apply (within_mono _ 1); [done|lia]].
  unfold Yap.scrape_with_selenium.
  destruct (negb (driver self)); [apply (within_mono _ 1); [done|lia]|].
  apply (within_try _ _ 1 1); [|done].
  apply (within_bind _ _ 1 0); [|intros; apply within_ret].
  intros t. simpl. lia.
Qed.

Lemma yap_scrape_website_eq `{Runtime}
  (driver_page_source : nat → string → result string) (self : Scraper)
  (w : Website) (search_query : option string) (t : nat) :
  Yap.scrape_website driver_page_source self w search_query t
  = if answers t (w_url w)
    then
      let fetch :=
        if String.eqb (w_scrape_method w) "selenium" && use_selenium self
        then Yap.scrape_with_selenium driver_page_source self (w_url w)
        else Yap.scrape_with_requests (w_url w) in
      match fetch (S t) with
      | (t', Ok (Some html)) =>
          if is_empty html then (t', Ok ([], []))
          else
            (t', Ok (Yap.extract_general_data (BeautifulSoup html) (w_url w)
                       search_query,
                     Yap.extract_all_tables (BeautifulSoup html) (w_url w)
                       search_query))
      | (t', _) => (t', Ok ([], []))
      end
    else (S t, Ok ([], [])).
Proof.
  unfold Yap.scrape_website, io_try. unfold io_bind at 1.
  rewrite test_website_accessibility_eq.
  destruct (answers t (w_url w)); [|done]. cbn [negb]. cbv zeta.
  unfold io_bind.
  destruct ((if String.eqb (w_scrape_method w) "selenium" && use_selenium self
             then Yap.scrape_with_selenium driver_page_source self (w_url w)
             else Yap.scrape_with_requests (w_url w)) (S t))
    as [t' [[html|]|e]]; try done.
  by destruct (is_empty html).
Qed.

(** X16. One site in yap.py.  [scrape_website] of yap.py never raises
    and sends between one and three requests.  Its text records are
    pattern records of the page, at most 36: each has exactly the keys
    [Statistical_Match], [Category], [Source_URL], [Pattern_Type] and
    [Scrape_Date], all with string values, and [Source_URL] is the URL
    of the site; unlike super.py, it writes no [Source_Website] and no
    [Scrape_Method].  A site that fails the probe costs one request and
    gives neither records nor tables. *)
Theorem yap_scrape_website_records `{Runtime}
  (driver_page_source : nat → string → result string) (self : Scraper)
  (w : Website) (search_query : option string) (t : nat) :
  ∃ t' website_data website_tables,
    Yap.scrape_website driver_page_source self w search_query t
    = (t', Ok (website_data, website_tables))
    ∧ (S t ≤ t' ≤ t + 3)%nat
    ∧ (length website_data ≤ 36)%nat
    ∧ Forall (λ r, r.*1 = pattern_keys
                   ∧ dict_get "Source_URL" r = Some (PStr (w_url w))
                   ∧ all_strings r
                   ∧ has_key "Source_Website" r = false
                   ∧ has_key "Scrape_Method" r = false) website_data
    ∧ (answers t (w_url w) = false →
       t' = S t ∧ website_data = [] ∧ website_tables = []).
Proof.
  rewrite yap_scrape_website_eq.
  destruct (answers t (w_url w)).
  2:{ eexists _, _, _. split; [done|]. split_and!; simpl; try lia; done. }
  cbv zeta. pose proof (yap_fetch_within driver_page_source self w (S t))
    as Hfetch.
  destruct ((if String.eqb (w_scrape_method w) "selenium" && use_selenium self
             then Yap.scrape_with_selenium driver_page_source self (w_url w)
             else Yap.scrape_with_requests (w_url w)) (S t))
    as [t' [[html|]|e]]; simpl in Hfetch.
  2,3: eexists _, _, _; split; [done|]; split_and!; simpl; try lia; done.
  destruct (is_empty html).
  { eexists _, _, _. split; [done|]. split_and!; simpl; try lia; done. }
  eexists _, _, _. split; [done|].
  destruct (extract_general_data_keys (BeautifulSoup html) (w_url w)
              search_query) as [HP Hn].
  split_and!; [lia|lia|done| |done].
  eapply Forall_impl; [exact HP|].
  intros r (Hkeys & Hurl & Hstrings).
  assert (∀ k, k ∉ pattern_keys → has_key k r = false) as Hother.
  { intros k Hk. unfold has_key.
    destruct (dict_get k r) eqn:Hget; [|done].
    apply dict_get_key in Hget. by rewrite Hkeys in Hget. }
  assert (∀ k, mem k pattern_keys = false → k ∉ pattern_keys) as Hmem.
  { intros k Hk Hin%mem_iff. congruence. }
  split_and!; try done; by apply Hother, Hmem.
Qed.

Lemma yap_collect_one_app (acc : list pydict * list Yap.table_info)
  (tw : Yap.Task * Website) :
  Yap.collect_one acc tw = (acc.1 ++ text_of tw.1, acc.2 ++ tables_of tw.1).
Proof.
  unfold Yap.collect_one, text_of, tables_of. destruct acc as [data tables].
  destruct (Yap.task_result tw.1) as [[[|r website_data] [|tb website_tables]]|e];
    simpl; by rewrite ?app_nil_r.
Qed.

Lemma yap_foldl_collect_one (acc : list pydict * list Yap.table_info)
  (completed : list (Yap.Task * Website)) :
  foldl Yap.collect_one acc completed
  = (acc.1 ++ flat_map (λ tw, text_of tw.1) completed,
     acc.2 ++ flat_map (λ tw, tables_of tw.1) completed).
Proof.
  revert acc. induction completed as [|tw completed IH]; intros [data tables];
    simpl.
  - by rewrite !app_nil_r.
  - rewrite IH, yap_collect_one_app. simpl. by rewrite <- !app_assoc.
Qed.

Lemma flat_map_map {A B C} (g : A → B) (f : B → list C) (l : list A) :
  flat_map f (map g l) = flat_map (λ x, f (g x)) l.
Proof. induction l as [|x l IH]; simpl; by rewrite ?IH. Qed.

(** What [smart_scrape_tables] collects before it builds the frame. *)
Lemma yap_collected (submit : Website → Yap.Task)
  (to_scrape : list Website) :
  let finished :=
    sort_by (λ w, Yap.task_completed_at (submit w)) to_scrape in
  foldl Yap.collect_one ([], [])
    (sort_by (λ tw, Yap.task_completed_at tw.1)
             (map (λ w, (submit w, w)) to_scrape))
  = (flat_map (λ w, text_of (submit w)) finished,
     flat_map (λ w, tables_of (submit w)) finished).
Proof.
  intros finished. rewrite yap_foldl_collect_one. simpl.
  rewrite (sort_by_map (λ tw : Yap.Task * Website,
                          Yap.task_completed_at tw.1)
             (λ w, (submit w, w))).
  rewrite !flat_map_map. simpl.
  by rewrite (sort_by_ext _ (λ w, Yap.task_completed_at (submit w))).
Qed.




Lemma yap_task_text `{Runtime}
  (driver_page_source : nat → string → result string) (self : Scraper)
  (search_query : option string) (start : nat) (finish : Z) (w : Website)
  (r : pydict) :
  r ∈ text_of (Yap.run_task driver_page_source self search_query start
                 finish w) →
  r.*1 = pattern_keys ∧ all_strings r.
Proof.
  unfold text_of, Yap.run_task. simpl. rewrite yap_scrape_website_eq.
  destruct (answers start (w_url w)); simpl; [|by intros ?%elem_of_nil].
  destruct ((if String.eqb (w_scrape_method w) "selenium" && use_selenium self
             then Yap.scrape_with_selenium driver_page_source self (w_url w)
             else Yap.scrape_with_requests (w_url w)) (S start))
    as [t' [[html|]|e]]; simpl; try by intros ?%elem_of_nil.
  destruct (is_empty html); simpl; [by intros ?%elem_of_nil|].
  intros Hr.
  destruct (extract_general_data_keys (BeautifulSoup html) (w_url w)
              search_query) as [HP _].
  eapply Forall_forall in HP as (Hkeys & _ & Hstrings); done.
Qed.

Lemma add_columns_known (cols : list string) (r : pydict) :
  (∀ k, k ∈ r.*1 → k ∈ cols) → add_columns cols r = cols.
Proof.
  unfold add_columns. induction r as [|[k v] r IH]; intros Hr; simpl; [done|].
  assert (mem k cols = true) as ->.
  { apply mem_iff, Hr. left. }
  apply IH. intros k' Hk'. apply Hr. by right.
Qed.

Lemma add_columns_new (cols : list string) (r : pydict) :
  NoDup (cols ++ r.*1) → add_columns cols r = cols ++ r.*1.
Proof.
  unfold add_columns. revert cols.
  induction r as [|[k v] r IH]; intros cols Hnodup; simpl.
  - by rewrite app_nil_r.
  - simpl in Hnodup.
    assert (mem k cols = false) as ->.
    { destruct (mem k cols) eqn:Hmem; [|done]. apply mem_iff in Hmem.
      apply NoDup_app in Hnodup as (_ & Hdisj & _).
      exfalso. apply (Hdisj k Hmem). left. }
    rewrite IH; rewrite <- app_assoc; done.
Qed.

(** Records with the same keys give a frame with these columns. *)
Lemma all_columns_same (keys : list string) (data : list pydict) :
  NoDup keys → data ≠ [] → (∀ r, r ∈ data → r.*1 = keys) →
  all_columns data = keys.
Proof.
  intros Hnodup Hne Hkeys. destruct data as [|r data]; [done|].
  unfold all_columns. simpl.
  rewrite add_columns_new; simpl; rewrite (Hkeys r) by left; [|done].
  assert (∀ r', r' ∈ data → r'.*1 = keys) as Hrest.
  { intros r' Hr'. apply Hkeys. by right. }
  clear Hkeys Hne. induction data as [|r' data IH]; simpl; [done|].
  rewrite add_columns_known.
  - apply IH. intros r'' Hr''. apply Hrest. by right.
  - intros k Hk. by rewrite (Hrest r') in Hk by left.
Qed.

Lemma dict_get_of_key (k : string) (r : pydict) :
  k ∈ r.*1 → ∃ v, dict_get k r = Some v.
Proof.
  induction r as [|[k' v'] r IH]; simpl; intros Hk;
    [by apply elem_of_nil in Hk|].
  destruct (String.eqb k k') eqn:Heq; [by eexists|].
  apply elem_of_cons in Hk as [->|Hk]; [|by apply IH].
  by rewrite String.eqb_refl in Heq.
Qed.

Lemma all_strings_hashable (r : pydict) :
  all_strings r → forallb (λ kv, hashable kv.2) r = true.
Proof.
  intros Hr. apply forallb_forall. intros [k v] Hin%list_elem_of_In.
  eapply Forall_forall in Hr as [s Hs]; [|done]. simpl in *. by subst v.
Qed.

Lemma pattern_keys_NoDup : NoDup pattern_keys.
Proof. apply (bool_decide_unpack _). by vm_compute. Qed.

(** X18. The frame of yap.py.  When the tasks of the pool run the
    [scrape_website] of yap.py, whenever they start and end, a scrape
    whose pool can be created always returns: the text records hold
    nothing but strings, so [drop_duplicates] cannot raise.  A frame
    with rows has exactly the five columns of the pattern records, and
    no cell of it is missing; there is no column that names the website
    or the method. *)
Theorem yap_scrape_returns `{Runtime}
  (driver_page_source : nat → string → result string) (self : Scraper)
  (start : Website → nat) (finish : Website → Z) (websites : list Website)
  (search_query : option string)
  (selected_categories : option (list string)) (max_websites : Z) :
  0 < pool_size self
        (websites_to_scrape websites selected_categories max_websites) →
  ∃ df all_tables,
    Yap.smart_scrape_tables self
      (λ w, Yap.run_task driver_page_source self search_query (start w)
              (finish w) w)
      websites search_query selected_categories max_websites
    = Ok (df, all_tables)
    ∧ (rows df ≠ [] → columns df = pattern_keys)
    ∧ (∀ row, row ∈ rows df →
         length row = length pattern_keys
         ∧ Forall (λ c, ∃ s, c = Some (PStr s)) row).
Proof.
  intros Hpool. unfold Yap.smart_scrape_tables.
  destruct (negb (truthy websites)).
  { eexists _, _. split; [done|]. split; [done|].
    by intros row Hrow%elem_of_nil. }
  assert ((pool_size self
             (websites_to_scrape websites selected_categories max_websites)
           <=? 0) = false) as ->.
  { apply Z.leb_gt. lia. }
  rewrite yap_collected. cbv zeta.
  set (finished := sort_by _ _).
  set (all_data := flat_map _ finished).
  set (all_tables := flat_map _ finished).
  assert (∀ r, r ∈ all_data → r.*1 = pattern_keys ∧ all_strings r) as Hdata.
  { intros r Hr. unfold all_data in Hr.
    apply list_elem_of_In, in_flat_map in Hr as (w & _ & Hr).
    apply list_elem_of_In in Hr. by eapply yap_task_text. }
  destruct (truthy all_data) eqn:Htruthy.
  2:{ eexists _, _. split; [done|]. split; [done|].
      by intros row Hrow%elem_of_nil. }
  assert (all_columns all_data = pattern_keys) as Hcols.
  { apply all_columns_same.
    - apply pattern_keys_NoDup.
    - by destruct all_data.
    - intros r Hr. by apply Hdata. }
  assert (all_hashable all_data = true) as Hhash.
  { apply forallb_forall. intros r Hr%list_elem_of_In.
    apply all_strings_hashable. by apply Hdata. }
  unfold drop_duplicates. rewrite (pd_DataFrame_hashable _ Hhash).
  eexists _, _. split; [done|]. simpl. split; [done|].
  intros row Hrow. apply keep_first_elem in Hrow as [Hrow _].
  apply list_elem_of_fmap in Hrow as (r & -> & Hr).
  destruct (Hdata r Hr) as [Hkeys Hstrings].
  rewrite Hcols. unfold row_of. split; [by rewrite length_map|].
  apply Forall_map, Forall_forall. intros c Hc.
  rewrite <- Hkeys in Hc. destruct (dict_get_of_key c r Hc) as [v Hv].
  pose proof (dict_get_elem _ _ _ Hv) as Hin.
  eapply Forall_forall in Hstrings as [s Hs]; [|done]. simpl in Hs. subst v.
  exists s. unfold cell_of. by rewrite Hv.
Qed.

Lemma yap_scrape_returns_witness :
  0 < pool_size demo_scraper (websites_to_scrape two_sources None 2)
  ∧ ∃ df all_tables,
      Yap.smart_scrape_tables demo_scraper
        (λ w, Yap.run_task no_driver demo_scraper (Some "inflation") 0 0 w)
        two_sources (Some "inflation") None 2
      = Ok (df, all_tables)
      ∧ df_len df = 1%nat
      ∧ (rows df ≠ [] → columns df = pattern_keys)
      ∧ (∀ row, row ∈ rows df →
           length row = length pattern_keys
           ∧ Forall (λ c, ∃ s, c = Some (PStr s)) row).
Proof.
  assert (0 < pool_size demo_scraper (websites_to_scrape two_sources None 2))
    as Hpool by reflexivity.
  split; [exact Hpool|].
  destruct (yap_scrape_returns no_driver demo_scraper (λ _, 0%nat) (λ _, 0)
              two_sources (Some "inflation") None 2 Hpool)
    as (df & all_tables & Hrun & Hcols & Hrows).
  exists df, all_tables. split; [exact Hrun|].
  split; [|split; [exact Hcols|exact Hrows]].
  vm_compute in Hrun. by injection Hrun as <- _.
Defined.

(* ===================================================================== *)
(** * 28. The topic scraper (my.py) *)
(* ===================================================================== *)

Lemma append_assoc (a b c : string) : (a +:+ b) +:+ c = a +:+ (b +:+ c).
Proof. induction a as [|x a IH]; [done|]. by rewrite !append_cons, IH. Qed.

Lemma length_append (a b : string) :
  String.length (a +:+ b) = (String.length a + String.length b)%nat.
Proof.
  induction a as [|x a IH]; [done|]. rewrite append_cons. simpl. by rewrite IH.
Qed.

Lemma str_take_drop (n : nat) (s : string) :
  str_take n s +:+ str_drop n s = s.
Proof.
  revert s. induction n as [|n IH]; intros [|c s]; simpl; try done.
  by rewrite append_cons, IH.
Qed.

Lemma str_take_length (n : nat) (s : string) :
  (String.length (str_take n s) ≤ n)%nat.
Proof.
  revert s. induction n as [|n IH]; intros [|c s]; simpl; try lia.
  specialize (IH s). lia.
Qed.

Lemma str_drop_app (n : nat) (a b : string) :
  (n ≤ String.length a)%nat → str_drop n (a +:+ b) = str_drop n a +:+ b.
Proof.
  revert a. induction n as [|n IH]; intros [|c a] Hn; simpl in *;
    try done; try lia.
  apply IH. lia.
Qed.

Lemma str_drop_length (n : nat) (s : string) :
  String.length (str_drop n s) = (String.length s - n)%nat.
Proof.
  revert s. induction n as [|n IH]; intros [|c s]; simpl; try done.
Qed.

Lemma str_take_app (n : nat) (a b : string) :
  (String.length a ≤ n)%nat →
  str_take n (a +:+ b) = a +:+ str_take (n - String.length a) b.
Proof.
  revert n. induction a as [|c a IH]; intros n Hn; simpl in *.
  - rewrite !append_nil. by rewrite Nat.sub_0_r.
  - destruct n as [|n]; [lia|]. rewrite !append_cons. simpl.
    rewrite IH by lia. done.
Qed.

(** [s.find(t)] is -1, or the length of a text that [t] follows in [s]. *)
Lemma find_from_spec (i : Z) (s t : string) :
  0 ≤ i →
  find_from i s t = -1
  ∨ ∃ before after,
      s = before +:+ t +:+ after
      ∧ find_from i s t = i + Z.of_nat (String.length before).
Proof.
  revert i. induction s as [|c s IH]; intros i Hi.
  - cbn [find_from]. destruct (String.prefix t "") eqn:Hprefix; [|by left].
    right. apply prefix_iff in Hprefix as [rest Hrest].
    exists "", rest. rewrite append_nil. split; [done|]. simpl. lia.
  - cbn [find_from]. destruct (String.prefix t (String c s)) eqn:Hprefix.
    + right. apply prefix_iff in Hprefix as [rest Hrest].
      exists "", rest. rewrite append_nil. split; [done|]. simpl. lia.
    + destruct (IH (i + 1)) as [Hnone|(before & after & -> & Hfound)];
        [lia|by left|].
      right. exists (String c before), after. rewrite append_cons.
      split; [done|]. rewrite Hfound. simpl String.length. lia.
Qed.

Lemma get_context_found (text match_ before after : string) (chars : Z) :
  0 ≤ chars →
  text = before +:+ match_ +:+ after →
  find text match_ = Z.of_nat (String.length before) →
  ∃ left_ right_ : string,
    My.get_context text match_ chars = left_ +:+ match_ +:+ right_
    ∧ (Z.of_nat (String.length left_) ≤ chars)
    ∧ (Z.of_nat (String.length right_) ≤ chars)
    ∧ ∃ skipped rest, before = skipped +:+ left_ ∧ after = right_ +:+ rest.
Proof.
  intros Hchars Htext Hfind. unfold My.get_context. rewrite Hfind.
  destruct (_ =? -1) eqn:Hidx; [apply Z.eqb_eq in Hidx; lia|]. cbv zeta.
  set (idx := Z.of_nat (String.length before)).
  set (len := Z.of_nat (String.length text)).
  set (start := Z.max 0 (idx - chars)).
  set (end_ := Z.min len (idx + Z.of_nat (String.length match_) + chars)).
  assert (len = idx + Z.of_nat (String.length match_)
                + Z.of_nat (String.length after)) as Hlen.
  { unfold len, idx. rewrite Htext, !length_append. lia. }
  assert (0 ≤ start ≤ idx) as Hstart by (unfold start, idx; lia).
  assert (idx + Z.of_nat (String.length match_) ≤ end_ ≤ len) as Hend.
  { unfold end_. lia. }
  unfold str_slice. fold len. unfold slice_index.
  assert ((start <? 0) = false) as -> by (apply Z.ltb_ge; lia).
  assert ((end_ <? 0) = false) as -> by (apply Z.ltb_ge; lia).
  rewrite !Z.min_l by lia.
  exists (str_drop (Z.to_nat start) before),
    (str_take (Z.to_nat (end_ - idx - Z.of_nat (String.length match_))) after).
  assert (String.length (str_drop (Z.to_nat start) before)
          = Z.to_nat (idx - start)) as Hleft.
  { rewrite str_drop_length. unfold idx. lia. }
  split_and!.
  - rewrite Htext, str_drop_app by (unfold idx in *; lia).
    rewrite str_take_app by lia. f_equal.
    rewrite str_take_app by lia. f_equal. f_equal. lia.
  - rewrite Hleft. unfold start. lia.
  - pose proof (str_take_length
                  (Z.to_nat (end_ - idx - Z.of_nat (String.length match_)))
                  after). unfold end_ in *. lia.
  - exists (str_take (Z.to_nat start) before),
      (str_drop (Z.to_nat (end_ - idx - Z.of_nat (String.length match_)))
         after).
    by rewrite !str_take_drop.
Qed.

(** X19. The context of a match.  For a width [chars >= 0] (the code
    uses 100), [get_context] returns a text that contains the match; it
    is the match with at most [chars] characters of the page on either
    side, so it is never longer than the match by more than twice
    [chars], and it is a piece of the page whenever the match occurs in
    the page.  A match that is not found in the page is returned
    alone. *)
Theorem get_context_contains_the_match (text match_ : string) (chars : Z) :
  0 ≤ chars →
  let context := My.get_context text match_ chars in
  substring match_ context
  ∧ Z.of_nat (String.length context)
    ≤ Z.of_nat (String.length match_) + 2 * chars
  ∧ (find text match_ = -1 → context = match_)
  ∧ (find text match_ ≠ -1 → substring context text).
Proof.
  intros Hchars context. subst context.
  destruct (find_from_spec 0 text match_) as
    [Hnone|(before & after & Htext & Hfound)]; [done| |].
  - assert (My.get_context text match_ chars = match_) as Hcontext.
    { unfold My.get_context, find. by rewrite Hnone. }
    rewrite Hcontext. split_and!; [|lia|done|done].
    exists "", "". rewrite append_nil.
    clear. induction match_ as [|c m IH]; [done|].
    by rewrite append_cons, <- IH.
  - destruct (get_context_found text match_ before after chars Hchars Htext)
      as (left_ & right_ & -> & Hleft & Hright & skipped & rest & -> & ->).
    { unfold find. rewrite Hfound. lia. }
    split_and!.
    + by exists left_, right_.
    + rewrite !length_append. lia.
    + unfold find. rewrite Hfound. lia.
    + intros _. exists skipped, rest. rewrite Htext.
      by rewrite !append_assoc.
Qed.

Lemma get_context_contains_the_match_witness :
  0 ≤ 5
  ∧ My.get_context "Inflation in Nigeria rose to 28.9% in December" "28.9%" 5
    = "e to 28.9% in D"
  ∧ substring "28.9%"
      (My.get_context "Inflation in Nigeria rose to 28.9% in December"
         "28.9%" 5).
Proof.
  split; [done|]. split; [reflexivity|].
  apply (get_context_contains_the_match
           "Inflation in Nigeria rose to 28.9% in December" "28.9%" 5).
  done.
Defined.

Lemma existsb_contains (s : string) (terms : list string) :
  existsb (λ term, contains s (lower term)) terms = true
  ↔ ∃ term, term ∈ terms ∧ substring (lower term) s.
Proof.
  rewrite existsb_exists. split.
  - intros (term & Hin%list_elem_of_In & Hterm%contains_iff). eauto.
  - intros (term & Hin%list_elem_of_In & Hterm%contains_iff). eauto.
Qed.

(** X20. The text records of a topic page.  Whether a match is kept
    does not depend on the match: if one of the search terms occurs in
    the text of the page (in any case of the letters), every match of
    the three patterns is kept, up to ten for each pattern; if none
    does, or if there is no search term, nothing is kept.  A record
    holds the match under ['value'], its context of width 100 in the
    text of the page under ['context'], the URL of the page and the
    day. *)
Theorem text_data_is_all_or_nothing `{Runtime} (soup : Page) (url : string)
  (search_terms : list string) :
  let text := get_text soup in
  let data := My.extract_text_data soup url search_terms in
  ((∃ term, term ∈ search_terms ∧ substring (lower term) (lower text)) →
   map (dict_get "value") data
   = map (λ m, Some (PStr m))
         (flat_map (λ pattern, take 10 (re_findall false pattern text))
                   My.patterns))
  ∧ (¬ (∃ term, term ∈ search_terms ∧ substring (lower term) (lower text)) →
     data = [])
  ∧ (length data ≤ 30)%nat
  ∧ Forall (λ r, ∃ value,
                dict_get "value" r = Some (PStr value)
                ∧ dict_get "context" r
                  = Some (PStr (My.get_context text value 100))
                ∧ dict_get "source_url" r = Some (PStr url)
                ∧ dict_get "scrape_date" r = Some (PStr today))
           data.
Proof.
  intros text data. subst data. unfold My.extract_text_data. fold text.
  destruct (existsb (λ term, contains (lower text) (lower term)) search_terms)
    eqn:Hrelevant.
  - split_and!.
    + intros _. unfold My.patterns. simpl. rewrite !app_nil_r.
      rewrite !map_app. repeat f_equal.
      all: induction (take 10 _) as [|m ms IH]; simpl; by rewrite ?IH.
    + intros Hnone. exfalso. apply Hnone. by apply existsb_contains.
    + etrans; [apply (flat_map_length _ 10)|done].
      intros pattern.
      etrans; [apply (flat_map_length _ 1)|rewrite length_take; lia].
      intros m. simpl. lia.
    + apply Forall_forall. intros r Hr.
      apply list_elem_of_In, in_flat_map in Hr as (pattern & _ & Hr).
      apply in_flat_map in Hr as (m & _ & [<-|[]]).
      by exists m.
  - assert (∀ ms : list string,
              flat_map (λ _ : string, @nil pydict) ms = []) as Hnil.
    { induction ms; simpl; done. }
    split_and!.
    + intros Hsome. apply existsb_contains in Hsome. congruence.
    + intros _. unfold My.patterns. simpl. by rewrite !Hnil.
    + unfold My.patterns. simpl. rewrite !Hnil. simpl. lia.
    + unfold My.patterns. simpl. rewrite !Hnil. constructor.
Qed.

Lemma extract_text_data_no_terms `{Runtime} (soup : Page) (url : string) :
  My.extract_text_data soup url [] = [].
Proof.
  unfold My.extract_text_data, My.patterns. simpl.
  assert (∀ ms : list string,
            flat_map (λ _ : string, @nil pydict) ms = []) as Hnil.
  { induction ms; simpl; done. }
  by rewrite !Hnil.
Qed.

Lemma extract_text_data_length `{Runtime} (soup : Page) (url : string)
  (search_terms : list string) :
  (length (My.extract_text_data soup url search_terms) ≤ 30)%nat.
Proof.
  unfold My.extract_text_data.
  etrans; [apply (flat_map_length _ 10)|done].
  intros pattern.
  etrans; [apply (flat_map_length _ 1)|rewrite length_take; lia].
  intros m. destruct (existsb _ _); simpl; lia.
Qed.

Lemma scrape_source_spec `{Runtime} (source : My.Source)
  (search_terms : list string) (t : nat) :
  ∃ data tables,
    My.scrape_source source search_terms t = (S t, Ok (data, tables))
    ∧ (tables = [] → data = [])
    ∧ (search_terms = [] → data = [])
    ∧ (length data ≤ 30)%nat.
Proof.
  unfold My.scrape_source, io_try, io_bind, send.
  destruct (net t (Get (My.s_url source) 10)) as [response|e].
  2:{ eexists _, _. split; [done|]. split_and!; simpl; try done; lia. }
  destruct (negb (status_code response =? 200)).
  { eexists _, _. split; [done|]. split_and!; simpl; try done; lia. }
  cbv zeta.
  destruct (truthy (My.extract_all_tables _ _ _)) eqn:Htables.
  2:{ eexists _, _. split; [done|]. split_and!; simpl; try done; lia. }
  eexists _, _. split; [done|]. split_and!.
  - intros Hnil. by rewrite Hnil in Htables.
  - intros ->. apply extract_text_data_no_terms.
  - apply extract_text_data_length.
Qed.

Lemma scrape_sources_spec `{Runtime} (sources : list My.Source)
  (search_terms : list string) (all_data : list pydict)
  (all_tables : list My.table_info) (t : nat) :
  ∃ data tables,
    My.scrape_sources sources search_terms all_data all_tables t
    = ((t + length sources)%nat, Ok (all_data ++ data, all_tables ++ tables))
    ∧ (tables = [] → data = [])
    ∧ (search_terms = [] → data = [])
    ∧ (length data ≤ 30 * length sources)%nat.
Proof.
  revert all_data all_tables t.
  induction sources as [|source sources IH]; intros all_data all_tables t.
  - exists [], []. simpl. unfold io_ret.
    rewrite !app_nil_r, Nat.add_0_r. by split_and!.
  - simpl My.scrape_sources. unfold io_bind.
    destruct (scrape_source_spec source search_terms t)
      as (data & tables & -> & Htables & Hterms & Hlen).
    destruct (IH (all_data ++ (data, tables).1)
                 (all_tables ++ (data, tables).2) (S t))
      as (data' & tables' & -> & Htables' & Hterms' & Hlen').
    exists (data ++ data'), (tables ++ tables'). simpl.
    rewrite <- !app_assoc, Nat.add_succ_r. split; [done|]. split_and!.
    + intros [-> ->]%app_eq_nil. by rewrite Htables, Htables'.
    + intros Hnil. by rewrite Hterms, Hterms'.
    + rewrite length_app. lia.
Qed.

Lemma get_topic_sources_length (topic : string) :
  (3 ≤ length (My.get_topic_sources topic) ≤ 5)%nat.
Proof.
  unfold My.get_topic_sources, My.topic_sources. simpl.
  repeat case_match; simpl; lia.
Qed.

(** X21. Scraping a topic.  [scrape_topic] never raises.  It visits the
    first [max_sources] sources of the topic one after the other and
    sends exactly one GET for each, also after a failure; a topic has
    three sources, an unknown topic the five default ones.  The text of
    a page is read only if tables were found on it, so text records are
    never returned without tables; there are at most 30 of them for
    each source, and none at all if there is no search term. *)
Theorem scrape_topic_visits_each_source `{Runtime} (topic : string)
  (search_terms : list string) (max_sources : Z) (t : nat) :
  let sources := slice_to max_sources (My.get_topic_sources topic) in
  ∃ all_data all_tables,
    My.scrape_topic topic search_terms max_sources t
    = ((t + length sources)%nat, Ok (all_data, all_tables))
    ∧ (length sources ≤ 5)%nat
    ∧ (0 ≤ max_sources → Z.of_nat (length sources) ≤ max_sources)
    ∧ (3 ≤ max_sources → (3 ≤ length sources)%nat)
    ∧ (all_tables = [] → all_data = [])
    ∧ (search_terms = [] → all_data = [])
    ∧ (length all_data ≤ 30 * length sources)%nat.
Proof.
  intros sources. unfold My.scrape_topic. fold sources.
  destruct (scrape_sources_spec sources search_terms [] [] t)
    as (data & tables & -> & Htables & Hterms & Hlen).
  exists data, tables. split; [done|].
  pose proof (get_topic_sources_length topic) as Htopic.
  assert (length sources ≤ length (My.get_topic_sources topic))%nat as Hle.
  { unfold sources, slice_to. destruct (0 <=? max_sources);
      rewrite length_take; lia. }
  split_and!; try done.
  - lia.
  - intros Hmax. unfold sources. rewrite slice_to_nonneg by done.
    rewrite length_take. lia.
  - intros Hmax. unfold sources. rewrite slice_to_nonneg by lia.
    rewrite length_take. lia.
Qed.

(* ===================================================================== *)
(** * 29. The caller of the scrape (super.py) *)
(* ===================================================================== *)

Lemma has_key_iff (k : string) (r : pydict) :
  has_key k r = true ↔ k ∈ r.*1.
Proof.
  unfold has_key. split.
  - destruct (dict_get k r) eqn:Hget; [|done]. intros _.
    by eapply dict_get_key.
  - intros [v ->]%dict_get_of_key. done.
Qed.

(** X22. The test for sample data in [main].  The test reads the note
    of the first row only.  On the frame of the sample data it is true,
    whatever the query; on a frame without a [Note] column it is false;
    if the first record has a note, the answer is whether that note
    contains [sample].  But if the first record has no note and a later
    one has (the record of the basic text extraction of a PDF has one),
    the first cell of the column is missing and the test raises
    AttributeError. *)
Theorem sample_warning_reads_the_first_row `{Runtime} (r : pydict)
  (data : list pydict) (df : DataFrame) (search_query : string) :
  drop_duplicates (pd_DataFrame (r :: data)) = Ok df →
  ((∀ r', r' ∈ r :: data → has_key "Note" r' = false) →
   sample_warning df = Ok false)
  ∧ (∀ note, dict_get "Note" r = Some (PStr note) →
       sample_warning df = Ok (contains (lower note) "sample"))
  ∧ (has_key "Note" r = false →
     (∃ r', r' ∈ data ∧ has_key "Note" r' = true) →
     sample_warning df = Raised (OtherError "AttributeError"))
  ∧ sample_warning (pd_DataFrame (Super.get_sample_data search_query))
    = Ok true.
Proof.
  unfold drop_duplicates. destruct (forallb _ _); [|done]. intros [= <-].
  unfold sample_warning. cbn [columns rows pd_DataFrame map keep_first existsb].
  split_and!.
  - intros Hnone.
    destruct (mem "Note" (all_columns (r :: data))) eqn:Hmem; [|done].
    apply mem_iff, all_columns_elem in Hmem as (r' & Hr' & Hkey).
    apply has_key_iff in Hkey. by rewrite Hnone in Hkey.
  - intros note Hnote.
    assert ("Note" ∈ all_columns (r :: data)) as Hcol.
    { apply all_columns_elem. exists r. split; [left|].
      by eapply dict_get_key. }
    rewrite (proj2 (mem_iff _ _) Hcol), cell_at_row_of by done.
    unfold cell_of. by rewrite Hnote.
  - intros Hr (r' & Hr' & Hkey).
    assert ("Note" ∈ all_columns (r :: data)) as Hcol.
    { apply all_columns_elem. exists r'. split; [by right|].
      by apply has_key_iff. }
    rewrite (proj2 (mem_iff _ _) Hcol), cell_at_row_of by done.
    unfold cell_of. unfold has_key in Hr.
    by destruct (dict_get "Note" r).
  - unfold Super.get_sample_data.
    by destruct (contains (lower search_query) "gdp"),
      (contains (lower search_query) "population").
Qed.

Lemma sample_warning_reads_the_first_row_witness :
  let html_record := [ ("Statistical_Match", PStr "28.9%");
                       ("Source_URL", PStr html_url) ] in
  let pdf_record := basic_record "Annual report" pdf_url in
  ∃ df,
    drop_duplicates (pd_DataFrame [html_record; pdf_record]) = Ok df
    ∧ df_len df = 2%nat
    ∧ sample_warning df = Raised (OtherError "AttributeError")
    ∧ sample_warning (pd_DataFrame (Super.get_sample_data "gdp")) = Ok true.
Proof.
  intros html_record pdf_record. eexists. split; [reflexivity|].
  split; [reflexivity|].
  destruct (sample_warning_reads_the_first_row html_record [pdf_record] _
              "gdp" eq_refl) as (_ & _ & Hraises & Hsample).
  split; [|exact Hsample].
  apply Hraises; [reflexivity|].
  exists pdf_record. split; [left|reflexivity].
Defined.

(* ===================================================================== *)
(** * 30. The tables of a page *)
(* ===================================================================== *)

Lemma manual_tables_from_nothing `{Runtime} (html_tables : list HtmlTable)
  (table_idx : nat) (url : string) (search_query : option string) :
  Yap.manual_tables html_tables table_idx url search_query []
  = take 1 (for_enumerate (manual_candidate url search_query)
              (length html_tables) table_idx html_tables).
Proof.
  revert table_idx.
  induction html_tables as [|table html_tables IH]; intros table_idx;
    [done|].
  simpl. unfold manual_candidate at 1.
  destruct (Yap._extract_table_manually table table_idx url)
    as [table_data|]; [|apply IH].
  destruct (Yap._table_matches_search table_data search_query);
    [|apply IH].
  simpl. apply manual_tables_skips.
Qed.

(** X23. The manual pass of yap.py.  On every page, the loop over the
    table tags adds nothing to the tables pandas reported when there is
    one, and otherwise stops at the first tag it can read: of all the
    tables it would report one by one, it reports the first only.  The
    test meant to skip the tags pandas has read (yap.py 463) raises
    KeyError as soon as one table is collected, and the [except] of the
    loop skips the tag. *)
Theorem yap_manual_pass_reports_one_table `{Runtime} (soup : Page)
  (url : string) (search_query : option string) :
  let from_pandas := Yap.pandas_tables soup url search_query in
  let one_by_one :=
    for_enumerate (manual_candidate url search_query)
      (length (find_tables soup)) 0 (find_tables soup) in
  Yap.manual_tables (find_tables soup) 0 url search_query from_pandas
  = (if truthy from_pandas then from_pandas else take 1 one_by_one)
  ∧ (length (Yap.manual_tables (find_tables soup) 0 url search_query
               from_pandas)
     ≤ Nat.max 1 (length from_pandas))%nat.
Proof.
  intros from_pandas one_by_one.
  assert (Yap.manual_tables (find_tables soup) 0 url search_query from_pandas
          = if truthy from_pandas then from_pandas else take 1 one_by_one)
    as Heq.
  { destruct from_pandas as [|t tables_data]; simpl truthy; cbv iota.
    - apply manual_tables_from_nothing.
    - apply manual_tables_skips. }
  split; [done|]. rewrite Heq.
  destruct (truthy from_pandas); [lia|]. rewrite length_take. lia.
Qed.

Lemma metadata_of_describes `{Runtime} (url table_name method : string)
  (df : DataFrame) :
  describes url (metadata_of url table_name method df) df.
Proof. by split_and!. Qed.

Lemma yap_manual_describes `{Runtime} (table : HtmlTable) (i : nat)
  (url : string) (t : Yap.table_info) :
  Yap._extract_table_manually table i url = Some t →
  describes url (Yap.metadata t) (Yap.dataframe t).
Proof.
  unfold Yap._extract_table_manually.
  destruct (table_tr table) as [|header_row [|row data_rows]]; try done.
  destruct (negb (truthy _)); [done|]. intros [= <-]. simpl.
  apply metadata_of_describes.
Qed.

Lemma yap_manual_tables_elem `{Runtime} (html_tables : list HtmlTable)
  (table_idx : nat) (url : string) (search_query : option string)
  (tables_data : list Yap.table_info) (t : Yap.table_info) :
  t ∈ Yap.manual_tables html_tables table_idx url search_query tables_data →
  t ∈ tables_data
  ∨ ∃ i table, Yap._extract_table_manually table i url = Some t
               ∧ Yap._table_matches_search t search_query = true.
Proof.
  revert table_idx tables_data.
  induction html_tables as [|table html_tables IH];
    intros table_idx tables_data; simpl; [by left|].
  intros [Hin|Hnew]%IH; [|by right].
  destruct (Yap.already_found table_idx tables_data) as [[]|e];
    try by left.
  destruct (Yap._extract_table_manually table table_idx url)
    as [table_data|] eqn:Hmanual; [|by left].
  destruct (Yap._table_matches_search table_data search_query) eqn:Hmatch;
    [|by left].
  apply elem_of_app in Hin as [Hin| ->%list_elem_of_singleton]; [by left|].
  right. eauto.
Qed.

(** X24. What [extract_all_tables] of yap.py returns.  Every table it
    returns, whether pandas read it, the manual pass built it from the
    rows or it was laid out with divs, matches the search query, and its
    metadata describe the frame that comes with them: the URL of the
    page, the numbers of rows and of columns of that frame and the names
    of its columns. *)
Theorem yap_tables_match_and_are_described `{Runtime} (soup : Page)
  (url : string) (search_query : option string) (t : Yap.table_info) :
  t ∈ Yap.extract_all_tables soup url search_query →
  Yap._table_matches_search t search_query = true
  ∧ describes url (Yap.metadata t) (Yap.dataframe t).
Proof.
  unfold Yap.extract_all_tables. intros [Hin|Hin]%elem_of_app.
  - apply yap_manual_tables_elem in Hin
      as [Hin|(i & table & Hmanual & Hmatch)].
    + unfold Yap.pandas_tables in Hin.
      destruct (soup_read_html soup) as [df_list|e];
        [|by apply elem_of_nil in Hin].
      apply for_enumerate_elem in Hin as (j & df & _ & _ & Hin).
      destruct (_ && _); [|by apply elem_of_nil in Hin].
      destruct (Yap._table_matches_search _ search_query) eqn:Hmatch;
        [|by apply elem_of_nil in Hin].
      apply list_elem_of_singleton in Hin as ->. split; [done|].
      apply metadata_of_describes.
    + split; [done|]. by eapply yap_manual_describes.
  - apply list_elem_of_In, filter_In in Hin as [Hin Hmatch].
    split; [done|].
    unfold Yap._extract_div_tables in Hin.
    apply in_flat_map in Hin as (divs & _ & Hin).
    apply list_elem_of_In, for_enumerate_elem in Hin
      as (j & div & _ & _ & Hin).
    unfold Yap.div_table in Hin.
    destruct (div_rows div) as [|first_row [|row rest]];
      try by apply elem_of_nil in Hin.
    destruct (truthy _); [|by apply elem_of_nil in Hin].
    destruct (Yap._table_matches_search _ search_query);
      [|by apply elem_of_nil in Hin].
    apply list_elem_of_singleton in Hin as ->. simpl.
    apply metadata_of_describes.
Qed.

Lemma yap_tables_match_and_are_described_witness :
  ∃ t,
    Yap.extract_all_tables two_tables_page html_url (Some "lagos") = [t]
    ∧ t ∈ Yap.extract_all_tables two_tables_page html_url (Some "lagos")
    ∧ Yap._table_matches_search t (Some "lagos") = true
    ∧ describes html_url (Yap.metadata t) (Yap.dataframe t).
Proof.
  eexists. split; [reflexivity|].
  assert (∀ t : Yap.table_info, t ∈ [t]) as Hin by (intros; left).
  split; [apply Hin|].
  apply (yap_tables_match_and_are_described two_tables_page html_url
           (Some "lagos")).
  apply Hin.
Defined.

(** X25. yap.py without an accessible site.  [get_working_websites] of
    yap.py sends one HEAD request to each of its eight sites and never
    raises.  It has no fallback list: when no site answers, it returns
    the empty list, and [smart_scrape_tables] then returns the empty
    frame and no table without creating a pool, whatever the categories
    and the limit; where super.py raises ValueError or returns sample
    data, yap.py returns nothing. *)
Theorem yap_without_accessible_site `{Runtime} (t : nat) :
  (∀ i w, Yap.websites !! i = Some w → answers (t + i) (w_url w) = false) →
  Yap.get_working_websites t = ((t + 8)%nat, Ok [])
  ∧ ∀ self submit search_query selected_categories max_websites,
      Yap.smart_scrape_tables self submit [] search_query
        selected_categories max_websites
      = Ok (pd_DataFrame [], []).
Proof.
  intros Hnone. split; [|done].
  unfold Yap.get_working_websites. rewrite get_working_websites_eq.
  rewrite mask_all_false; [done|].
  apply Forall_forall. intros b Hb.
  apply list_elem_of_lookup in Hb as [i Hi].
  rewrite list_lookup_imap in Hi.
  destruct (Yap.websites !! i) as [w|] eqn:Hw; [|done].
  simpl in Hi. injection Hi as <-. by apply Hnone.
Qed.

Lemma yap_without_accessible_site_witness :
  (∀ i w, Yap.websites !! i = Some w → answers (0 + i) (w_url w) = false)
  ∧ Yap.get_working_websites 0%nat = (8%nat, Ok [])
  ∧ Yap.smart_scrape_tables demo_scraper tables_only [] (Some "gdp")
      (Some ["Health Statistics"]) 8
    = Ok (pd_DataFrame [], []).
Proof.
  assert (∀ i w, Yap.websites !! i = Some w →
                 answers (0 + i) (w_url w) = false) as Hnone.
  { intros i w Hw.
    do 8 (destruct i as [|i]; [by injection Hw as <-|]). done. }
  destruct (yap_without_accessible_site 0%nat Hnone) as [Hworking Hscrape].
  split; [exact Hnone|]. split; [exact Hworking|]. apply Hscrape.
Defined.

(* ===================================================================== *)
(** * 31. The logger *)
(* ===================================================================== *)

Lemma get_logs_loop_eq (queue logs : list string) :
  get_logs_loop queue logs = (logs ++ queue, []).
Proof.
  revert logs. induction queue as [|m queue IH]; intros logs; simpl.
  - by rewrite app_nil_r.
  - by rewrite IH, <- app_assoc.
Qed.

Lemma get_logs_eq (self : ThreadSafeLogger) :
  get_logs self = (log_queue self, {| log_queue := []; logs := logs self |}).
Proof. unfold get_logs. by rewrite get_logs_loop_eq. Qed.

Lemma run_calls_spec (calls : list call) (self : ThreadSafeLogger)
  (returned : list (list string)) :
  logs self = concat returned ++ log_queue self →
  let '(self', returned') := run_calls calls self returned in
  logs self' = logs self ++ messages_of calls
  ∧ logs self' = concat returned' ++ log_queue self'.
Proof.
  revert self returned.
  induction calls as [|[timestamp message|] calls IH];
    intros self returned Hinv; simpl.
  - by rewrite app_nil_r.
  - specialize (IH (add_log timestamp message self) returned).
    destruct (run_calls calls _ returned) as [self' returned'].
    destruct IH as [Hlogs Hinv'].
    { simpl. rewrite Hinv. by rewrite <- !app_assoc. }
    split; [|done]. rewrite Hlogs. simpl. by rewrite <- app_assoc.
  - rewrite get_logs_eq.
    specialize (IH {| log_queue := []; logs := logs self |}
                  (returned ++ [log_queue self])).
    destruct (run_calls calls _ _) as [self' returned'].
    destruct IH as [Hlogs Hinv'].
    { simpl. rewrite Hinv, concat_app. simpl. by rewrite !app_nil_r. }
    done.
Qed.

(** X26. The logger, one call after the other.  After any sequence of
    calls of [add_log] and [get_logs] on a new logger, [get_all_logs]
    holds the messages of all the calls of [add_log] in their order, and
    these are exactly what the calls of [get_logs] have returned so far,
    in order, followed by what is still in the queue: no message is
    returned twice and none is lost.  [get_logs] returns the whole queue
    and empties it, so that a second call right after it returns
    nothing. *)
Theorem logger_returns_each_message_once (calls : list call) :
  let '(self, returned) := run_calls calls new_logger [] in
  get_all_logs self = messages_of calls
  ∧ get_all_logs self = concat returned ++ log_queue self
  ∧ (get_logs self).1 = log_queue self
  ∧ (get_logs (get_logs self).2).1 = [].
Proof.
  pose proof (run_calls_spec calls new_logger [] eq_refl) as Hspec.
  destruct (run_calls calls new_logger []) as [self returned].
  destruct Hspec as [Hlogs Hinv]. rewrite !get_logs_eq. by split_and!.
Qed.

(** X27. The logger, shared by threads.  However the steps of the
    threads interleave (the [put] and the [append] of a call of
    [add_log] are two steps, and other threads may run between them),
    the messages in [logs] together with those of the calls that have
    not yet appended are, up to their order, the messages taken from the
    queue together with those still in it.  So once no call of
    [add_log] is under way, [get_all_logs] holds exactly the messages
    that [get_logs] has returned or will return, each one once; only
    their order may differ. *)
Theorem logger_loses_no_message (w : Shared) :
  reachable w →
  logs (logger w) ++ in_add_log w ≡ₚ taken w ++ log_queue (logger w)
  ∧ (in_add_log w = [] →
     get_all_logs (logger w) ≡ₚ taken w ++ log_queue (logger w)).
Proof.
  intros Hreach.
  assert (logs (logger w) ++ in_add_log w
          ≡ₚ taken w ++ log_queue (logger w)) as Hinv.
  { induction Hreach as [|w w' _ IH Hstep]; [done|].
    destruct Hstep as [timestamp message w|m before after w Hin
                      |m queue w Hqueue]; simpl.
    - rewrite <- Permutation_middle, IH.
      rewrite app_assoc. by rewrite <- Permutation_cons_append.
    - rewrite Hin in IH. rewrite <- IH.
      rewrite <- !app_assoc. simpl.
      apply Permutation_app_head.
      by rewrite <- Permutation_middle.
    - rewrite Hqueue in IH. rewrite IH.
      rewrite <- app_assoc. done. }
  split; [done|]. intros Hnone. rewrite Hnone, app_nil_r in Hinv. done.
Qed.

Lemma logger_loses_no_message_witness :
  let m1 := log_message "10:00:00" "Scraping NBS" in
  let m2 := log_message "10:00:00" "Scraping CBN" in
  let w := {| logger := {| log_queue := [m2]; logs := [m2; m1] |};
              in_add_log := []; taken := [m1] |} in
  reachable w
  ∧ logs (logger w) ≠ taken w ++ log_queue (logger w)
  ∧ get_all_logs (logger w) ≡ₚ taken w ++ log_queue (logger w).
Proof.
  intros m1 m2 w.
  assert (reachable w) as Hreach.
  { eapply reachable_step.
    - eapply reachable_step.
      + eapply reachable_step.
        * eapply reachable_step.
          -- eapply reachable_step; [apply reachable_new|].
             apply (step_put "10:00:00" "Scraping NBS").
          -- apply (step_put "10:00:00" "Scraping CBN").
        * apply (step_append m2 [] [m1]). reflexivity.
      + apply (step_append m1 [] []). reflexivity.
    - apply (step_get m1 [m2]). reflexivity. }
  split; [exact Hreach|]. split; [discriminate|].
  apply (logger_loses_no_message w Hreach). reflexivity.
Defined.
